(** * Phantom registration (PlusLib, TrusCalibration)

    A shallow embedding of [vtkPhantomRegistrationAlgo]
    (src/PlusLib/src/TrusCalibration/vtkPhantomRegistrationAlgo.cxx):
    [Register], [ComputeError] and [ReadConfiguration], together with
    the parts of VTK they call.

    The arithmetic of the C++ [double] is kept abstract behind the class
    [DoubleOps]; it is instantiated twice, with the real numbers (the
    idealised reading used for the numeric statements) and with the
    kernel's binary64 floats (used to run the code on concrete inputs).

    A [vtkPoints] made by [vtkPoints::New()] keeps its coordinates in
    single precision, and its array outlives a [Reset]: the model has the
    rounding ([to_float]) and, beside the points of each of the two point
    sets, the tuples that its array holds past the last point. *)

From Stdlib Require Import String Ascii Bool Arith ZArith Lia List.
From Stdlib Require Import Reals Lra.
From Stdlib Require PrimFloat Uint63 SpecFloat FloatOps.
Import ListNotations.

Set Implicit Arguments.

(** ** Scalars *)

Class DoubleOps (D : Type) : Type := {
  of_Z  : Z -> D;        (* an integer literal or an integer converted to double *)
  dadd  : D -> D -> D;
  dsub  : D -> D -> D;
  dmul  : D -> D -> D;
  ddiv  : D -> D -> D;
  dsqrt : D -> D;
  to_float : D -> D      (* the conversion to float, as a double again *)
}.

Declare Scope dbl_scope.
Delimit Scope dbl_scope with dbl.
Infix "+" := dadd : dbl_scope.
Infix "-" := dsub : dbl_scope.
Infix "*" := dmul : dbl_scope.
Infix "/" := ddiv : dbl_scope.

(** ** Status codes and the log *)

Inductive PlusStatus : Type := PLUS_FAIL | PLUS_SUCCESS.

Definition PlusStatus_eqb (a b : PlusStatus) : bool :=
  match a, b with
  | PLUS_FAIL, PLUS_FAIL | PLUS_SUCCESS, PLUS_SUCCESS => true
  | _, _ => false
  end.

(** Only the messages of level WARNING and ERROR are recorded; LOG_TRACE
    and LOG_DEBUG lines have no counterpart in the model. *)
Inductive LogLevel : Type := LOG_LEVEL_ERROR | LOG_LEVEL_WARNING.

Definition message : Type := LogLevel * string.

(** ** Ways in which the C++ leaves defined behaviour *)

Inductive PointSet : Type := Defined | Recorded.

Inductive fault : Type :=
| ReadPastEnd (which : PointSet) (i : nat)
    (* vtkPoints::GetPoint(i) with i >= GetNumberOfPoints() *)
| NullTransformMatrix
    (* a call through a NULL PhantomToReferenceTransformMatrix *)
| NullCString.
    (* std::string built from the NULL that GetAttribute returns *)

(** How a member function ends. *)
Inductive result (A : Type) : Type :=
| Returns (a : A)
| Throws                 (* an itk::ExceptionObject propagates to the caller *)
| Undefined (f : fault).

Arguments Returns {A} a.
Arguments Throws {A}.
Arguments Undefined {A} f.

Section Algo.

Context {D : Type} {ops : DoubleOps D}.

Local Open Scope dbl_scope.

(** ** VTK data *)

(** A [double[3]]. *)
Definition point : Type := D * D * D.

(** [vtkPoints]: the points with ids [0 .. GetNumberOfPoints()-1]. *)
Definition vtkPoints : Type := list point.

Definition GetNumberOfPoints (pts : vtkPoints) : nat := length pts.

(** [GetPoint] does no range check; [None] stands for a read past the
    last id. *)
Definition GetPoint (pts : vtkPoints) (i : nat) : option point := nth_error pts i.

(** What [vtkPoints] keeps of a [double[3]]: [vtkPoints::New()] makes an
    array of [float]. *)
Definition stored (p : point) : point :=
  let '(x, y, z) := p in (to_float x, to_float y, to_float z).

(** A [vtkPoints] in memory: its points, and the tuples that its array
    holds past the last point, as far as they were written before. *)
Definition PointsArray : Type := vtkPoints * list point.

(** [vtkPoints::Reset]: the object looks empty again. The array is kept,
    and the points stay in it. *)
Definition Reset (array : PointsArray) : PointsArray := ([], fst array ++ snd array).

(** What memory holds that was allocated and never written: the tuple
    found at the id [i] of an array, when [InsertPoint] passes over it and
    nothing was written there before. *)
Variable allocated : nat -> point.

Fixpoint replace_at {A : Type} (i : nat) (x : A) (l : list A) : list A :=
  match l, i with
  | [], _ => []
  | _ :: t, O => x :: t
  | h :: t, S j => h :: replace_at j x t
  end.

(** [vtkPoints::InsertPoint(i, p)]: an id in use is overwritten; an id past
    the end extends the points up to it, and the ids in between are not
    written: they show what the array held there. *)
Definition InsertPoint (i : nat) (p : point) (array : PointsArray) : PointsArray :=
  let '(pts, past) := array in
  if i <? length pts then (replace_at i (stored p) pts, past)
  else
    let passed := (i - length pts)%nat in
    (pts ++ map (fun k => nth k past (allocated (length pts + k)%nat)) (seq 0 passed)
         ++ [stored p],
     skipn (S passed) past).

(** [vtkMatrix4x4]: four rows of four elements. *)
Definition vec4 : Type := D * D * D * D.
Definition vtkMatrix4x4 : Type := vec4 * vec4 * vec4 * vec4.

Definition get4 {A : Type} (i : nat) (t : A * A * A * A) : A :=
  let '(a, b, c, d) := t in
  match i with 0 => a | 1 => b | 2 => c | _ => d end.

Definition set4 {A : Type} (i : nat) (v : A) (t : A * A * A * A) : A * A * A * A :=
  let '(a, b, c, d) := t in
  match i with
  | 0 => (v, b, c, d) | 1 => (a, v, c, d) | 2 => (a, b, v, d) | 3 => (a, b, c, v)
  | _ => t
  end.

Definition GetElement (m : vtkMatrix4x4) (i j : nat) : D := get4 j (get4 i m).

(** [SetElement(i, j, v)]; the callers below use indices below 4 only. *)
Definition SetElement (i j : nat) (v : D) (m : vtkMatrix4x4) : vtkMatrix4x4 :=
  set4 i (set4 j v (get4 i m)) m.

Definition Identity : vtkMatrix4x4 :=
  let o := of_Z 0 in let l := of_Z 1 in
  ((l, o, o, o), (o, l, o, o), (o, o, l, o), (o, o, o, l)).

(** [vtkMatrix4x4::MultiplyDoublePoint]: the product of the matrix with a
    homogeneous point, all four components, no division by the last one. *)
Definition MultiplyDoublePoint (m : vtkMatrix4x4) (p : vec4) : vec4 :=
  let '(v1, v2, v3, v4) := p in
  let row i :=
    v1 * GetElement m i 0 + v2 * GetElement m i 1
    + v3 * GetElement m i 2 + v4 * GetElement m i 3 in
  (row 0%nat, row 1%nat, row 2%nat, row 3%nat).

(** [vtkMath::Distance2BetweenPoints]: the squared distance of two
    [double[3]]; of a longer array only the first three entries are read. *)
Definition Distance2BetweenPoints (x y : point) : D :=
  let '(x0, x1, x2) := x in
  let '(y0, y1, y2) := y in
  (x0 - y0) * (x0 - y0) + (x1 - y1) * (x1 - y1) + (x2 - y2) * (x2 - y2).

Definition first3 (p : vec4) : point := let '(a, b, c, _) := p in (a, b, c).

(** ** ITK data *)

(** [itk::Matrix<double,3,3>] by rows and [itk::Vector<double,3>]. *)
Definition itkMatrix : Type := point * point * point.

Definition get3 {A : Type} (i : nat) (t : A * A * A) : A :=
  let '(a, b, c) := t in
  match i with 0 => a | 1 => b | _ => c end.

(** [itk::LandmarkBasedTransformInitializer::InitializeTransform] is ITK
    code and no part of this repository. Its effect on the
    [Similarity3DTransform] it is given is a parameter of the model: on the
    fixed and the moving landmarks it either raises an exception ([None])
    or leaves a transform, of which [Register] reads [GetMatrix()] and
    [GetOffset()]. *)
Variable InitializeTransform : list point -> list point -> option (itkMatrix * point).

(** ** The object *)

Record vtkPhantomRegistrationAlgo : Type := {
  RegistrationError : D;
  PhantomToReferenceTransformMatrix : option vtkMatrix4x4;   (* NULL is None *)
  DefinedLandmarks : vtkPoints;
  RecordedLandmarks : vtkPoints;
  DefinedLandmarkNames : list string;
  (* what the arrays of the two [vtkPoints] hold past their points *)
  DefinedLandmarksPastEnd : list point;
  RecordedLandmarksPastEnd : list point
}.

(** The constructor. *)
Definition New : vtkPhantomRegistrationAlgo :=
  {| RegistrationError := of_Z (-1);
     PhantomToReferenceTransformMatrix := None;
     DefinedLandmarks := [];
     RecordedLandmarks := [];
     DefinedLandmarkNames := [];
     DefinedLandmarksPastEnd := [];
     RecordedLandmarksPastEnd := [] |}.

(** ** Member functions: state, log and result *)

Definition M (A : Type) : Type :=
  vtkPhantomRegistrationAlgo -> result A * vtkPhantomRegistrationAlgo * list message.

Definition ret {A : Type} (a : A) : M A := fun this => (Returns a, this, []).

Definition bind {A B : Type} (c : M A) (k : A -> M B) : M B :=
  fun this =>
    match c this with
    | (Returns a, this', log) =>
        let '(r, this'', log') := k a this' in (r, this'', log ++ log')
    | (Throws, this', log) => (Throws, this', log)
    | (Undefined f, this', log) => (Undefined f, this', log)
    end.

Definition undefined {A : Type} (f : fault) : M A := fun this => (Undefined f, this, []).
Definition throw {A : Type} : M A := fun this => (Throws, this, []).
Definition read {A : Type} (f : vtkPhantomRegistrationAlgo -> A) : M A :=
  fun this => (Returns (f this), this, []).
Definition write (f : vtkPhantomRegistrationAlgo -> vtkPhantomRegistrationAlgo) : M unit :=
  fun this => (Returns tt, f this, []).
Definition LOG (level : LogLevel) (text : string) : M unit :=
  fun this => (Returns tt, this, [(level, text)]).

Notation "x <- c ;; k" := (bind c (fun x => k))
  (at level 61, c at next level, right associativity).
Notation "c ;; k" := (bind c (fun _ => k))
  (at level 61, right associativity).

(** [for (int i = from; i < from + count; ++i) state = body(i, state)]. *)
Fixpoint for_loop {S : Type} (count from : nat) (body : nat -> S -> M S) (s : S) : M S :=
  match count with
  | O => ret s
  | Datatypes.S c => s' <- body from s ;; for_loop c (Datatypes.S from) body s'
  end.

Definition GetPointOf (which : PointSet) (i : nat) : M point :=
  pts <- read (match which with
               | Defined => DefinedLandmarks
               | Recorded => RecordedLandmarks
               end) ;;
  match GetPoint pts i with
  | Some p => ret p
  | None => undefined (ReadPastEnd which i)
  end.

Definition SetRegistrationError (e : D) : M unit :=
  write (fun this =>
    {| RegistrationError := e;
       PhantomToReferenceTransformMatrix := PhantomToReferenceTransformMatrix this;
       DefinedLandmarks := DefinedLandmarks this;
       RecordedLandmarks := RecordedLandmarks this;
       DefinedLandmarkNames := DefinedLandmarkNames this;
       DefinedLandmarksPastEnd := DefinedLandmarksPastEnd this;
       RecordedLandmarksPastEnd := RecordedLandmarksPastEnd this |}).

Definition SetPhantomToReferenceTransformMatrix (m : option vtkMatrix4x4) : M unit :=
  write (fun this =>
    {| RegistrationError := RegistrationError this;
       PhantomToReferenceTransformMatrix := m;
       DefinedLandmarks := DefinedLandmarks this;
       RecordedLandmarks := RecordedLandmarks this;
       DefinedLandmarkNames := DefinedLandmarkNames this;
       DefinedLandmarksPastEnd := DefinedLandmarksPastEnd this;
       RecordedLandmarksPastEnd := RecordedLandmarksPastEnd this |}).

(** ** ComputeError *)

(** One turn of the loop of [ComputeError]. *)
Definition ComputeError_body (i : nat) (sumDistance : D) : M D :=
  landmarkPointArray <- GetPointOf Defined i ;;
  let '(l0, l1, l2) := landmarkPointArray in
  let landmarkPoint := (l0, l1, l2, of_Z 1) in
  matrix <- read PhantomToReferenceTransformMatrix ;;
  match matrix with
  | None => undefined NullTransformMatrix
  | Some m =>
      let transformedLandmarkPoint := MultiplyDoublePoint m landmarkPoint in
      recordedPointArray <- GetPointOf Recorded i ;;
      ret (sumDistance
           + dsqrt (Distance2BetweenPoints (first3 transformedLandmarkPoint)
                                           recordedPointArray))
  end.

Definition ComputeError : M PlusStatus :=
  n <- read (fun this => GetNumberOfPoints (RecordedLandmarks this)) ;;
  sumDistance <- for_loop n 0 ComputeError_body (of_Z 0) ;;
  SetRegistrationError (sumDistance / of_Z (Z.of_nat n)) ;;
  ret PLUS_SUCCESS.

(** ** Register *)

(** One turn of the loop that fills [fixedPoints] and [movingPoints]. *)
Definition Register_body (i : nat) (vectors : list point * list point)
  : M (list point * list point) :=
  let '(fixedPoints, movingPoints) := vectors in
  fixedPoint <- GetPointOf Defined i ;;
  movingPoint <- GetPointOf Recorded i ;;
  ret (fixedPoints ++ [fixedPoint], movingPoints ++ [movingPoint]).

(** The matrix [Register] assembles from the transform's matrix and offset. *)
Definition assemble (transformMatrix : itkMatrix) (transformOffset : point)
  : vtkMatrix4x4 :=
  let m :=
    fold_left (fun m i =>
      fold_left (fun m j => SetElement i j (get3 j (get3 i transformMatrix)) m)
                (seq 0 3) m)
      (seq 0 3) Identity in
  fold_left (fun m j => SetElement j 3 (get3 j transformOffset) m) (seq 0 3) m.

Definition Register : M PlusStatus :=
  n <- read (fun this => GetNumberOfPoints (RecordedLandmarks this)) ;;
  vectors <- for_loop n 0 Register_body ([], []) ;;
  let '(fixedPoints, movingPoints) := vectors in
  (* the second loop only logs the n entries of the two vectors (LOG_DEBUG) *)
  match InitializeTransform fixedPoints movingPoints with
  | None => throw
  | Some (transformMatrix, transformOffset) =>
      let phantomToReferenceTransformMatrix := assemble transformMatrix transformOffset in
      SetPhantomToReferenceTransformMatrix (Some phantomToReferenceTransformMatrix) ;;
      status <- ComputeError ;;
      if PlusStatus_eqb status PLUS_SUCCESS then ret PLUS_SUCCESS
      else
        LOG LOG_LEVEL_ERROR "Failed to compute registration error!" ;;
        ret PLUS_FAIL
  end.

(** ** ReadConfiguration *)

(** [vtkXMLDataElement], with what [ReadConfiguration] asks of an element:
    its tag ([GetName]), its [Name] attribute ([GetAttribute("Name")], NULL
    when there is none), the numbers that [GetVectorAttribute("Position",
    3, ...)] finds in its [Position] attribute (none when the attribute is
    missing or does not start with a number) and its nested elements. *)
#[local] Unset Elimination Schemes.
Inductive vtkXMLDataElement : Type :=
| XMLElement (tag : string) (nameAttribute : option string)
             (positionAttribute : list D) (nested : list vtkXMLDataElement).
#[local] Set Elimination Schemes.

Definition GetName (e : vtkXMLDataElement) : string :=
  let 'XMLElement tag _ _ _ := e in tag.
Definition GetAttribute_Name (e : vtkXMLDataElement) : option string :=
  let 'XMLElement _ a _ _ := e in a.
Definition PositionValues (e : vtkXMLDataElement) : list D :=
  let 'XMLElement _ _ p _ := e in p.
Definition NestedElements (e : vtkXMLDataElement) : list vtkXMLDataElement :=
  let 'XMLElement _ _ _ l := e in l.

Definition GetNumberOfNestedElements (e : vtkXMLDataElement) : nat :=
  length (NestedElements e).

(** NULL for an index that is out of range. *)
Definition GetNestedElement (e : vtkXMLDataElement) (i : nat) : option vtkXMLDataElement :=
  nth_error (NestedElements e) i.

(** The first nested element with exactly this tag, NULL if there is none. *)
Definition FindNestedElementWithName (e : vtkXMLDataElement) (name : string)
  : option vtkXMLDataElement :=
  find (fun c => String.eqb (GetName c) name) (NestedElements e).

(** [GetVectorAttribute("Position", 3, data)]: the number of values read,
    and [data] afterwards, where [data] stands for what the entries that
    are not read hold then. *)
Definition GetVectorAttribute_Position (data : point) (e : vtkXMLDataElement)
  : nat * point :=
  let values := firstn 3 (PositionValues e) in
  (length values,
   (nth 0 values (fst (fst data)), nth 1 values (snd (fst data)), nth 2 values (snd data))).

(** [double landmarkPosition[3]] is not initialised. In the turn [i] of the
    loop, the entries that [GetVectorAttribute] does not read hold
    [unread i] afterwards: what the stack held there, or the 0 that a
    failed extraction writes. *)
Variable unread : nat -> point.

Definition tolower (c : ascii) : ascii :=
  let n := nat_of_ascii c in
  if (65 <=? n) && (n <=? 90) then ascii_of_nat (n + 32) else c.

(** [STRCASECMP(a, b) == 0]. *)
Fixpoint STRCASECMP_is_0 (a b : string) : bool :=
  match a, b with
  | EmptyString, EmptyString => true
  | String x a', String y b' => Ascii.eqb (tolower x) (tolower y) && STRCASECMP_is_0 a' b'
  | _, _ => false
  end.

(** The [vtkPoints] that the two members point to, read and changed in
    place. *)
Definition DefinedLandmarksArray (this : vtkPhantomRegistrationAlgo) : PointsArray :=
  (DefinedLandmarks this, DefinedLandmarksPastEnd this).

Definition RecordedLandmarksArray (this : vtkPhantomRegistrationAlgo) : PointsArray :=
  (RecordedLandmarks this, RecordedLandmarksPastEnd this).

Definition SetDefinedLandmarks (array : PointsArray) : M unit :=
  write (fun this =>
    {| RegistrationError := RegistrationError this;
       PhantomToReferenceTransformMatrix := PhantomToReferenceTransformMatrix this;
       DefinedLandmarks := fst array;
       RecordedLandmarks := RecordedLandmarks this;
       DefinedLandmarkNames := DefinedLandmarkNames this;
       DefinedLandmarksPastEnd := snd array;
       RecordedLandmarksPastEnd := RecordedLandmarksPastEnd this |}).

Definition SetRecordedLandmarks (array : PointsArray) : M unit :=
  write (fun this =>
    {| RegistrationError := RegistrationError this;
       PhantomToReferenceTransformMatrix := PhantomToReferenceTransformMatrix this;
       DefinedLandmarks := DefinedLandmarks this;
       RecordedLandmarks := fst array;
       DefinedLandmarkNames := DefinedLandmarkNames this;
       DefinedLandmarksPastEnd := DefinedLandmarksPastEnd this;
       RecordedLandmarksPastEnd := snd array |}).

Definition SetDefinedLandmarkNames (names : list string) : M unit :=
  write (fun this =>
    {| RegistrationError := RegistrationError this;
       PhantomToReferenceTransformMatrix := PhantomToReferenceTransformMatrix this;
       DefinedLandmarks := DefinedLandmarks this;
       RecordedLandmarks := RecordedLandmarks this;
       DefinedLandmarkNames := names;
       DefinedLandmarksPastEnd := DefinedLandmarksPastEnd this;
       RecordedLandmarksPastEnd := RecordedLandmarksPastEnd this |}).

(** One turn of the loop over the nested elements of [Landmarks]; each
    [continue] is a branch that ends the turn. *)
Definition ReadConfiguration_body (landmarks : vtkXMLDataElement) (i : nat) (_ : unit)
  : M unit :=
  match GetNestedElement landmarks i with
  | None => LOG LOG_LEVEL_WARNING "Invalid landmark definition found!"
  | Some landmark =>
      if negb (STRCASECMP_is_0 "Landmark" (GetName landmark))
      then LOG LOG_LEVEL_WARNING "Invalid landmark definition found!"
      else
        match GetAttribute_Name landmark with
        | None => undefined NullCString
        | Some landmarkNameString =>
            let '(count, landmarkPosition) :=
              GetVectorAttribute_Position (unread i) landmark in
            if count =? 0
            then LOG LOG_LEVEL_WARNING "Invalid landmark position!"
            else
              array <- read DefinedLandmarksArray ;;
              SetDefinedLandmarks (InsertPoint i landmarkPosition array) ;;
              names <- read DefinedLandmarkNames ;;
              SetDefinedLandmarkNames (replace_at i landmarkNameString names)
        end
  end.

Definition ReadConfiguration (aConfig : option vtkXMLDataElement) : M PlusStatus :=
  match aConfig with
  | None =>
      LOG LOG_LEVEL_ERROR "Invalid configuration! Problably device set is not connected." ;;
      ret PLUS_FAIL
  | Some aConfig =>
  match FindNestedElementWithName aConfig "PhantomDefinition" with
  | None =>
      LOG LOG_LEVEL_ERROR "No phantom definition is found in the XML tree!" ;;
      ret PLUS_FAIL
  | Some phantomDefinition =>
  array <- read DefinedLandmarksArray ;;
  SetDefinedLandmarks (Reset array) ;;
  array <- read RecordedLandmarksArray ;;
  SetRecordedLandmarks (Reset array) ;;
  SetDefinedLandmarkNames [] ;;
  match FindNestedElementWithName phantomDefinition "Geometry" with
  | None =>
      LOG LOG_LEVEL_ERROR "Phantom geometry information not found!" ;;
      ret PLUS_FAIL
  | Some geometry =>
  match FindNestedElementWithName geometry "Landmarks" with
  | None =>
      LOG LOG_LEVEL_ERROR "Landmarks not found, registration is not possible!" ;;
      ret PLUS_FAIL
  | Some landmarks =>
  let numberOfLandmarks := GetNumberOfNestedElements landmarks in
  SetDefinedLandmarkNames (repeat EmptyString numberOfLandmarks) ;;
  for_loop numberOfLandmarks 0 (ReadConfiguration_body landmarks) tt ;;
  n <- read (fun this => GetNumberOfPoints (DefinedLandmarks this)) ;;
  (if negb (n =? numberOfLandmarks)
   then LOG LOG_LEVEL_WARNING "Some invalid landmarks were found!"
   else ret tt) ;;
  n <- read (fun this => GetNumberOfPoints (DefinedLandmarks this)) ;;
  if n =? 0
  then
    LOG LOG_LEVEL_ERROR "No valid landmarks were found!" ;;
    ret PLUS_FAIL
  else ret PLUS_SUCCESS
  end end end end.

End Algo.

Arguments vtkPhantomRegistrationAlgo D : clear implicits.
Arguments vtkXMLDataElement D : clear implicits.
Arguments point D : clear implicits.
Arguments vtkPoints D : clear implicits.
Arguments PointsArray D : clear implicits.
Arguments vtkMatrix4x4 D : clear implicits.
Arguments itkMatrix D : clear implicits.

(** ** The two readings of [double] *)

(** The real numbers: arithmetic without rounding, overflow or NaN. The
    quotient by the count 0 has no meaning in this reading (where binary64
    gives a NaN, Rocq's [0 / 0] is [0]); the results over the reals are
    stated for one correspondence or more. *)
#[export] Instance R_ops : DoubleOps R :=
  {| of_Z := IZR; dadd := Rplus; dsub := Rminus; dmul := Rmult; ddiv := Rdiv; dsqrt := sqrt;
     to_float := fun x => x |}.

Definition float_of_Z (z : Z) : PrimFloat.float :=
  match z with
  | Z0 => PrimFloat.of_uint63 (Uint63.of_Z 0)
  | Zpos _ => PrimFloat.of_uint63 (Uint63.of_Z z)
  | Zneg p => PrimFloat.opp (PrimFloat.of_uint63 (Uint63.of_Z (Zpos p)))
  end.

(** A binary64 rounded to binary32 (24 bits of precision, exponents up to
    128, to nearest, ties to even), as a binary64 again; an infinity or a
    NaN stays what it is. *)
Definition binary32_of (x : PrimFloat.float) : PrimFloat.float :=
  match FloatOps.Prim2SF x with
  | SpecFloat.S754_finite s m e => FloatOps.SF2Prim (SpecFloat.binary_round 24 128 s m e)
  | _ => x
  end.

(** IEEE 754 binary64, the arithmetic the compiled code runs. *)
#[export] Instance binary64_ops : DoubleOps PrimFloat.float :=
  {| of_Z := float_of_Z; dadd := PrimFloat.add; dsub := PrimFloat.sub;
     dmul := PrimFloat.mul; ddiv := PrimFloat.div; dsqrt := PrimFloat.sqrt;
     to_float := binary32_of |}.

(** ** What the runs are compared with

    Definitions used to state the results: parts of the object, the values
    and outcomes the member functions are shown to produce, and the tests
    of [ReadConfiguration] on one entry. *)

Section Outcomes.

Context {D : Type} {ops : DoubleOps D}.
Variable allocated : nat -> point D.
Variable unread : nat -> point D.
Variable InitializeTransform :
  list (point D) -> list (point D) -> option (itkMatrix D * point D).

Local Open Scope dbl_scope.

(** The status and the object at the end of a run. *)
Definition status_of {A S L : Type} (run : result A * S * L) : result A := fst (fst run).
Definition object_of {A S L : Type} (run : result A * S * L) : S := snd (fst run).

(** A run that ends in failure: PLUS_FAIL is returned, or an exception
    leaves the function. *)
Definition failed (r : result PlusStatus) : bool :=
  match r with
  | Returns PLUS_FAIL | Throws => true
  | Returns PLUS_SUCCESS | Undefined _ => false
  end.

Definition landmarks (which : PointSet) (this : vtkPhantomRegistrationAlgo D) : vtkPoints D :=
  match which with
  | Defined => DefinedLandmarks this
  | Recorded => RecordedLandmarks this
  end.

(** The term one turn of [ComputeError] adds to [sumDistance]. *)
Definition distance_term (m : vtkMatrix4x4 D) (d r : point D) : D :=
  let '(l0, l1, l2) := d in
  dsqrt (Distance2BetweenPoints (first3 (MultiplyDoublePoint m (l0, l1, l2, of_Z 1))) r).

(** [sumDistance] after the loop, started from [s]. *)
Definition sum_distances (m : vtkMatrix4x4 D) (ds rs : list (point D)) (s : D) : D :=
  fold_left (fun s dr => s + distance_term m (fst dr) (snd dr)) (combine ds rs) s.

(** The object after [SetRegistrationError] and after
    [SetPhantomToReferenceTransformMatrix]. *)
Definition with_error (e : D) (this : vtkPhantomRegistrationAlgo D) :=
  {| RegistrationError := e;
     PhantomToReferenceTransformMatrix := PhantomToReferenceTransformMatrix this;
     DefinedLandmarks := DefinedLandmarks this;
     RecordedLandmarks := RecordedLandmarks this;
     DefinedLandmarkNames := DefinedLandmarkNames this;
     DefinedLandmarksPastEnd := DefinedLandmarksPastEnd this;
     RecordedLandmarksPastEnd := RecordedLandmarksPastEnd this |}.

Definition with_matrix (m : vtkMatrix4x4 D) (this : vtkPhantomRegistrationAlgo D) :=
  {| RegistrationError := RegistrationError this;
     PhantomToReferenceTransformMatrix := Some m;
     DefinedLandmarks := DefinedLandmarks this;
     RecordedLandmarks := RecordedLandmarks this;
     DefinedLandmarkNames := DefinedLandmarkNames this;
     DefinedLandmarksPastEnd := DefinedLandmarksPastEnd this;
     RecordedLandmarksPastEnd := RecordedLandmarksPastEnd this |}.

(** The value [ComputeError] stores when every read is in range. *)
Definition computed_error (m : vtkMatrix4x4 D) (this : vtkPhantomRegistrationAlgo D) : D :=
  let n := length (RecordedLandmarks this) in
  sum_distances m (firstn n (DefinedLandmarks this)) (RecordedLandmarks this) (of_Z 0)
  / of_Z (Z.of_nat n).

(** [Register] when every read is in range: the initializer receives the
    defined landmarks at the ids of the recorded ones; if it raises, the
    object is as before, and otherwise the matrix and the error are stored
    and the status is PLUS_SUCCESS. *)
Definition Register_outcome (this : vtkPhantomRegistrationAlgo D)
  : result PlusStatus * vtkPhantomRegistrationAlgo D * list message :=
  let n := length (RecordedLandmarks this) in
  match InitializeTransform (firstn n (DefinedLandmarks this)) (RecordedLandmarks this) with
  | None => (Throws, this, [])
  | Some (transformMatrix, transformOffset) =>
      let m := assemble transformMatrix transformOffset in
      (Returns PLUS_SUCCESS,
       with_error (computed_error m (with_matrix m this)) (with_matrix m this), [])
  end.

(** The object with the defined landmarks past the last recorded id removed. *)
Definition without_surplus (this : vtkPhantomRegistrationAlgo D) :=
  {| RegistrationError := RegistrationError this;
     PhantomToReferenceTransformMatrix := PhantomToReferenceTransformMatrix this;
     DefinedLandmarks := firstn (length (RecordedLandmarks this)) (DefinedLandmarks this);
     RecordedLandmarks := RecordedLandmarks this;
     DefinedLandmarkNames := DefinedLandmarkNames this;
     DefinedLandmarksPastEnd := DefinedLandmarksPastEnd this;
     RecordedLandmarksPastEnd := RecordedLandmarksPastEnd this |}.

(** The tests of one turn of the loop of [ReadConfiguration]. *)
Definition is_landmark_element (e : vtkXMLDataElement D) : bool :=
  STRCASECMP_is_0 "Landmark" (GetName e).

Definition has_position (e : vtkXMLDataElement D) : bool :=
  negb (length (firstn 3 (PositionValues e)) =? 0).

(** An entry that the loop stores. *)
Definition valid_landmark (e : vtkXMLDataElement D) : bool :=
  is_landmark_element e && has_position e.

(** [landmarkPosition] after [GetVectorAttribute], where [data] is what
    the entries that are not read hold. *)
Definition position_of (data : point D) (e : vtkXMLDataElement D) : point D :=
  snd (GetVectorAttribute_Position data e).

(** No coordinate of a valid entry is left unread. *)
Definition complete_positions (es : list (vtkXMLDataElement D)) : Prop :=
  forall e, In e es -> valid_landmark e = true -> (3 <= length (PositionValues e))%nat.

Definition name_of (e : vtkXMLDataElement D) : string :=
  match GetAttribute_Name e with Some s => s | None => EmptyString end.

(** The warning of an entry that the loop skips. *)
Definition entry_warning (e : vtkXMLDataElement D) : list message :=
  if negb (is_landmark_element e)
  then [(LOG_LEVEL_WARNING, "Invalid landmark definition found!"%string)]
  else if negb (has_position e)
  then [(LOG_LEVEL_WARNING, "Invalid landmark position!"%string)]
  else [].

(** The array of the defined landmarks and the names after the entries
    [es], the first of which has the index [i]. *)
Fixpoint collect (i : nat) (es : list (vtkXMLDataElement D))
  (acc : PointsArray D * list string) : PointsArray D * list string :=
  match es with
  | [] => acc
  | e :: es' =>
      collect (S i) es'
        (if valid_landmark e
         then (InsertPoint allocated i (position_of (unread i) e) (fst acc),
               replace_at i (name_of e) (snd acc))
         else acc)
  end.

Definition with_collected (acc : PointsArray D * list string)
  (this : vtkPhantomRegistrationAlgo D) : vtkPhantomRegistrationAlgo D :=
  {| RegistrationError := RegistrationError this;
     PhantomToReferenceTransformMatrix := PhantomToReferenceTransformMatrix this;
     DefinedLandmarks := fst (fst acc);
     RecordedLandmarks := RecordedLandmarks this;
     DefinedLandmarkNames := snd acc;
     DefinedLandmarksPastEnd := snd (fst acc);
     RecordedLandmarksPastEnd := RecordedLandmarksPastEnd this |}.

(** Every Landmark element among [es] has a Name attribute. *)
Definition names_present (es : list (vtkXMLDataElement D)) : Prop :=
  forall e, In e es -> is_landmark_element e = true -> GetAttribute_Name e <> None.

(** The object after the two [Reset] and the [clear]: no landmarks and no
    names; the landmarks that were there are in the arrays still. *)
Definition after_reset (this : vtkPhantomRegistrationAlgo D) : vtkPhantomRegistrationAlgo D :=
  {| RegistrationError := RegistrationError this;
     PhantomToReferenceTransformMatrix := PhantomToReferenceTransformMatrix this;
     DefinedLandmarks := [];
     RecordedLandmarks := [];
     DefinedLandmarkNames := [];
     DefinedLandmarksPastEnd := DefinedLandmarks this ++ DefinedLandmarksPastEnd this;
     RecordedLandmarksPastEnd := RecordedLandmarks this ++ RecordedLandmarksPastEnd this |}.

(** What the array of the defined landmarks shows at the id [i] when
    nothing is written there: the defined landmark of that id or what the
    array holds past the landmarks, and else what memory holds. *)
Definition held (this : vtkPhantomRegistrationAlgo D) (i : nat) : point D :=
  nth i (DefinedLandmarks this ++ DefinedLandmarksPastEnd this) (allocated i).

(** The path PhantomDefinition / Geometry / Landmarks below [aConfig]. *)
Definition landmarks_element (aConfig landmarks : vtkXMLDataElement D) : Prop :=
  exists phantomDefinition geometry,
    FindNestedElementWithName aConfig "PhantomDefinition" = Some phantomDefinition
    /\ FindNestedElementWithName phantomDefinition "Geometry" = Some geometry
    /\ FindNestedElementWithName geometry "Landmarks" = Some landmarks.

(** What [ReadConfiguration] does when the Landmarks element is found and
    no name is missing. *)
Definition ReadConfiguration_outcome (landmarks : vtkXMLDataElement D)
  (this : vtkPhantomRegistrationAlgo D)
  : result PlusStatus * vtkPhantomRegistrationAlgo D * list message :=
  let es := NestedElements landmarks in
  let acc := collect 0 es (Reset (DefinedLandmarksArray this),
                           repeat EmptyString (length es)) in
  let n := length (fst (fst acc)) in
  (Returns (if n =? 0 then PLUS_FAIL else PLUS_SUCCESS),
   with_collected acc (after_reset this),
   flat_map entry_warning es
   ++ (if negb (n =? length es)
       then [(LOG_LEVEL_WARNING, "Some invalid landmarks were found!"%string)] else [])
   ++ (if n =? 0
       then [(LOG_LEVEL_ERROR, "No valid landmarks were found!"%string)] else [])).

End Outcomes.

(** ** Distances over the reals *)

Section IdealDefinitions.

Local Open Scope R_scope.

(** The transform applied to a point read as the homogeneous point
    (x, y, z, 1). *)
Definition transformed (T : vtkMatrix4x4 R) (p : point R) : point R :=
  let '(x, y, z) := p in
  (GetElement T 0 0 * x + GetElement T 0 1 * y + GetElement T 0 2 * z + GetElement T 0 3 * 1,
   GetElement T 1 0 * x + GetElement T 1 1 * y + GetElement T 1 2 * z + GetElement T 1 3 * 1,
   GetElement T 2 0 * x + GetElement T 2 1 * y + GetElement T 2 2 * z + GetElement T 2 3 * 1).

Definition euclidean_distance (p q : point R) : R :=
  let '(p0, p1, p2) := p in
  let '(q0, q1, q2) := q in
  sqrt ((p0 - q0)² + (p1 - q1)² + (p2 - q2)²).

Definition total (l : list R) : R := fold_right Rplus 0 l.

(** The distances between the transformed defined landmarks and the
    recorded ones, correspondence by correspondence. *)
Definition residuals (T : vtkMatrix4x4 R) (defined recorded : list (point R)) : list R :=
  map (fun dr => euclidean_distance (transformed T (fst dr)) (snd dr))
      (combine defined recorded).

Definition mean_distance (T : vtkMatrix4x4 R) (defined recorded : list (point R)) : R :=
  total (residuals T defined recorded) / INR (length recorded).

Definition rms_distance (T : vtkMatrix4x4 R) (defined recorded : list (point R)) : R :=
  sqrt (total (map Rsqr (residuals T defined recorded)) / INR (length recorded)).

(** The map d |-> M d + o of a 3x3 matrix and an offset. *)
Definition affine_image (M : itkMatrix R) (o : point R) (d : point R) : point R :=
  let '(x, y, z) := d in
  let '(o0, o1, o2) := o in
  let row (r : point R) := let '(a, b, c) := r in a * x + b * y + c * z in
  (row (get3 0 M) + o0, row (get3 1 M) + o1, row (get3 2 M) + o2).

(** The point a + t u of the line through a with direction u. *)
Definition on_line (a u : point R) (t : R) : point R :=
  let '(a0, a1, a2) := a in
  let '(u0, u1, u2) := u in
  (a0 + t * u0, a1 + t * u1, a2 + t * u2).

Definition collinear (pts : list (point R)) : Prop :=
  exists a u : point R, forall p, In p pts -> exists t : R, p = on_line a u t.

End IdealDefinitions.

(** ** Concrete objects *)

Module Examples.

(** Coordinates in binary64. *)
Definition pt (x y z : Z) : point PrimFloat.float := (float_of_Z x, float_of_Z y, float_of_Z z).

Definition object (defined recorded : list (point PrimFloat.float))
  : vtkPhantomRegistrationAlgo PrimFloat.float :=
  {| RegistrationError := float_of_Z (-1);
     PhantomToReferenceTransformMatrix := None;
     DefinedLandmarks := defined;
     RecordedLandmarks := recorded;
     DefinedLandmarkNames := [];
     DefinedLandmarksPastEnd := [];
     RecordedLandmarksPastEnd := [] |}.

(** Two correspondences. *)
Definition two_landmarks := object [pt 0 0 0; pt 1 0 0] [pt 5 0 0; pt 6 0 0].

(** Four defined landmarks, three recorded ones. *)
Definition surplus_defined :=
  object [pt 0 0 0; pt 1 0 0; pt 0 1 0; pt 0 0 1] [pt 5 0 0; pt 6 0 0; pt 5 1 0].

(** One defined landmark, two recorded ones. *)
Definition missing_defined := object [pt 0 0 0] [pt 5 0 0; pt 6 0 0].

(** An initializer that always raises, and one that always leaves the
    identity transform. *)
Definition raising (_ _ : list (point PrimFloat.float))
  : option (itkMatrix PrimFloat.float * point PrimFloat.float) := None.

Definition identity_transform (_ _ : list (point PrimFloat.float))
  : option (itkMatrix PrimFloat.float * point PrimFloat.float) :=
  Some ((pt 1 0 0, pt 0 1 0, pt 0 0 1), pt 0 0 0).

End Examples.

Module IdealExamples.

Local Open Scope R_scope.

(** Two correspondences at distance 0 and 2 under the identity. *)
Definition apart : vtkPhantomRegistrationAlgo R :=
  {| RegistrationError := -1;
     PhantomToReferenceTransformMatrix := Some Identity;
     DefinedLandmarks := [(0, 0, 0); (0, 0, 0)];
     RecordedLandmarks := [(0, 0, 0); (2, 0, 0)];
     DefinedLandmarkNames := [];
     DefinedLandmarksPastEnd := [];
     RecordedLandmarksPastEnd := [] |}.

(** Three correspondences on the x axis. *)
Definition on_x_axis : vtkPhantomRegistrationAlgo R :=
  {| RegistrationError := -1;
     PhantomToReferenceTransformMatrix := None;
     DefinedLandmarks := [(0, 0, 0); (1, 0, 0); (2, 0, 0)];
     RecordedLandmarks := [(0, 0, 0); (1, 0, 0); (2, 0, 0)];
     DefinedLandmarkNames := [];
     DefinedLandmarksPastEnd := [];
     RecordedLandmarksPastEnd := [] |}.

Definition identity_transform (_ _ : list (point R)) : option (itkMatrix R * point R) :=
  Some (((1, 0, 0), (0, 1, 0), (0, 0, 1)), (0, 0, 0)).

End IdealExamples.

Module ConfigurationExamples.

(** The entries of a Landmarks element: an element that is no Landmark, a
    Landmark without a readable Position, and a valid Landmark. *)
Definition entries : list (vtkXMLDataElement PrimFloat.float) :=
  [XMLElement "Wire" None [] [];
   XMLElement "Landmark" (Some "Broken"%string) [] [];
   XMLElement "Landmark" (Some "Corner"%string)
              [float_of_Z 1; float_of_Z 2; float_of_Z 3] []].




Definition its_landmarks : vtkXMLDataElement PrimFloat.float :=
  XMLElement "Landmarks" None [] entries.

(** A configuration with these entries and one valid landmark therefore. *)
Definition one_valid_landmark : vtkXMLDataElement PrimFloat.float :=
  XMLElement "PlusConfiguration" None []
    [XMLElement "PhantomDefinition" None []
       [XMLElement "Geometry" None [] [its_landmarks]]].

(** The content of memory that was never written, for the runs below: at
    the id i of an array, and in [landmarkPosition] in the turn i. *)
Definition heap (i : nat) : point PrimFloat.float :=
  let z := Z.of_nat i in
  (float_of_Z (100 + 3 * z), float_of_Z (101 + 3 * z), float_of_Z (102 + 3 * z)).

Definition stack (i : nat) : point PrimFloat.float :=
  let z := Z.of_nat i in
  (float_of_Z (-7 - z), float_of_Z (-8 - z), float_of_Z (-9 - z)).

(** Other content, for a second run. *)
Definition heap' (i : nat) : point PrimFloat.float :=
  (float_of_Z 5, float_of_Z 5, float_of_Z 5).

Definition stack' (i : nat) : point PrimFloat.float :=
  (float_of_Z 6, float_of_Z 6, float_of_Z 6).

(** An object with three defined landmarks of an earlier configuration. *)
Definition earlier : vtkPhantomRegistrationAlgo PrimFloat.float :=
  {| RegistrationError := float_of_Z (-1);
     PhantomToReferenceTransformMatrix := None;
     DefinedLandmarks :=
       [(float_of_Z 11, float_of_Z 12, float_of_Z 13);
        (float_of_Z 21, float_of_Z 22, float_of_Z 23);
        (float_of_Z 31, float_of_Z 32, float_of_Z 33)];
     RecordedLandmarks := [];
     DefinedLandmarkNames := ["A"; "B"; "C"]%string;
     DefinedLandmarksPastEnd := [];
     RecordedLandmarksPastEnd := [] |}.

End ConfigurationExamples.

(** ** Parts of the object that a member function keeps *)

Section Keeping.

Context {D : Type} {ops : DoubleOps D}.

(** The run [c] ends, however it ends, with the part [f] of the object as
    it was. *)
Definition keeps {X A : Type} (f : vtkPhantomRegistrationAlgo D -> X) (c : M A) : Prop :=
  forall this, f (object_of (c this)) = f this.

(** The messages of a run. *)
Definition log_of {A S L : Type} (run : result A * S * L) : L := snd run.

(** The stored matrix together with the stored error. *)
Definition registration_result (this : vtkPhantomRegistrationAlgo D)
  : option (vtkMatrix4x4 D) * D :=
  (PhantomToReferenceTransformMatrix this, RegistrationError this).

End Keeping.

Module FailingConfigurations.

(** A configuration without a PhantomDefinition element, and one whose
    PhantomDefinition has no Geometry element. *)
Definition no_phantom_definition : vtkXMLDataElement PrimFloat.float :=
  XMLElement "PlusConfiguration" None [] [XMLElement "DataCollection" None [] []].

Definition empty_phantom_definition : vtkXMLDataElement PrimFloat.float :=
  XMLElement "PhantomDefinition" None [] [].

Definition no_geometry : vtkXMLDataElement PrimFloat.float :=
  XMLElement "PlusConfiguration" None [] [empty_phantom_definition].

(** A Landmarks element whose second Landmark has no Name attribute. *)
Definition nameless_landmarks : vtkXMLDataElement PrimFloat.float :=
  XMLElement "Landmarks" None []
    [XMLElement "Landmark" (Some "Corner"%string)
                [float_of_Z 1; float_of_Z 2; float_of_Z 3] [];
     XMLElement "Landmark" None [float_of_Z 4; float_of_Z 5; float_of_Z 6] []].

Definition nameless : vtkXMLDataElement PrimFloat.float :=
  XMLElement "PlusConfiguration" None []
    [XMLElement "PhantomDefinition" None []
       [XMLElement "Geometry" None [] [nameless_landmarks]]].

End FailingConfigurations.

(** * The MicronTracker device

    [vtkPlusMicronTracker]
    (src/src/PlusDataCollection/MicronTracking/vtkPlusMicronTracker.cxx),
    compiled without USE_MicronTracker_TIMESTAMPS (the macro is commented
    out). The camera is reached through [MicronTrackerInterface], and the
    tools and their update through the base class of the device; neither
    is part of the file. What they answer is a parameter of the model, and
    what is asked of them is recorded. *)

Module MicronTracker.

(** The status that a tool update carries. *)
Inductive ToolStatus : Type := TOOL_OK | TOOL_OUT_OF_VIEW.

(** The calls to [MicronTrackerInterface] that act on the camera. *)
Inductive MTCall : Type :=
| mtInit (iniFilePath : string)
| mtSetupCameras
| mtEnd
| mtRefreshTemplates (templateFullPath : string)
| mtGrabFrame
| mtProcessFrame
| mtFindIdentifiedMarkers.

(** A read of [vRotMat] or [vPos] past its end. *)
Inductive VectorFault : Type :=
| RotationReadPastEnd (i : nat)
| TranslationReadPastEnd (i : nat).

Section Device.

Context {D : Type} {ops : DoubleOps D}.

(** An identified marker: its template name and what [mtGetRotations] and
    [mtGetTranslations] put into the vectors. *)
Record Marker : Type := {
  TemplateName : string;
  Rotations : list D;
  Translations : list D
}.

(** What the camera answers during one call of a member function. *)
Record MicronTrackerInterface : Type := {
  mtInit_returns : Z;
  mtSetupCameras_returns : Z;
  mtGetNumOfCameras_returns : Z;
  mtRefreshTemplates_returns : Z;
  mtRefreshTemplates_errors : list string;     (* vTemplatesError *)
  mtGrabFrame_returns : Z;
  mtProcessFrame_returns : Z;
  GetLastErrorString : string;
  IdentifiedMarkers : list Marker
}.

(** What a member function does that is seen from outside, in order. *)
Inductive Event : Type :=
| Logged (m : message)
| Called (c : MTCall)
| ToolTimeStampedUpdate (sourceId : string) (matrix : vtkMatrix4x4 D)
                        (status : ToolStatus) (frameNumber : Z) (timestamp : D).

(** The members of the object that the functions below use. *)
Record vtkPlusMicronTracker : Type := {
  IsMicronTrackingInitialized : bool;
  FrameNumber : Z;
  IniFile : string;
  TemplateDirectory : string
}.

Variable MT : MicronTrackerInterface.

(** [vtkPlusConfig::GetDeviceSetConfigurationPath] and
    [vtksys::SystemTools::FileExists]. *)
Variable GetDeviceSetConfigurationPath : string -> string.
Variable FileExists : string -> bool -> bool.

(** [vtkPlusAccurateTimer::GetSystemTime()] at the call. *)
Variable GetSystemTime : D.

(** The tools of the device, as the tool iterator gives them: source id
    and port name; and [GetToolByPortName], which gives a source id or
    fails. *)
Variable Tools : list (string * string).
Variable GetToolByPortName : string -> option string.

(** [FrameNumber] is an unsigned integer member that the header declares:
    one more than the greatest value of its type. *)
Variable FrameNumber_range : Z.

Definition SetInitialized (b : bool) (this : vtkPlusMicronTracker) : vtkPlusMicronTracker :=
  {| IsMicronTrackingInitialized := b;
     FrameNumber := FrameNumber this;
     IniFile := IniFile this;
     TemplateDirectory := TemplateDirectory this |}.

Definition SetFrameNumber (n : Z) (this : vtkPlusMicronTracker) : vtkPlusMicronTracker :=
  {| IsMicronTrackingInitialized := IsMicronTrackingInitialized this;
     FrameNumber := n;
     IniFile := IniFile this;
     TemplateDirectory := TemplateDirectory this |}.

Definition LOG_ERROR (text : string) : Event := Logged (LOG_LEVEL_ERROR, text).
Definition LOG_WARNING (text : string) : Event := Logged (LOG_LEVEL_WARNING, text).

(** ** GetTransformMatrix *)

(** [vRotMat[rotIndex]] and [vPos[i]]: no range check. *)
Definition rotation_at (vRotMat : list D) (i : nat) : D + VectorFault :=
  match nth_error vRotMat i with
  | Some v => inl v
  | None => inr (RotationReadPastEnd i)
  end.

Definition translation_at (vPos : list D) (i : nat) : D + VectorFault :=
  match nth_error vPos i with
  | Some v => inl v
  | None => inr (TranslationReadPastEnd i)
  end.

(** The two nested loops: [rotIndex] counts the elements read so far. *)
Definition fill_rotation (vRotMat : list D) (m : vtkMatrix4x4 D)
  : (nat * vtkMatrix4x4 D) + VectorFault :=
  fold_left (fun state col =>
    fold_left (fun state row =>
      match state with
      | inl (rotIndex, m) =>
          match rotation_at vRotMat rotIndex with
          | inl v => inl (S rotIndex, SetElement row col v m)
          | inr f => inr f
          end
      | inr f => inr f
      end) (seq 0 3) state)
    (seq 0 3) (inl (0%nat, m)).

Definition fill_translation (vPos : list D) (m : vtkMatrix4x4 D)
  : vtkMatrix4x4 D + VectorFault :=
  fold_left (fun state i =>
    match state with
    | inl m =>
        match translation_at vPos i with
        | inl v => inl (SetElement i 3 v m)
        | inr f => inr f
        end
    | inr f => inr f
    end) (seq 0 3) (inl m).

(** [transformMatrix] is the matrix that the caller passes in; the
    function changes it in place, and the result is the matrix after. *)
Definition GetTransformMatrix (marker : Marker) (transformMatrix : vtkMatrix4x4 D)
  : vtkMatrix4x4 D + VectorFault :=
  let vRotMat := Rotations marker in
  let vPos := Translations marker in
  match fill_rotation vRotMat (Identity (D := D)) with
  | inl (_, m) => fill_translation vPos m
  | inr f => inr f
  end.

(** ** Connecting *)

Definition Probe (this : vtkPlusMicronTracker)
  : PlusStatus * vtkPlusMicronTracker * list Event :=
  if IsMicronTrackingInitialized this
  then (PLUS_FAIL, this,
        [LOG_ERROR "vtkPlusMicronTracker::Probe should not be called while the device is already initialized"])
  else
    let iniFilePath := GetDeviceSetConfigurationPath (IniFile this) in
    if negb (mtInit_returns MT =? 1)%Z
    then (PLUS_FAIL, this,
          [Called (mtInit iniFilePath); LOG_ERROR "Error in initializing Micron Tracker"])
    else if negb (mtSetupCameras_returns MT =? 1)%Z
    then (PLUS_FAIL, this,
          [Called (mtInit iniFilePath); Called mtSetupCameras;
           LOG_ERROR "Error in initializing Micron Tracker: setup cameras failed. Check the camera connections."])
    else if (mtGetNumOfCameras_returns MT =? 0)%Z
    then (PLUS_FAIL, this,
          [Called (mtInit iniFilePath); Called mtSetupCameras;
           LOG_ERROR "Error in initializing Micron Tracker: no cameras attached. Check the camera connections."])
    else (PLUS_SUCCESS, SetInitialized false this,
          [Called (mtInit iniFilePath); Called mtSetupCameras; Called mtEnd]).

Definition InternalStartRecording (this : vtkPlusMicronTracker)
  : PlusStatus * vtkPlusMicronTracker * list Event :=
  if negb (IsMicronTrackingInitialized this)
  then (PLUS_FAIL, this,
        [LOG_ERROR "InternalStartRecording failed: MicronTracker has not been initialized"])
  else (PLUS_SUCCESS, this, []).

Definition InternalStopRecording (this : vtkPlusMicronTracker)
  : PlusStatus * vtkPlusMicronTracker * list Event :=
  (PLUS_SUCCESS, this, []).

Definition RefreshMarkerTemplates (this : vtkPlusMicronTracker)
  : PlusStatus * vtkPlusMicronTracker * list Event :=
  let templateFullPath := GetDeviceSetConfigurationPath (TemplateDirectory this) in
  let missing :=
    if negb (FileExists templateFullPath false)
    then [LOG_WARNING ("Unable to find MicronTracker TemplateDirectory at: " ++ templateFullPath)]
    else [] in
  let call := [Called (mtRefreshTemplates templateFullPath)] in
  if negb (mtRefreshTemplates_returns MT =? 0)%Z
  then (PLUS_FAIL, this,
        missing ++ call
        ++ [LOG_ERROR ("Failed to load marker templates from " ++ templateFullPath)]
        ++ map (fun e => LOG_ERROR ("Error loading template: " ++ e))
               (mtRefreshTemplates_errors MT))
  else (PLUS_SUCCESS, this, missing ++ call).

Definition InternalConnect (this : vtkPlusMicronTracker)
  : PlusStatus * vtkPlusMicronTracker * list Event :=
  if IsMicronTrackingInitialized this
  then (PLUS_SUCCESS, this, [])
  else
    let iniFilePath := GetDeviceSetConfigurationPath (IniFile this) in
    let noIni :=
      if negb (FileExists iniFilePath true)
      then [LOG_WARNING ("Unable to find MicronTracker IniFile file at: " ++ iniFilePath)]
      else [] in
    let templateFullPath := GetDeviceSetConfigurationPath (TemplateDirectory this) in
    let noTemplates :=
      if negb (FileExists templateFullPath false)
      then [LOG_ERROR ("Unable to find MicronTracker TemplateDirectory at: " ++ templateFullPath)]
      else [] in
    let before := noIni ++ noTemplates in
    if negb (mtInit_returns MT =? 1)%Z
    then (PLUS_FAIL, this,
          before ++ [Called (mtInit iniFilePath);
                     LOG_ERROR "Error in initializing Micron Tracker"])
    else if negb (mtSetupCameras_returns MT =? 1)%Z
    then (PLUS_FAIL, this,
          before ++ [Called (mtInit iniFilePath); Called mtSetupCameras;
                     LOG_ERROR "Error in initializing Micron Tracker: setup cameras failed. Check the camera connections and INI and Markers file locations.";
                     Called mtEnd])
    else if (mtGetNumOfCameras_returns MT =? 0)%Z
    then (PLUS_FAIL, this,
          before ++ [Called (mtInit iniFilePath); Called mtSetupCameras;
                     LOG_ERROR "Error in initializing Micron Tracker: no cameras attached. Check the camera connections and INI and Markers file locations.";
                     Called mtEnd])
    else
      let '(status, this', events) := RefreshMarkerTemplates this in
      let connecting :=
        before ++ [Called (mtInit iniFilePath); Called mtSetupCameras] ++ events in
      match status with
      | PLUS_SUCCESS => (PLUS_SUCCESS, SetInitialized true this', connecting)
      | PLUS_FAIL =>
          (PLUS_FAIL, this',
           connecting
           ++ [LOG_ERROR "Error in initializing Micron Tracker: Failed to load marker templates. Check if the marker directory is set correctly.";
               Called mtEnd])
      end.

Definition InternalDisconnect (this : vtkPlusMicronTracker)
  : PlusStatus * vtkPlusMicronTracker * list Event :=
  if IsMicronTrackingInitialized this
  then (PLUS_SUCCESS, SetInitialized false this, [Called mtEnd])
  else (PLUS_SUCCESS, this, []).

(** ** InternalUpdate *)

(** The first loop, over the identified markers: the events so far, the
    set [identifiedToolSourceIds] and the matrix [mToolToTracker]; a read
    past the end of a vector ends it. *)
Definition update_identified (frameNumber : Z) (unfilteredTimestamp : D)
  (state : (list Event * list string * vtkMatrix4x4 D) + VectorFault) (marker : Marker)
  : (list Event * list string * vtkMatrix4x4 D) + VectorFault :=
  match state with
  | inr f => inr f
  | inl (events, identifiedToolSourceIds, mToolToTracker) =>
      match GetToolByPortName (TemplateName marker) with
      | None => inl (events, identifiedToolSourceIds, mToolToTracker)
      | Some sourceId =>
          match GetTransformMatrix marker mToolToTracker with
          | inr f => inr f
          | inl mToolToTracker' =>
              inl (events ++ [ToolTimeStampedUpdate sourceId mToolToTracker' TOOL_OK
                                frameNumber unfilteredTimestamp],
                   sourceId :: identifiedToolSourceIds,
                   mToolToTracker')
          end
      end
  end.

(** The second loop, over the tools: the tools whose source id is not in
    the set. *)
Definition update_not_found (frameNumber : Z) (unfilteredTimestamp : D)
  (identifiedToolSourceIds : list string) : list Event :=
  flat_map (fun tool : string * string =>
    if existsb (String.eqb (fst tool)) identifiedToolSourceIds
    then []
    else [ToolTimeStampedUpdate (fst tool) (Identity (D := D)) TOOL_OUT_OF_VIEW
            frameNumber unfilteredTimestamp]) Tools.

Definition InternalUpdate (this : vtkPlusMicronTracker)
  : (PlusStatus * vtkPlusMicronTracker * list Event) + VectorFault :=
  if negb (IsMicronTrackingInitialized this)
  then inl (PLUS_FAIL, this,
            [LOG_ERROR "InternalUpdate failed: MicronTracker has not been initialized"])
  else
    let frameNumber := ((FrameNumber this + 1) mod FrameNumber_range)%Z in
    let this' := SetFrameNumber frameNumber this in
    let unfilteredTimestamp := GetSystemTime in
    if (mtGrabFrame_returns MT =? -1)%Z
    then inl (PLUS_FAIL, this',
              [Called mtGrabFrame;
               LOG_WARNING ("Failed to grab a new frame (" ++ GetLastErrorString MT
                            ++ "). Maybe the requested frame rate is too high.")])
    else if (mtProcessFrame_returns MT =? -1)%Z
    then inl (PLUS_FAIL, this',
              [Called mtGrabFrame; Called mtProcessFrame;
               LOG_ERROR ("Error in processing a frame! (" ++ GetLastErrorString MT ++ ")")])
    else
      let camera := [Called mtGrabFrame; Called mtProcessFrame; Called mtFindIdentifiedMarkers] in
      match fold_left (update_identified frameNumber unfilteredTimestamp)
                      (IdentifiedMarkers MT) (inl ([], [], Identity (D := D))) with
      | inr f => inr f
      | inl (events, identifiedToolSourceIds, _) =>
          inl (PLUS_SUCCESS, this',
               camera ++ events
               ++ update_not_found frameNumber unfilteredTimestamp identifiedToolSourceIds)
      end.

(** ** Reading a run *)

Definition status {S E : Type} (run : PlusStatus * S * E) : PlusStatus := fst (fst run).
Definition object_after {S E : Type} (run : PlusStatus * S * E) : S := snd (fst run).
Definition events_of {S E : Type} (run : PlusStatus * S * E) : E := snd run.

Definition is_mtEnd (e : Event) : bool :=
  match e with Called mtEnd => true | _ => false end.

Definition is_mtInit (e : Event) : bool :=
  match e with Called (mtInit _) => true | _ => false end.

(** How often the camera is released, and how often initialised. *)
Definition count_mtEnd (events : list Event) : nat := length (filter is_mtEnd events).
Definition count_mtInit (events : list Event) : nat := length (filter is_mtInit events).

(** The camera answers as [InternalConnect] needs it to. *)
Definition camera_ready : bool :=
  ((mtInit_returns MT =? 1) && (mtSetupCameras_returns MT =? 1)
   && negb (mtGetNumOfCameras_returns MT =? 0))%Z.

(** Some identified marker is the marker of the tool [sourceId]. *)
Definition identified (sourceId : string) : Prop :=
  exists marker, In marker (IdentifiedMarkers MT)
                 /\ GetToolByPortName (TemplateName marker) = Some sourceId.

End Device.

End MicronTracker.

(** ** A device for the examples *)

Module TrackerExamples.

Import MicronTracker.

(** The marker of the stylus, a marker that belongs to no tool and holds
    nothing, and a marker whose rotation vector is one entry short. *)
Definition stylus : Marker (D := PrimFloat.float) :=
  {| TemplateName := "Stylus";
     Rotations := map float_of_Z [0; 1; 0; -1; 0; 0; 0; 0; 1]%Z;
     Translations := map float_of_Z [10; 20; 30]%Z |}.

Definition stray : Marker (D := PrimFloat.float) :=
  {| TemplateName := "Stray"; Rotations := []; Translations := [] |}.

Definition short : Marker (D := PrimFloat.float) :=
  {| TemplateName := "Stylus";
     Rotations := map float_of_Z [1; 0; 0; 0; 1; 0; 0; 0]%Z;
     Translations := map float_of_Z [10; 20; 30]%Z |}.

(** A camera that answers as needed and sees the stylus and the stray
    marker, and one from which no frame can be grabbed. *)
Definition camera : MicronTrackerInterface (D := PrimFloat.float) :=
  {| mtInit_returns := 1;
     mtSetupCameras_returns := 1;
     mtGetNumOfCameras_returns := 2;
     mtRefreshTemplates_returns := 0;
     mtRefreshTemplates_errors := [];
     mtGrabFrame_returns := 0;
     mtProcessFrame_returns := 0;
     GetLastErrorString := "";
     IdentifiedMarkers := [stray; stylus] |}.

Definition busy_camera : MicronTrackerInterface (D := PrimFloat.float) :=
  {| mtInit_returns := 1;
     mtSetupCameras_returns := 1;
     mtGetNumOfCameras_returns := 2;
     mtRefreshTemplates_returns := 0;
     mtRefreshTemplates_errors := [];
     mtGrabFrame_returns := -1;
     mtProcessFrame_returns := 0;
     GetLastErrorString := "busy";
     IdentifiedMarkers := [] |}.

(** The tools of the device, by source id and port name. *)
Definition tools : list (string * string) :=
  [("StylusToTracker", "Stylus"); ("ProbeToTracker", "Probe")]%string.

Definition tool_by_port_name (portName : string) : option string :=
  option_map fst (find (fun tool : string * string => String.eqb (snd tool) portName) tools).

Definition configuration_path (file : string) : string := ("config/" ++ file)%string.

Definition file_exists (path : string) (isAFile : bool) : bool := true.

Definition now : PrimFloat.float := float_of_Z 5.

Definition unsigned_range : Z := 2 ^ 32.

(** A device as the constructor leaves it, with a template directory set
    from the configuration; and the same device, connected. *)
Definition device : vtkPlusMicronTracker :=
  {| IsMicronTrackingInitialized := false;
     FrameNumber := 0;
     IniFile := "MicronTracker.ini";
     TemplateDirectory := "Markers" |}.

Definition connected : vtkPlusMicronTracker := SetInitialized true device.

End TrackerExamples.

(** * Results *)

(** ** Running the loops *)

Section Loops.

Context {D : Type} {ops : DoubleOps D}.
Variable InitializeTransform :
  list (point D) -> list (point D) -> option (itkMatrix D * point D).

Local Open Scope dbl_scope.

Lemma skipn_nth_error (A : Type) (l : list A) (i : nat) (x : A) :
  nth_error l i = Some x -> skipn i l = x :: skipn (S i) l.
Proof.
  revert i; induction l as [|h t IH]; intros [|i] E; simpl in *; try discriminate.
  - now inversion E.
  - now apply IH.
Qed.

Lemma nth_error_in_range (A : Type) (l : list A) (i : nat) :
  (i < length l)%nat -> exists x, nth_error l i = Some x.
Proof.
  intros H. destruct (nth_error l i) eqn:E; [eauto|].
  apply nth_error_None in E. lia.
Qed.

Lemma GetPointOf_in_range which i (this : vtkPhantomRegistrationAlgo D) p :
  GetPoint (landmarks which this) i = Some p ->
  GetPointOf which i this = (Returns p, this, []).
Proof.
  intros E. unfold GetPointOf, bind, read. destruct which; simpl in *; now rewrite E.
Qed.

Lemma GetPointOf_past_end which i (this : vtkPhantomRegistrationAlgo D) :
  (length (landmarks which this) <= i)%nat ->
  GetPointOf which i this = (Undefined (ReadPastEnd which i), this, []).
Proof.
  intros H. apply nth_error_None in H.
  unfold GetPointOf, bind, read, GetPoint. destruct which; simpl in *; now rewrite H.
Qed.

(** The first loop of [Register], all reads in range. *)
Lemma Register_loop_in_range (this : vtkPhantomRegistrationAlgo D) :
  forall count from fixedPoints movingPoints,
    (from + count <= length (DefinedLandmarks this))%nat ->
    (from + count <= length (RecordedLandmarks this))%nat ->
    for_loop count from Register_body (fixedPoints, movingPoints) this
    = (Returns (fixedPoints ++ firstn count (skipn from (DefinedLandmarks this)),
                movingPoints ++ firstn count (skipn from (RecordedLandmarks this))),
       this, []).
Proof.
  induction count as [|c IH]; intros from fx mv Hd Hr.
  - simpl. unfold ret. now rewrite !app_nil_r.
  - destruct (@nth_error_in_range _ (DefinedLandmarks this) from) as [d Ed]; [lia|].
    destruct (@nth_error_in_range _ (RecordedLandmarks this) from) as [r Er]; [lia|].
    cbn [for_loop]. unfold bind at 1. unfold Register_body, bind at 1.
    rewrite (@GetPointOf_in_range Defined from this d Ed).
    unfold bind at 1.
    rewrite (@GetPointOf_in_range Recorded from this r Er).
    unfold ret at 1. cbn [app].
    rewrite IH by lia.
    rewrite (skipn_nth_error _ _ Ed), (skipn_nth_error _ _ Er).
    cbn [firstn]. now rewrite <- !app_assoc.
Qed.

(** The first loop of [Register] when [DefinedLandmarks] ends before
    [RecordedLandmarks]. *)
Lemma Register_loop_past_end (this : vtkPhantomRegistrationAlgo D) :
  forall count from vectors,
    (from <= length (DefinedLandmarks this))%nat ->
    (length (DefinedLandmarks this) < from + count)%nat ->
    (from + count <= length (RecordedLandmarks this))%nat ->
    for_loop count from Register_body vectors this
    = (Undefined (ReadPastEnd Defined (length (DefinedLandmarks this))), this, []).
Proof.
  induction count as [|c IH]; intros from [fx mv] Hf Hd Hr; [lia|].
  cbn [for_loop]. unfold bind at 1. unfold Register_body, bind at 1.
  destruct (Nat.eq_dec from (length (DefinedLandmarks this))) as [->|Hne].
  - now rewrite (@GetPointOf_past_end Defined _ this) by (simpl; lia).
  - destruct (@nth_error_in_range _ (DefinedLandmarks this) from) as [d Ed]; [lia|].
    destruct (@nth_error_in_range _ (RecordedLandmarks this) from) as [r Er]; [lia|].
    rewrite (@GetPointOf_in_range Defined from this d Ed).
    unfold bind at 1.
    rewrite (@GetPointOf_in_range Recorded from this r Er).
    unfold ret at 1. cbn [app].
    now rewrite IH by lia.
Qed.

(** The loop of [ComputeError], all reads in range and the matrix set. *)
Lemma ComputeError_loop_in_range (this : vtkPhantomRegistrationAlgo D) m :
  PhantomToReferenceTransformMatrix this = Some m ->
  forall count from sumDistance,
    (from + count <= length (DefinedLandmarks this))%nat ->
    (from + count <= length (RecordedLandmarks this))%nat ->
    for_loop count from ComputeError_body sumDistance this
    = (Returns (sum_distances m (firstn count (skipn from (DefinedLandmarks this)))
                                (firstn count (skipn from (RecordedLandmarks this)))
                                sumDistance),
       this, []).
Proof.
  intros Hm. induction count as [|c IH]; intros from s Hd Hr.
  - reflexivity.
  - destruct (@nth_error_in_range _ (DefinedLandmarks this) from) as [d Ed]; [lia|].
    destruct (@nth_error_in_range _ (RecordedLandmarks this) from) as [r Er]; [lia|].
    cbn [for_loop]. unfold bind at 1. unfold ComputeError_body, bind at 1.
    rewrite (@GetPointOf_in_range Defined from this d Ed).
    destruct d as [[l0 l1] l2].
    unfold bind at 1, read at 1. rewrite Hm.
    unfold bind at 1.
    rewrite (@GetPointOf_in_range Recorded from this r Er).
    unfold ret at 1. cbn [app].
    rewrite IH by lia.
    rewrite (skipn_nth_error _ _ Ed), (skipn_nth_error _ _ Er).
    reflexivity.
Qed.

(** The loop of [ComputeError] when [DefinedLandmarks] ends before
    [RecordedLandmarks]. *)
Lemma ComputeError_loop_past_end (this : vtkPhantomRegistrationAlgo D) m :
  PhantomToReferenceTransformMatrix this = Some m ->
  forall count from sumDistance,
    (from <= length (DefinedLandmarks this))%nat ->
    (length (DefinedLandmarks this) < from + count)%nat ->
    (from + count <= length (RecordedLandmarks this))%nat ->
    for_loop count from ComputeError_body sumDistance this
    = (Undefined (ReadPastEnd Defined (length (DefinedLandmarks this))), this, []).
Proof.
  intros Hm. induction count as [|c IH]; intros from s Hf Hd Hr; [lia|].
  cbn [for_loop]. unfold bind at 1. unfold ComputeError_body, bind at 1.
  destruct (Nat.eq_dec from (length (DefinedLandmarks this))) as [->|Hne].
  - now rewrite (@GetPointOf_past_end Defined _ this) by (simpl; lia).
  - destruct (@nth_error_in_range _ (DefinedLandmarks this) from) as [d Ed]; [lia|].
    destruct (@nth_error_in_range _ (RecordedLandmarks this) from) as [r Er]; [lia|].
    rewrite (@GetPointOf_in_range Defined from this d Ed).
    destruct d as [[l0 l1] l2].
    unfold bind at 1, read at 1. rewrite Hm.
    unfold bind at 1.
    rewrite (@GetPointOf_in_range Recorded from this r Er).
    unfold ret at 1. cbn [app].
    now rewrite IH by lia.
Qed.

Lemma ComputeError_in_range (this : vtkPhantomRegistrationAlgo D) m :
  PhantomToReferenceTransformMatrix this = Some m ->
  (length (RecordedLandmarks this) <= length (DefinedLandmarks this))%nat ->
  ComputeError this
  = (Returns PLUS_SUCCESS, with_error (computed_error m this) this, []).
Proof.
  intros Hm Hle. unfold ComputeError.
  unfold bind at 1, read at 1, GetNumberOfPoints.
  unfold bind at 1.
  rewrite (ComputeError_loop_in_range this Hm) by (simpl; lia).
  cbn [skipn]. rewrite (firstn_all (RecordedLandmarks this)).
  reflexivity.
Qed.

Lemma ComputeError_past_end (this : vtkPhantomRegistrationAlgo D) m :
  PhantomToReferenceTransformMatrix this = Some m ->
  (length (DefinedLandmarks this) < length (RecordedLandmarks this))%nat ->
  ComputeError this
  = (Undefined (ReadPastEnd Defined (length (DefinedLandmarks this))), this, []).
Proof.
  intros Hm Hlt. unfold ComputeError.
  unfold bind at 1, read at 1, GetNumberOfPoints.
  unfold bind at 1.
  now rewrite (ComputeError_loop_past_end this Hm) by (simpl; lia).
Qed.

Lemma Register_in_range (this : vtkPhantomRegistrationAlgo D) :
  (length (RecordedLandmarks this) <= length (DefinedLandmarks this))%nat ->
  Register InitializeTransform this = Register_outcome InitializeTransform this.
Proof.
  intros Hle. unfold Register, Register_outcome.
  unfold bind at 1, read at 1, GetNumberOfPoints.
  unfold bind at 1.
  rewrite Register_loop_in_range by (simpl; lia).
  cbn [skipn app]. rewrite (firstn_all (RecordedLandmarks this)).
  destruct (InitializeTransform _ _) as [[tm off]|]; [|reflexivity].
  unfold bind at 1, SetPhantomToReferenceTransformMatrix, write.
  unfold bind at 1.
  change (ComputeError _) with (ComputeError (with_matrix (assemble tm off) this)).
  rewrite (@ComputeError_in_range (with_matrix (assemble tm off) this) (assemble tm off))
    by (simpl; auto).
  reflexivity.
Qed.

Lemma Register_past_end (this : vtkPhantomRegistrationAlgo D) :
  (length (DefinedLandmarks this) < length (RecordedLandmarks this))%nat ->
  Register InitializeTransform this
  = (Undefined (ReadPastEnd Defined (length (DefinedLandmarks this))), this, []).
Proof.
  intros Hlt. unfold Register.
  unfold bind at 1, read at 1, GetNumberOfPoints.
  unfold bind at 1.
  now rewrite Register_loop_past_end by (simpl; lia).
Qed.

End Loops.

(** ** What [Register] and [ComputeError] check *)

Section Checks.

Context {D : Type} {ops : DoubleOps D}.
Variable InitializeTransform :
  list (point D) -> list (point D) -> option (itkMatrix D * point D).

Lemma Register_outcome_not_PLUS_FAIL (this : vtkPhantomRegistrationAlgo D) :
  status_of (Register_outcome InitializeTransform this) <> Returns PLUS_FAIL.
Proof.
  unfold Register_outcome.
  destruct (InitializeTransform _ _) as [[tm off]|]; simpl; discriminate.
Qed.

(** [Register] never returns PLUS_FAIL. *)
Lemma Register_not_PLUS_FAIL (this : vtkPhantomRegistrationAlgo D) :
  status_of (Register InitializeTransform this) <> Returns PLUS_FAIL.
Proof.
  destruct (le_lt_dec (length (RecordedLandmarks this)) (length (DefinedLandmarks this)))
    as [Hle|Hlt].
  - rewrite Register_in_range by exact Hle. apply Register_outcome_not_PLUS_FAIL.
  - rewrite Register_past_end by exact Hlt. simpl. discriminate.
Qed.

(** C4, amended. [Register] has no check of the number of correspondences:
    with fewer than 3 of them (and a defined landmark at the id of every
    recorded one) it still hands the points to the initializer; when that
    returns, the matrix and the error are stored and the status is
    PLUS_SUCCESS; when it raises, the exception leaves [Register]. PLUS_FAIL
    is not returned. *)
Theorem Register_no_minimum_count (this : vtkPhantomRegistrationAlgo D) :
  (length (RecordedLandmarks this) < 3)%nat ->
  (length (RecordedLandmarks this) <= length (DefinedLandmarks this))%nat ->
  Register InitializeTransform this = Register_outcome InitializeTransform this
  /\ status_of (Register InitializeTransform this) <> Returns PLUS_FAIL.
Proof.
  intros _ Hle. split.
  - now apply Register_in_range.
  - apply Register_not_PLUS_FAIL.
Qed.

(** C5, amended. [Register] does not compare the two counts. With more
    defined than recorded landmarks it uses the defined landmarks at the ids
    of the recorded ones only: status, stored matrix and stored error are
    those of the run on the object without the surplus, and the status is
    not PLUS_FAIL. *)
Theorem Register_ignores_surplus_defined (this : vtkPhantomRegistrationAlgo D) :
  (length (RecordedLandmarks this) < length (DefinedLandmarks this))%nat ->
  let run := Register InitializeTransform this in
  let run' := Register InitializeTransform (without_surplus this) in
  status_of run = status_of run'
  /\ PhantomToReferenceTransformMatrix (object_of run)
     = PhantomToReferenceTransformMatrix (object_of run')
  /\ RegistrationError (object_of run) = RegistrationError (object_of run')
  /\ status_of run <> Returns PLUS_FAIL.
Proof.
  intros Hlt run run'.
  assert (Hlen : length (DefinedLandmarks (without_surplus this))
                 = length (RecordedLandmarks this)).
  { simpl. rewrite length_firstn. lia. }
  assert (E : run = Register_outcome InitializeTransform this).
  { apply Register_in_range. lia. }
  assert (E' : run' = Register_outcome InitializeTransform (without_surplus this)).
  { apply Register_in_range. rewrite Hlen. simpl. lia. }
  split; [|split; [|split]]; try (subst run; apply Register_not_PLUS_FAIL);
    rewrite E, E'; unfold Register_outcome;
    cbn [RecordedLandmarks DefinedLandmarks without_surplus];
    rewrite firstn_firstn, Nat.min_id;
    destruct (InitializeTransform _ _) as [[tm off]|]; try reflexivity.
  unfold computed_error, status_of, object_of; simpl.
  now rewrite firstn_firstn, Nat.min_id.
Qed.

(** C7, amended. [ComputeError] has no guard for an empty [RecordedLandmarks]:
    the loop is not entered, the quotient of 0.0 by the count 0 is stored as
    the registration error, and PLUS_SUCCESS is returned. *)
Theorem ComputeError_empty (this : vtkPhantomRegistrationAlgo D) :
  RecordedLandmarks this = [] ->
  ComputeError this
  = (Returns PLUS_SUCCESS, with_error (ddiv (of_Z 0) (of_Z 0)) this, []).
Proof.
  intros H. unfold ComputeError, bind, read, GetNumberOfPoints. rewrite H. reflexivity.
Qed.

(** C8. When a run of [Register] ends in failure, the stored matrix and the
    stored registration error are those from before the run. *)
Theorem Register_failure_publishes_nothing
  (this this' : vtkPhantomRegistrationAlgo D) (r : result PlusStatus) (log : list message) :
  Register InitializeTransform this = (r, this', log) ->
  failed r = true ->
  PhantomToReferenceTransformMatrix this' = PhantomToReferenceTransformMatrix this
  /\ RegistrationError this' = RegistrationError this.
Proof.
  intros E F.
  destruct (le_lt_dec (length (RecordedLandmarks this)) (length (DefinedLandmarks this)))
    as [Hle|Hlt].
  - rewrite Register_in_range in E by exact Hle. unfold Register_outcome in E.
    destruct (InitializeTransform _ _) as [[tm off]|].
    + inversion E; subst. discriminate F.
    + inversion E; subst. split; reflexivity.
  - rewrite Register_past_end in E by exact Hlt. inversion E; subst. discriminate F.
Qed.

(** [ComputeError] on an object without matrix and with a recorded
    landmark: the first turn reads the defined landmark 0, past the end if
    there is none, and then calls through the NULL pointer. *)
Lemma ComputeError_null_matrix (this : vtkPhantomRegistrationAlgo D) :
  PhantomToReferenceTransformMatrix this = None ->
  (0 < length (RecordedLandmarks this))%nat ->
  ((0 < length (DefinedLandmarks this))%nat ->
   ComputeError this = (Undefined NullTransformMatrix, this, []))
  /\ (length (DefinedLandmarks this) = 0%nat ->
      ComputeError this = (Undefined (ReadPastEnd Defined 0), this, [])).
Proof.
  intros Hm Hr. destruct this as [e m ds rs names dpast rpast]. simpl in *. subst m.
  destruct rs as [|r rs]; [simpl in Hr; lia|].
  destruct ds as [|[[l0 l1] l2] ds]; split; intros H; simpl in H; try lia; reflexivity.
Qed.

(** C10, amended. [Register] reads [DefinedLandmarks] at the ids 0 .. n-1
    of the n recorded landmarks and does not look at its size: on every
    object, with at least n defined landmarks every read is in range and
    the initializer is given the defined landmarks at those ids, and with
    fewer the read at the id that equals the size is past the end.
    [ComputeError] does the same on every object whose matrix is set. On an
    object without matrix its first turn reads the defined landmark 0 and
    then ends at the call through the NULL pointer, so that it reads past
    the end only when there is no defined landmark at all. *)
Theorem defined_reads_in_range_iff (this : vtkPhantomRegistrationAlgo D) :
  let n := length (RecordedLandmarks this) in
  let size := length (DefinedLandmarks this) in
  ((n <= size)%nat ->
   Register InitializeTransform this = Register_outcome InitializeTransform this)
  /\ ((size < n)%nat ->
      Register InitializeTransform this = (Undefined (ReadPastEnd Defined size), this, []))
  /\ ((exists i, status_of (Register InitializeTransform this)
                 = Undefined (ReadPastEnd Defined i)) <-> (size < n)%nat)
  /\ (forall m, PhantomToReferenceTransformMatrix this = Some m ->
        ((n <= size)%nat ->
         ComputeError this
         = (Returns PLUS_SUCCESS, with_error (computed_error m this) this, []))
        /\ ((size < n)%nat ->
            ComputeError this = (Undefined (ReadPastEnd Defined size), this, [])))
  /\ (PhantomToReferenceTransformMatrix this = None ->
        ((0 < n)%nat -> (0 < size)%nat ->
         ComputeError this = (Undefined NullTransformMatrix, this, []))
        /\ ((0 < n)%nat -> size = 0%nat ->
            ComputeError this = (Undefined (ReadPastEnd Defined 0), this, [])))
  /\ ((exists i, status_of (ComputeError this) = Undefined (ReadPastEnd Defined i))
      <-> (size < n)%nat
          /\ (PhantomToReferenceTransformMatrix this <> None \/ size = 0%nat)).
Proof.
  intros n size.
  assert (Set_matrix : forall m, PhantomToReferenceTransformMatrix this = Some m ->
     ((n <= size)%nat ->
      ComputeError this = (Returns PLUS_SUCCESS, with_error (computed_error m this) this, []))
     /\ ((size < n)%nat ->
         ComputeError this = (Undefined (ReadPastEnd Defined size), this, []))).
  { intros m Hm. split; intros H;
      [now apply ComputeError_in_range | now apply ComputeError_past_end with m]. }
  assert (No_matrix : PhantomToReferenceTransformMatrix this = None ->
     ((0 < n)%nat -> (0 < size)%nat ->
      ComputeError this = (Undefined NullTransformMatrix, this, []))
     /\ ((0 < n)%nat -> size = 0%nat ->
         ComputeError this = (Undefined (ReadPastEnd Defined 0), this, []))).
  { intros Hm. split; intros Hn Hs; now apply (ComputeError_null_matrix this Hm Hn). }
  split; [now apply Register_in_range | split; [now apply Register_past_end | split]].
  - split.
    + intros [i Hi]. destruct (le_lt_dec n size) as [Hle|Hlt]; [|exact Hlt].
      rewrite (Register_in_range InitializeTransform this Hle) in Hi.
      unfold Register_outcome in Hi.
      destruct (InitializeTransform _ _) as [[tm off]|]; discriminate Hi.
    + intros Hlt. exists size. now rewrite (Register_past_end InitializeTransform this Hlt).
  - split; [exact Set_matrix | split; [exact No_matrix|]].
    destruct (PhantomToReferenceTransformMatrix this) as [m|] eqn:Hm.
    + destruct (Set_matrix m eq_refl) as [In_range Past_end]. split.
      * intros [i Hi]. destruct (le_lt_dec n size) as [Hle|Hlt].
        -- rewrite (In_range Hle) in Hi. discriminate Hi.
        -- split; [exact Hlt | left; discriminate].
      * intros [Hlt _]. exists size. now rewrite (Past_end Hlt).
    + destruct (No_matrix eq_refl) as [Null Empty]. split.
      * intros [i Hi]. destruct (Nat.eq_dec n 0) as [Hn|Hn].
        -- exfalso. assert (Hr : RecordedLandmarks this = [])
             by (apply length_zero_iff_nil; exact Hn).
           unfold ComputeError, bind, read, GetNumberOfPoints in Hi. rewrite Hr in Hi.
           discriminate Hi.
        -- destruct (Nat.eq_dec size 0) as [Hs|Hs].
           ++ split; [lia | now right].
           ++ rewrite Null in Hi by lia. discriminate Hi.
      * intros [Hlt [H|Hs]]; [now elim H|].
        exists 0%nat. rewrite Empty by lia. reflexivity.
Qed.

End Checks.

(** ** The error as a mean of distances, over the reals *)

Section Ideal.

Local Open Scope R_scope.

Lemma distance_term_euclidean (T : vtkMatrix4x4 R) (d r : point R) :
  distance_term T d r = euclidean_distance (transformed T d) r.
Proof.
  destruct d as [[x y] z], r as [[r0 r1] r2].
  unfold distance_term, euclidean_distance, transformed, Distance2BetweenPoints,
    first3, MultiplyDoublePoint. simpl.
  f_equal. unfold Rsqr. ring.
Qed.

Lemma fold_left_total (f : point R * point R -> R) (l : list (point R * point R)) :
  forall s, fold_left (fun s dr => s + f dr) l s = s + total (map f l).
Proof.
  induction l as [|x l IH]; intros s; simpl.
  - ring.
  - rewrite IH. ring.
Qed.

Lemma sum_distances_total (T : vtkMatrix4x4 R) (defined recorded : list (point R)) :
  sum_distances T defined recorded 0 = total (residuals T defined recorded).
Proof.
  unfold sum_distances, residuals. simpl.
  rewrite (fold_left_total (fun dr => distance_term T (fst dr) (snd dr))).
  rewrite Rplus_0_l. f_equal. apply map_ext. intros [d r]. apply distance_term_euclidean.
Qed.

Lemma residuals_apart :
  residuals Identity (DefinedLandmarks IdealExamples.apart)
            (RecordedLandmarks IdealExamples.apart)
  = [0; 2].
Proof.
  unfold residuals, euclidean_distance, transformed. simpl.
  cbv [GetElement Identity get4 of_Z R_ops].
  f_equal; [|f_equal].
  - replace (_ + _ + _) with 0 by (unfold Rsqr; ring). apply sqrt_0.
  - replace (_ + _ + _) with (2²) by (unfold Rsqr; ring). apply sqrt_Rsqr. lra.
Qed.

Lemma sqrt2_neq_1 : sqrt 2 <> 1.
Proof.
  intros H. assert (E : sqrt 2 * sqrt 2 = 2) by (apply sqrt_sqrt; lra).
  rewrite H in E. lra.
Qed.

(** The value that [ComputeError] stores is the mean distance. *)
Lemma computed_error_mean (this : vtkPhantomRegistrationAlgo R) (T : vtkMatrix4x4 R) :
  computed_error T this = mean_distance T (DefinedLandmarks this) (RecordedLandmarks this).
Proof.
  unfold computed_error, mean_distance, sum_distances.
  rewrite <- combine_firstn_r.
  fold (sum_distances T (DefinedLandmarks this) (RecordedLandmarks this) (of_Z 0)).
  change (of_Z 0) with 0. rewrite sum_distances_total.
  simpl. now rewrite <- INR_IZR_INZ.
Qed.

(** [ComputeError] over the reals, every read in range. *)
Lemma ComputeError_mean (this : vtkPhantomRegistrationAlgo R) (T : vtkMatrix4x4 R) :
  PhantomToReferenceTransformMatrix this = Some T ->
  (length (RecordedLandmarks this) <= length (DefinedLandmarks this))%nat ->
  ComputeError this
  = (Returns PLUS_SUCCESS,
     with_error (mean_distance T (DefinedLandmarks this) (RecordedLandmarks this)) this,
     []).
Proof.
  intros HT Hlen.
  rewrite (@ComputeError_in_range _ _ this T HT) by exact Hlen.
  now rewrite computed_error_mean.
Qed.

(** C2. On n >= 1 correspondences and with any matrix set, [ComputeError]
    returns PLUS_SUCCESS and stores the arithmetic mean of the distances
    between the transformed defined landmarks and the recorded ones; the
    stored value is not in general their root mean square. *)
Theorem ComputeError_is_mean_distance :
  (forall (this : vtkPhantomRegistrationAlgo R) (T : vtkMatrix4x4 R),
     PhantomToReferenceTransformMatrix this = Some T ->
     (1 <= length (RecordedLandmarks this))%nat ->
     length (DefinedLandmarks this) = length (RecordedLandmarks this) ->
     ComputeError this
     = (Returns PLUS_SUCCESS,
        with_error (mean_distance T (DefinedLandmarks this) (RecordedLandmarks this)) this,
        []))
  /\ (exists (this : vtkPhantomRegistrationAlgo R) (T : vtkMatrix4x4 R),
        PhantomToReferenceTransformMatrix this = Some T
        /\ (1 <= length (RecordedLandmarks this))%nat
        /\ length (DefinedLandmarks this) = length (RecordedLandmarks this)
        /\ RegistrationError (object_of (ComputeError this))
           <> rms_distance T (DefinedLandmarks this) (RecordedLandmarks this)).
Proof.
  split.
  - intros this T HT _ Hlen. apply ComputeError_mean; [exact HT | lia].
  - exists IdealExamples.apart, Identity.
    split; [reflexivity | split; [simpl; lia | split; [reflexivity|]]].
    rewrite (@ComputeError_mean IdealExamples.apart Identity eq_refl) by (simpl; lia).
    unfold object_of, with_error, mean_distance, rms_distance. cbn [fst snd RegistrationError].
    rewrite residuals_apart. simpl.
    replace ((0 + (2 + 0)) / (1 + 1)) with 1 by lra.
    replace ((0² + (2² + 0)) / (1 + 1)) with 2 by (unfold Rsqr; lra).
    intros H. now apply sqrt2_neq_1.
Qed.

Lemma euclidean_distance_same (p : point R) : euclidean_distance p p = 0.
Proof.
  destruct p as [[x y] z]. unfold euclidean_distance.
  replace (_ + _ + _) with 0 by (unfold Rsqr; ring). apply sqrt_0.
Qed.

Lemma residuals_exact_fit (T : vtkMatrix4x4 R) (defined recorded : list (point R)) :
  Forall2 (fun d r => r = transformed T d) defined recorded ->
  total (residuals T defined recorded) = 0.
Proof.
  induction 1 as [|d r ds rs Hd _ IH]; unfold residuals in *; simpl; [reflexivity|].
  rewrite IH, Hd, euclidean_distance_same. ring.
Qed.

(** When the stored matrix maps every defined landmark onto its recorded
    landmark, the error that [ComputeError] stores is 0. *)
Lemma ComputeError_exact_fit (this : vtkPhantomRegistrationAlgo R) (T : vtkMatrix4x4 R) :
  PhantomToReferenceTransformMatrix this = Some T ->
  (1 <= length (RecordedLandmarks this))%nat ->
  Forall2 (fun d r => r = transformed T d) (DefinedLandmarks this) (RecordedLandmarks this) ->
  ComputeError this = (Returns PLUS_SUCCESS, with_error 0 this, []).
Proof.
  intros HT _ Hfit.
  rewrite (ComputeError_mean this HT) by (rewrite (Forall2_length Hfit); lia).
  unfold mean_distance. rewrite (@residuals_exact_fit T _ _ Hfit).
  unfold Rdiv. now rewrite Rmult_0_l.
Qed.

(** The matrix that [Register] assembles applies the transform's matrix
    and adds its offset. *)
Lemma transformed_assemble (M : itkMatrix R) (o d : point R) :
  transformed (assemble M o) d = affine_image M o d.
Proof.
  destruct M as [[[[a00 a01] a02] [[a10 a11] a12]] [[a20 a21] a22]].
  destruct o as [[o0 o1] o2], d as [[x y] z].
  unfold transformed, affine_image, assemble. simpl.
  cbv [GetElement SetElement Identity get4 set4 get3 of_Z R_ops].
  repeat f_equal; ring.
Qed.

(** When the initializer leaves a transform that maps every defined
    landmark onto its recorded landmark, [Register] stores its matrix and
    the error 0 and returns PLUS_SUCCESS. *)
Lemma Register_exact_fit
  (InitializeTransform : list (point R) -> list (point R) -> option (itkMatrix R * point R))
  (this : vtkPhantomRegistrationAlgo R) (M : itkMatrix R) (o : point R) :
  (1 <= length (RecordedLandmarks this))%nat ->
  InitializeTransform (DefinedLandmarks this) (RecordedLandmarks this) = Some (M, o) ->
  Forall2 (fun d r => r = affine_image M o d) (DefinedLandmarks this) (RecordedLandmarks this) ->
  Register InitializeTransform this
  = (Returns PLUS_SUCCESS, with_error 0 (with_matrix (assemble M o) this), []).
Proof.
  intros _ Hinit Hfit. pose proof (Forall2_length Hfit) as Hlen.
  rewrite Register_in_range by lia. unfold Register_outcome.
  rewrite <- Hlen, firstn_all, Hinit.
  rewrite computed_error_mean. unfold mean_distance.
  rewrite (@residuals_exact_fit (assemble M o)).
  - unfold Rdiv. now rewrite Rmult_0_l.
  - simpl. eapply Forall2_impl; [|exact Hfit].
    intros d r ->. symmetry. apply transformed_assemble.
Qed.

End Ideal.

(** ** Degenerate geometry *)

Section Geometry.

Local Open Scope R_scope.

Variable InitializeTransform :
  list (point R) -> list (point R) -> option (itkMatrix R * point R).

(** C6, amended. [Register] has no test of the geometry of the landmarks:
    for 3 or more correspondences whose defined landmarks lie on one line
    it hands the points to the initializer as for any other set; when that
    returns, the matrix and the error are stored and the status is
    PLUS_SUCCESS; when it raises, the exception leaves [Register]. PLUS_FAIL
    is not returned. *)
Theorem Register_no_geometry_check (this : vtkPhantomRegistrationAlgo R) :
  (3 <= length (RecordedLandmarks this))%nat ->
  (length (RecordedLandmarks this) <= length (DefinedLandmarks this))%nat ->
  collinear (firstn (length (RecordedLandmarks this)) (DefinedLandmarks this)) ->
  Register InitializeTransform this = Register_outcome InitializeTransform this
  /\ status_of (Register InitializeTransform this) <> Returns PLUS_FAIL.
Proof.
  intros _ Hle _. split.
  - now apply Register_in_range.
  - apply Register_not_PLUS_FAIL.
Qed.

End Geometry.

(** ** Collecting the defined landmarks *)

Section Collection.

Context {D : Type} {ops : DoubleOps D}.
Variable allocated : nat -> point D.
Variable unread : nat -> point D.

Ltac list_lia := unfold PointsArray, vtkPoints, point in *; lia.

#[local] Arguments InsertPoint : simpl never.

Lemma with_collected_same (this : vtkPhantomRegistrationAlgo D) :
  with_collected (DefinedLandmarksArray this, DefinedLandmarkNames this) this = this.
Proof. now destruct this. Qed.

Lemma ReadConfiguration_body_run (landmarks e : vtkXMLDataElement D) (i : nat)
  (this : vtkPhantomRegistrationAlgo D) :
  GetNestedElement landmarks i = Some e ->
  (is_landmark_element e = true -> GetAttribute_Name e <> None) ->
  ReadConfiguration_body allocated unread landmarks i tt this
  = (Returns tt,
     with_collected
       (if valid_landmark e
        then (InsertPoint allocated i (position_of (unread i) e) (DefinedLandmarksArray this),
              replace_at i (name_of e) (DefinedLandmarkNames this))
        else (DefinedLandmarksArray this, DefinedLandmarkNames this)) this,
     entry_warning e).
Proof.
  intros He Hname.
  unfold ReadConfiguration_body, valid_landmark, entry_warning, has_position,
    position_of, name_of.
  rewrite He. fold (is_landmark_element e).
  destruct (is_landmark_element e) eqn:Etag; cbn [negb andb].
  - destruct (GetAttribute_Name e) as [s|] eqn:Ename; [|now elim Hname].
    unfold GetVectorAttribute_Position. cbn [fst snd].
    destruct (length (firstn 3 (PositionValues e)) =? 0); cbn [negb].
    + unfold LOG. now rewrite with_collected_same.
    + reflexivity.
  - unfold LOG. now rewrite with_collected_same.
Qed.

Lemma ReadConfiguration_loop (landmarks : vtkXMLDataElement D) :
  forall count from (this : vtkPhantomRegistrationAlgo D),
    (from + count <= length (NestedElements landmarks))%nat ->
    names_present (firstn count (skipn from (NestedElements landmarks))) ->
    for_loop count from (ReadConfiguration_body allocated unread landmarks) tt this
    = (Returns tt,
       with_collected
         (collect allocated unread from
                  (firstn count (skipn from (NestedElements landmarks)))
                  (DefinedLandmarksArray this, DefinedLandmarkNames this)) this,
       flat_map entry_warning (firstn count (skipn from (NestedElements landmarks)))).
Proof.
  induction count as [|c IH]; intros from this Hlen Hnames.
  - simpl. unfold ret. now rewrite with_collected_same.
  - destruct (@nth_error_in_range _ (NestedElements landmarks) from) as [e Ee]; [lia|].
    rewrite (skipn_nth_error _ _ Ee) in *. cbn [firstn] in *.
    cbn [for_loop]. unfold bind.
    rewrite (@ReadConfiguration_body_run landmarks e from this Ee)
      by (apply Hnames; now left).
    rewrite IH; [| lia | intros x Hx; apply Hnames; now right].
    cbn [collect flat_map]. f_equal. f_equal.
    destruct (valid_landmark e); [|reflexivity].
    unfold DefinedLandmarksArray.
    cbn [with_collected DefinedLandmarks DefinedLandmarksPastEnd DefinedLandmarkNames
         fst snd].
    now rewrite <- surjective_pairing.
Qed.

Lemma length_replace_at (A : Type) (x : A) (l : list A) :
  forall i, length (replace_at i x l) = length l.
Proof. induction l as [|h t IH]; intros [|i]; simpl; auto. Qed.

Lemma nth_error_replace_at_same (A : Type) (x : A) (l : list A) :
  forall i, (i < length l)%nat -> nth_error (replace_at i x l) i = Some x.
Proof.
  induction l as [|h t IH]; intros [|i] H; simpl in *; try list_lia; auto.
  apply IH. list_lia.
Qed.

Lemma nth_error_replace_at_other (A : Type) (x : A) (l : list A) :
  forall i k, i <> k -> nth_error (replace_at i x l) k = nth_error l k.
Proof.
  induction l as [|h t IH]; intros [|i] [|k] H; simpl; auto; try congruence.
Qed.

Lemma length_InsertPoint (i : nat) (p : point D) (array : PointsArray D) :
  length (fst (InsertPoint allocated i p array)) = Nat.max (length (fst array)) (S i).
Proof.
  destruct array as [pts past]. unfold InsertPoint. cbn [fst].
  destruct (Nat.ltb_spec i (length pts)); cbn [fst].
  - rewrite length_replace_at. list_lia.
  - rewrite !length_app, length_map, length_seq. simpl. list_lia.
Qed.

(** What [InsertPoint] leaves at the id [i] is the point in single
    precision. *)
Lemma nth_error_InsertPoint_same (i : nat) (p : point D) (array : PointsArray D) :
  nth_error (fst (InsertPoint allocated i p array)) i = Some (stored p).
Proof.
  destruct array as [pts past]. unfold InsertPoint.
  destruct (Nat.ltb_spec i (length pts)); cbn [fst].
  - now apply nth_error_replace_at_same.
  - rewrite app_assoc.
    rewrite nth_error_app2; rewrite length_app, length_map, length_seq; [|list_lia].
    match goal with
    | |- nth_error _ ?k = _ =>
        replace k with 0%nat by list_lia
    end.
    reflexivity.
Qed.

Lemma nth_error_InsertPoint_other (i k : nat) (p : point D) (array : PointsArray D) :
  (k < i)%nat -> (k < length (fst array))%nat ->
  nth_error (fst (InsertPoint allocated i p array)) k = nth_error (fst array) k.
Proof.
  destruct array as [pts past]. cbn [fst].
  intros Hk Hlen. unfold InsertPoint. destruct (Nat.ltb_spec i (length pts)); cbn [fst].
  - apply nth_error_replace_at_other. list_lia.
  - now apply nth_error_app1.
Qed.


Lemma collect_names_length (es : list (vtkXMLDataElement D)) :
  forall i acc, length (snd (collect allocated unread i es acc)) = length (snd acc).
Proof.
  induction es as [|e es IH]; intros i acc; simpl; [reflexivity|].
  rewrite IH. destruct (valid_landmark e); simpl;
    [apply length_replace_at | reflexivity].
Qed.


Lemma collect_keeps_point (es : list (vtkXMLDataElement D)) :
  forall i acc k,
    (k < i)%nat -> (k < length (fst (fst acc)))%nat ->
    nth_error (fst (fst (collect allocated unread i es acc))) k = nth_error (fst (fst acc)) k.
Proof.
  induction es as [|e es IH]; intros i acc k Hk Hlen; simpl; [reflexivity|].
  rewrite IH.
  - destruct (valid_landmark e); simpl;
      [now apply nth_error_InsertPoint_other | reflexivity].
  - list_lia.
  - destruct (valid_landmark e); simpl; [rewrite length_InsertPoint|]; list_lia.
Qed.

Lemma collect_keeps_name (es : list (vtkXMLDataElement D)) :
  forall i acc k,
    (k < i)%nat ->
    nth_error (snd (collect allocated unread i es acc)) k = nth_error (snd acc) k.
Proof.
  induction es as [|e es IH]; intros i acc k Hk; simpl; [reflexivity|].
  rewrite IH by list_lia.
  destruct (valid_landmark e); simpl;
    [apply nth_error_replace_at_other; list_lia | reflexivity].
Qed.

(** A valid entry is stored at its index, in single precision, with its
    name. *)
Lemma collect_stores (es : list (vtkXMLDataElement D)) :
  forall i acc j e,
    nth_error es j = Some e -> valid_landmark e = true ->
    (i + length es <= length (snd acc))%nat ->
    nth_error (fst (fst (collect allocated unread i es acc))) (i + j)
    = Some (stored (position_of (unread (i + j)) e))
    /\ nth_error (snd (collect allocated unread i es acc)) (i + j) = Some (name_of e).
Proof.
  induction es as [|x es IH]; intros i acc [|j] e Hj Hv Hlen; simpl in *; try discriminate.
  - inversion Hj; subst x. rewrite Hv, Nat.add_0_r. split.
    + rewrite collect_keeps_point; simpl.
      * apply nth_error_InsertPoint_same.
      * list_lia.
      * rewrite length_InsertPoint. list_lia.
    + rewrite collect_keeps_name by list_lia. simpl.
      apply nth_error_replace_at_same. list_lia.
  - replace (i + S j)%nat with (S i + j)%nat by list_lia.
    apply IH; auto.
    destruct (valid_landmark x); simpl; [rewrite length_replace_at|]; list_lia.
Qed.

Lemma ReadConfiguration_run (aConfig landmarks : vtkXMLDataElement D)
  (this : vtkPhantomRegistrationAlgo D) :
  landmarks_element aConfig landmarks ->
  names_present (NestedElements landmarks) ->
  ReadConfiguration allocated unread (Some aConfig) this
  = ReadConfiguration_outcome allocated unread landmarks this.
Proof.
  intros (pd & g & Hpd & Hg & Hl) Hnames.
  unfold ReadConfiguration, ReadConfiguration_outcome. rewrite Hpd.
  unfold bind at 1, read at 1. unfold bind at 1, SetDefinedLandmarks at 1, write at 1.
  unfold bind at 1, read at 1. unfold bind at 1, SetRecordedLandmarks at 1, write at 1.
  unfold bind at 1, SetDefinedLandmarkNames at 1, write at 1.
  cbn [DefinedLandmarks RecordedLandmarks DefinedLandmarkNames RegistrationError
       PhantomToReferenceTransformMatrix DefinedLandmarksPastEnd RecordedLandmarksPastEnd
       DefinedLandmarksArray RecordedLandmarksArray Reset fst snd].
  rewrite Hg, Hl.
  unfold bind at 1, SetDefinedLandmarkNames at 1, write at 1.
  cbn [DefinedLandmarks RecordedLandmarks DefinedLandmarkNames RegistrationError
       PhantomToReferenceTransformMatrix DefinedLandmarksPastEnd RecordedLandmarksPastEnd].
  unfold bind at 1, GetNumberOfNestedElements.
  rewrite ReadConfiguration_loop;
    [| simpl; lia | simpl; now rewrite firstn_all].
  cbn [skipn DefinedLandmarks DefinedLandmarkNames DefinedLandmarksPastEnd
       DefinedLandmarksArray].
  rewrite firstn_all.
  unfold Reset, DefinedLandmarksArray. cbn [fst snd].
  set (acc := collect allocated unread 0 (NestedElements landmarks) _).
  unfold bind, read, ret, LOG, GetNumberOfPoints, with_collected, after_reset.
  cbn [DefinedLandmarks RecordedLandmarks DefinedLandmarkNames RegistrationError
       PhantomToReferenceTransformMatrix DefinedLandmarksPastEnd RecordedLandmarksPastEnd
       fst snd].
  cbn -[flat_map Nat.eqb]. unfold PointsArray, vtkPoints, point in *.
  destruct (length (fst (fst acc)) =? length (NestedElements landmarks));
    cbn -[flat_map Nat.eqb];
    destruct (length (fst (fst acc)) =? 0); cbn -[flat_map]; rewrite ?app_nil_r; reflexivity.
Qed.


(** A Landmark element without a Name attribute: the [std::string] is built
    from NULL. *)
Lemma ReadConfiguration_body_null_name (landmarks e : vtkXMLDataElement D) (i : nat)
  (this : vtkPhantomRegistrationAlgo D) :
  GetNestedElement landmarks i = Some e ->
  is_landmark_element e = true ->
  GetAttribute_Name e = None ->
  ReadConfiguration_body allocated unread landmarks i tt this
  = (Undefined NullCString, this, []).
Proof.
  intros He Htag Hname. unfold ReadConfiguration_body.
  rewrite He. fold (is_landmark_element e). now rewrite Htag, Hname.
Qed.

End Collection.

(** ** The claims on concrete objects *)

(** The three landmarks on the x axis are collinear. *)
Lemma on_x_axis_collinear : collinear (DefinedLandmarks IdealExamples.on_x_axis).
Proof.
  exists (0, 0, 0)%R, (1, 0, 0)%R. intros p Hp. simpl in Hp.
  destruct Hp as [<-|[<-|[<-|[]]]]; [exists 0%R | exists 1%R | exists 2%R];
    unfold on_line; repeat f_equal; ring.
Qed.

(** The Landmarks element of the configuration is found, and no name is missing. *)
Lemma its_landmarks_found :
  landmarks_element ConfigurationExamples.one_valid_landmark
                    ConfigurationExamples.its_landmarks.
Proof. do 2 eexists. repeat split; reflexivity. Qed.

Lemma its_names_present :
  names_present (NestedElements ConfigurationExamples.its_landmarks).
Proof.
  intros e [<-|[<-|[<-|[]]]] Htag; [discriminate Htag | discriminate | discriminate].
Qed.

(** The theorem of C2 on two correspondences at distance 0 and 2. *)
Lemma ComputeError_is_mean_distance_witness :
  ComputeError IdealExamples.apart
  = (Returns PLUS_SUCCESS,
     with_error (mean_distance Identity (DefinedLandmarks IdealExamples.apart)
                               (RecordedLandmarks IdealExamples.apart))
                IdealExamples.apart, []).
Proof.
  apply (proj1 ComputeError_is_mean_distance IdealExamples.apart Identity);
    [reflexivity | simpl; lia | reflexivity].
Defined.

(** Counterexample to C4: two correspondences. No initializer makes
    [Register] return PLUS_FAIL, and with one that leaves the identity the
    matrix is stored, the error is 5 and the status is PLUS_SUCCESS. *)
Lemma Register_two_landmarks :
  (length (RecordedLandmarks Examples.two_landmarks) < 3)%nat
  /\ (forall init, status_of (Register init Examples.two_landmarks) <> Returns PLUS_FAIL)
  /\ Register Examples.identity_transform Examples.two_landmarks
     = (Returns PLUS_SUCCESS,
        with_error (float_of_Z 5) (with_matrix Identity Examples.two_landmarks), []).
Proof.
  split; [simpl; lia | split].
  - intros init. apply Register_not_PLUS_FAIL.
  - vm_compute. reflexivity.
Qed.

(** The theorem of C4 on two correspondences. *)
Lemma Register_no_minimum_count_witness :
  Register Examples.identity_transform Examples.two_landmarks
  = Register_outcome Examples.identity_transform Examples.two_landmarks
  /\ status_of (Register Examples.identity_transform Examples.two_landmarks)
     <> Returns PLUS_FAIL.
Proof.
  apply (Register_no_minimum_count Examples.identity_transform Examples.two_landmarks);
    simpl; lia.
Defined.

(** Counterexample to C5: four defined and three recorded landmarks. No
    initializer makes [Register] return PLUS_FAIL, and with one that leaves
    the identity the run ends in PLUS_SUCCESS with the error 5 of the first
    three defined landmarks. *)
Lemma Register_surplus_defined :
  length (DefinedLandmarks Examples.surplus_defined)
  <> length (RecordedLandmarks Examples.surplus_defined)
  /\ (forall init, status_of (Register init Examples.surplus_defined) <> Returns PLUS_FAIL)
  /\ Register Examples.identity_transform Examples.surplus_defined
     = (Returns PLUS_SUCCESS,
        with_error (float_of_Z 5) (with_matrix Identity Examples.surplus_defined), []).
Proof.
  split; [simpl; lia | split].
  - intros init. apply Register_not_PLUS_FAIL.
  - vm_compute. reflexivity.
Qed.

(** The theorem of C5 on four defined and three recorded landmarks. *)
Lemma Register_ignores_surplus_defined_witness :
  status_of (Register Examples.identity_transform Examples.surplus_defined)
  = status_of (Register Examples.identity_transform
                        (without_surplus Examples.surplus_defined))
  /\ RegistrationError (object_of (Register Examples.identity_transform Examples.surplus_defined))
     = RegistrationError (object_of (Register Examples.identity_transform
                                      (without_surplus Examples.surplus_defined))).
Proof.
  destruct (Register_ignores_surplus_defined Examples.identity_transform
              Examples.surplus_defined) as (Hs & _ & He & _).
  - simpl. lia.
  - split; [exact Hs | exact He].
Defined.

(** Counterexample to C6: three correspondences on the x axis. No
    initializer makes [Register] return PLUS_FAIL, and with one that leaves
    the identity the matrix is stored and the status is PLUS_SUCCESS. *)
Lemma Register_on_x_axis :
  collinear (DefinedLandmarks IdealExamples.on_x_axis)
  /\ (3 <= length (RecordedLandmarks IdealExamples.on_x_axis))%nat
  /\ (forall init, status_of (Register init IdealExamples.on_x_axis) <> Returns PLUS_FAIL)
  /\ status_of (Register IdealExamples.identity_transform IdealExamples.on_x_axis)
     = Returns PLUS_SUCCESS
  /\ PhantomToReferenceTransformMatrix
       (object_of (Register IdealExamples.identity_transform IdealExamples.on_x_axis))
     = Some (assemble ((1, 0, 0), (0, 1, 0), (0, 0, 1)) (0, 0, 0))%R.
Proof.
  split; [apply on_x_axis_collinear | split; [simpl; lia | split]].
  - intros init. apply Register_not_PLUS_FAIL.
  - rewrite Register_in_range by (simpl; lia). split; reflexivity.
Qed.

(** The theorem of C6 on three correspondences on the x axis. *)
Lemma Register_no_geometry_check_witness :
  Register IdealExamples.identity_transform IdealExamples.on_x_axis
  = Register_outcome IdealExamples.identity_transform IdealExamples.on_x_axis
  /\ status_of (Register IdealExamples.identity_transform IdealExamples.on_x_axis)
     <> Returns PLUS_FAIL.
Proof.
  apply (Register_no_geometry_check IdealExamples.identity_transform
           IdealExamples.on_x_axis).
  - simpl. lia.
  - simpl. lia.
  - exact on_x_axis_collinear.
Defined.

(** Counterexample to C7: [ComputeError] on a freshly constructed object,
    which has no recorded landmark, in binary64: the status is PLUS_SUCCESS
    and the stored error is 0.0 / 0, a NaN. *)
Lemma ComputeError_on_New :
  RecordedLandmarks (New (D := PrimFloat.float)) = []
  /\ ComputeError (New (D := PrimFloat.float))
     = (Returns PLUS_SUCCESS, with_error PrimFloat.nan New, [])
  /\ PrimFloat.is_nan (RegistrationError (object_of (ComputeError (New (D := PrimFloat.float)))))
     = true.
Proof. repeat split; vm_compute; reflexivity. Qed.

(** The theorem of C7 on a freshly constructed object. *)
Lemma ComputeError_empty_witness :
  ComputeError (New (D := PrimFloat.float))
  = (Returns PLUS_SUCCESS, with_error (ddiv (of_Z 0) (of_Z 0)) New, []).
Proof. apply (ComputeError_empty (New (D := PrimFloat.float))). reflexivity. Defined.

(** The theorem of C8 on a run in which the initializer raises. *)
Lemma Register_failure_publishes_nothing_witness :
  Register Examples.raising Examples.two_landmarks = (Throws, Examples.two_landmarks, [])
  /\ failed (@Throws PlusStatus) = true
  /\ PhantomToReferenceTransformMatrix Examples.two_landmarks
     = PhantomToReferenceTransformMatrix Examples.two_landmarks
  /\ RegistrationError Examples.two_landmarks = RegistrationError Examples.two_landmarks.
Proof.
  split; [reflexivity | split; [reflexivity|]].
  apply (@Register_failure_publishes_nothing _ _ Examples.raising Examples.two_landmarks
           Examples.two_landmarks Throws []); reflexivity.
Defined.

(** Counterexample to C10: one defined and two recorded landmarks on an
    object whose matrix was never set. [ComputeError] reads the defined
    landmark 0 and ends at the call through the NULL pointer: the ids are
    not all gone through, and no read is past the end, with fewer defined
    than recorded landmarks. *)
Lemma ComputeError_stops_at_null_matrix :
  (length (DefinedLandmarks Examples.missing_defined)
   < length (RecordedLandmarks Examples.missing_defined))%nat
  /\ ComputeError Examples.missing_defined
     = (Undefined NullTransformMatrix, Examples.missing_defined, [])
  /\ ~ (exists i, status_of (ComputeError Examples.missing_defined)
                  = Undefined (ReadPastEnd Defined i)).
Proof.
  split; [simpl; lia | split; [reflexivity|]].
  intros [i Hi]. discriminate Hi.
Qed.

(** The theorem of C10 on one defined and two recorded landmarks, with the
    matrix set. *)
Lemma defined_reads_in_range_iff_witness :
  Register Examples.identity_transform (with_matrix Identity Examples.missing_defined)
  = (Undefined (ReadPastEnd Defined 1), with_matrix Identity Examples.missing_defined, [])
  /\ ComputeError (with_matrix Identity Examples.missing_defined)
     = (Undefined (ReadPastEnd Defined 1), with_matrix Identity Examples.missing_defined, []).
Proof.
  destruct (@defined_reads_in_range_iff _ _ Examples.identity_transform
              (with_matrix Identity Examples.missing_defined))
    as (_ & Hregister & _ & Hcompute & _).
  split.
  - apply Hregister. simpl. lia.
  - apply (proj2 (Hcompute Identity eq_refl)). simpl. lia.
Defined.





(** * Further results *)

(** ** [Register] and [ComputeError] and the object *)

Section Object.

Context {D : Type} {ops : DoubleOps D}.
Variable InitializeTransform :
  list (point D) -> list (point D) -> option (itkMatrix D * point D).

(** [computed_error] reads the landmarks only. *)
Lemma computed_error_landmarks (m : vtkMatrix4x4 D) (this that : vtkPhantomRegistrationAlgo D) :
  DefinedLandmarks that = DefinedLandmarks this ->
  RecordedLandmarks that = RecordedLandmarks this ->
  computed_error m that = computed_error m this.
Proof. intros Hd Hr. unfold computed_error. now rewrite Hd, Hr. Qed.

(** A second [Register] on the object that a first one leaves ends as the
    first one did: same status, same object, same log. *)
Theorem Register_twice (this : vtkPhantomRegistrationAlgo D) :
  Register InitializeTransform (object_of (Register InitializeTransform this))
  = Register InitializeTransform this.
Proof.
  destruct (le_lt_dec (length (RecordedLandmarks this)) (length (DefinedLandmarks this)))
    as [Hle|Hlt].
  - rewrite (Register_in_range InitializeTransform this Hle).
    unfold Register_outcome.
    destruct (InitializeTransform _ _) as [[tm off]|] eqn:E; unfold object_of; cbn [fst snd].
    + rewrite Register_in_range by exact Hle. unfold Register_outcome.
      cbn [RecordedLandmarks DefinedLandmarks with_error with_matrix].
      rewrite E.
      rewrite (@computed_error_landmarks (assemble tm off)
                 (with_matrix (assemble tm off) this)
                 (with_matrix (assemble tm off)
                    (with_error (computed_error (assemble tm off)
                                   (with_matrix (assemble tm off) this))
                       (with_matrix (assemble tm off) this)))) by reflexivity.
      reflexivity.
    + rewrite Register_in_range by exact Hle. unfold Register_outcome. now rewrite E.
  - rewrite (Register_past_end InitializeTransform this Hlt).
    unfold object_of. cbn [fst snd]. now apply Register_past_end.
Qed.

(** [Register] changes neither the landmarks nor their names, however it
    ends. *)
Theorem Register_keeps_landmarks (this : vtkPhantomRegistrationAlgo D) :
  let this' := object_of (Register InitializeTransform this) in
  DefinedLandmarks this' = DefinedLandmarks this
  /\ RecordedLandmarks this' = RecordedLandmarks this
  /\ DefinedLandmarkNames this' = DefinedLandmarkNames this.
Proof.
  destruct (le_lt_dec (length (RecordedLandmarks this)) (length (DefinedLandmarks this)))
    as [Hle|Hlt].
  - rewrite (Register_in_range InitializeTransform this Hle). unfold Register_outcome.
    destruct (InitializeTransform _ _) as [[tm off]|]; repeat split.
  - rewrite (Register_past_end InitializeTransform this Hlt). repeat split.
Qed.

(** [ComputeError] on an object whose matrix was never set: with a defined
    and a recorded landmark to start on, the call goes through the NULL
    pointer, and nothing is stored. *)
Theorem ComputeError_without_matrix (this : vtkPhantomRegistrationAlgo D) :
  PhantomToReferenceTransformMatrix this = None ->
  DefinedLandmarks this <> [] ->
  RecordedLandmarks this <> [] ->
  ComputeError this = (Undefined NullTransformMatrix, this, []).
Proof.
  intros Hm Hd Hr. destruct this as [e m ds rs names dpast rpast]. simpl in *. subst m.
  destruct ds as [|[[l0 l1] l2] ds]; [now elim Hd|].
  destruct rs as [|r rs]; [now elim Hr|].
  reflexivity.
Qed.

End Object.

(** [ComputeError_without_matrix] on an object with one correspondence and
    no matrix. *)
Lemma ComputeError_without_matrix_witness :
  ComputeError (Examples.object [Examples.pt 0 0 0] [Examples.pt 5 0 0])
  = (Undefined NullTransformMatrix,
     Examples.object [Examples.pt 0 0 0] [Examples.pt 5 0 0], []).
Proof.
  apply (@ComputeError_without_matrix _ _
           (Examples.object [Examples.pt 0 0 0] [Examples.pt 5 0 0]));
    [reflexivity | discriminate | discriminate].
Defined.

(** ** The size of the error, over the reals *)

Section ErrorSize.

Local Open Scope R_scope.

Lemma euclidean_distance_nonneg (p q : point R) : 0 <= euclidean_distance p q.
Proof.
  destruct p as [[p0 p1] p2], q as [[q0 q1] q2]. apply sqrt_pos.
Qed.

Lemma euclidean_distance_0 (p q : point R) : euclidean_distance p q = 0 -> p = q.
Proof.
  destruct p as [[p0 p1] p2], q as [[q0 q1] q2]. unfold euclidean_distance. intros H.
  apply sqrt_eq_0 in H.
  - pose proof (Rle_0_sqr (p0 - q0)) as N0. pose proof (Rle_0_sqr (p1 - q1)) as N1.
    pose proof (Rle_0_sqr (p2 - q2)) as N2.
    assert (E0 : (p0 - q0)² = 0) by lra.
    assert (E1 : (p1 - q1)² = 0) by lra.
    assert (E2 : (p2 - q2)² = 0) by lra.
    apply Rsqr_0_uniq in E0, E1, E2.
    repeat f_equal; lra.
  - pose proof (Rle_0_sqr (p0 - q0)) as N0. pose proof (Rle_0_sqr (p1 - q1)) as N1.
    pose proof (Rle_0_sqr (p2 - q2)) as N2. lra.
Qed.

Lemma residuals_nonneg (T : vtkMatrix4x4 R) (defined recorded : list (point R)) :
  Forall (fun a => 0 <= a) (residuals T defined recorded).
Proof.
  unfold residuals. apply Forall_map, Forall_forall. intros dr _.
  apply euclidean_distance_nonneg.
Qed.

Lemma total_nonneg (l : list R) : Forall (fun a => 0 <= a) l -> 0 <= total l.
Proof. induction 1; simpl; lra. Qed.

Lemma total_0 (l : list R) :
  Forall (fun a => 0 <= a) l -> total l = 0 -> Forall (fun a => a = 0) l.
Proof.
  induction 1 as [|a l Ha Hl IH]; simpl; intros H; constructor.
  - pose proof (total_nonneg Hl). lra.
  - apply IH. pose proof (total_nonneg Hl). lra.
Qed.

Lemma residuals_0_exact_fit (T : vtkMatrix4x4 R) :
  forall defined recorded : list (point R),
    length defined = length recorded ->
    Forall (fun a => a = 0) (residuals T defined recorded) ->
    Forall2 (fun d r => r = transformed T d) defined recorded.
Proof.
  induction defined as [|d ds IH]; intros [|r rs] Hlen H; simpl in *; try discriminate.
  - constructor.
  - unfold residuals in H. simpl in H. inversion H as [|? ? H0 Hrest]; subst.
    constructor.
    + symmetry. now apply euclidean_distance_0.
    + apply IH; [lia | exact Hrest].
Qed.

(** The sum of a list, squared, is at most its length times the sum of
    the squares. *)
Lemma cross_term (a : R) (l : list R) :
  2 * a * total l <= total (map Rsqr l) + INR (length l) * a².
Proof.
  induction l as [|b l IH].
  - simpl. lra.
  - cbn [total fold_right map]. fold (total l). fold (total (map Rsqr l)).
    change (length (b :: l)) with (S (length l)). rewrite S_INR.
    pose proof (Rle_0_sqr (a - b)) as Hab. unfold Rsqr in *. nra.
Qed.

Lemma total_sqr_le (l : list R) :
  (total l)² <= INR (length l) * total (map Rsqr l).
Proof.
  induction l as [|a l IH].
  - simpl. unfold Rsqr. lra.
  - cbn [total fold_right map]. fold (total l). fold (total (map Rsqr l)).
    change (length (a :: l)) with (S (length l)). rewrite S_INR.
    pose proof (cross_term a l) as Hc. unfold Rsqr in *. nra.
Qed.

Lemma mean_le_rms (T : vtkMatrix4x4 R) (defined recorded : list (point R)) :
  (1 <= length recorded)%nat ->
  length defined = length recorded ->
  mean_distance T defined recorded <= rms_distance T defined recorded.
Proof.
  intros Hn Hlen. unfold mean_distance, rms_distance.
  set (l := residuals T defined recorded).
  assert (Hl : length l = length recorded).
  { unfold l, residuals. rewrite length_map, length_combine. lia. }
  assert (Hpos : 0 < INR (length recorded)) by (apply lt_0_INR; lia).
  assert (Hnn : 0 <= total l) by (apply total_nonneg, residuals_nonneg).
  assert (Hm : 0 <= total l / INR (length recorded)).
  { apply Rmult_le_pos; [exact Hnn | left; now apply Rinv_0_lt_compat]. }
  rewrite <- (sqrt_Rsqr _ Hm). apply sqrt_le_1_alt.
  pose proof (total_sqr_le l) as Hq. rewrite Hl in Hq.
  unfold Rsqr in *. unfold Rdiv.
  set (n := INR (length recorded)) in *. set (S := total l) in *.
  set (Q := total (map (fun x => x * x) l)) in *.
  assert (Hinv : n * / n = 1) by (apply Rinv_r; lra).
  assert (Hi : 0 < / n) by now apply Rinv_0_lt_compat.
  assert (E1 : S * / n * (S * / n) = S * S * (/ n * / n)) by ring.
  assert (E2 : Q * / n = n * Q * (/ n * / n)) by (field; lra).
  rewrite E1, E2. apply Rmult_le_compat_r; [nra | exact Hq].
Qed.

(** The error that [ComputeError] stores is not negative. *)
Theorem ComputeError_error_nonneg (this : vtkPhantomRegistrationAlgo R) (T : vtkMatrix4x4 R) :
  PhantomToReferenceTransformMatrix this = Some T ->
  (1 <= length (RecordedLandmarks this))%nat ->
  (length (RecordedLandmarks this) <= length (DefinedLandmarks this))%nat ->
  0 <= RegistrationError (object_of (ComputeError this)).
Proof.
  intros HT Hn Hle. rewrite (ComputeError_mean this HT Hle).
  unfold object_of. cbn [fst snd with_error RegistrationError]. unfold mean_distance.
  apply Rmult_le_pos.
  - apply total_nonneg, residuals_nonneg.
  - left. apply Rinv_0_lt_compat, lt_0_INR. lia.
Qed.

(** The error that [ComputeError] stores is 0 exactly when the stored
    matrix maps every defined landmark onto its recorded landmark. *)
Theorem ComputeError_error_0_iff (this : vtkPhantomRegistrationAlgo R) (T : vtkMatrix4x4 R) :
  PhantomToReferenceTransformMatrix this = Some T ->
  (1 <= length (RecordedLandmarks this))%nat ->
  length (DefinedLandmarks this) = length (RecordedLandmarks this) ->
  RegistrationError (object_of (ComputeError this)) = 0
  <-> Forall2 (fun d r => r = transformed T d) (DefinedLandmarks this) (RecordedLandmarks this).
Proof.
  intros HT Hn Hlen. rewrite (ComputeError_mean this HT) by lia.
  unfold object_of. cbn [fst snd with_error RegistrationError]. unfold mean_distance.
  assert (Hpos : 0 < INR (length (RecordedLandmarks this))) by (apply lt_0_INR; lia).
  split.
  - intros H. apply residuals_0_exact_fit; [exact Hlen|].
    apply total_0; [apply residuals_nonneg|].
    unfold Rdiv in H. apply Rmult_integral in H. destruct H as [H|H]; [exact H|].
    pose proof (Rinv_0_lt_compat _ Hpos). lra.
  - intros H. rewrite (@residuals_exact_fit T _ _ H). unfold Rdiv. apply Rmult_0_l.
Qed.

(** The error that [ComputeError] stores, a mean, is at most the root mean
    square of the same distances. *)
Theorem ComputeError_error_le_rms (this : vtkPhantomRegistrationAlgo R) (T : vtkMatrix4x4 R) :
  PhantomToReferenceTransformMatrix this = Some T ->
  (1 <= length (RecordedLandmarks this))%nat ->
  length (DefinedLandmarks this) = length (RecordedLandmarks this) ->
  RegistrationError (object_of (ComputeError this))
  <= rms_distance T (DefinedLandmarks this) (RecordedLandmarks this).
Proof.
  intros HT Hn Hlen. rewrite (ComputeError_mean this HT) by lia.
  unfold object_of. cbn [fst snd with_error RegistrationError].
  now apply mean_le_rms.
Qed.

End ErrorSize.

(** The matrix that [Register] assembles is affine: it applies the
    transform's matrix and adds its offset, and its last row is
    (0, 0, 0, 1). *)
Theorem assemble_affine (M : itkMatrix R) (o d : point R) :
  transformed (assemble M o) d = affine_image M o d
  /\ get4 3 (assemble M o) = (0, 0, 0, 1)%R.
Proof.
  split; [apply transformed_assemble|].
  destruct M as [[[[a00 a01] a02] [[a10 a11] a12]] [[a20 a21] a22]].
  destruct o as [[o0 o1] o2]. reflexivity.
Qed.

(** [Register_exact_fit] on three correspondences that coincide, with the
    initializer that leaves the identity. *)
Lemma Register_exact_fit_witness :
  Register IdealExamples.identity_transform IdealExamples.on_x_axis
  = (Returns PLUS_SUCCESS,
     with_error 0%R
       (with_matrix (assemble ((1, 0, 0), (0, 1, 0), (0, 0, 1)) (0, 0, 0))%R
          IdealExamples.on_x_axis), []).
Proof.
  apply (@Register_exact_fit IdealExamples.identity_transform IdealExamples.on_x_axis).
  - simpl. lia.
  - reflexivity.
  - simpl. repeat constructor; unfold affine_image; simpl; repeat f_equal; ring.
Defined.

(** [ComputeError_error_nonneg], [ComputeError_error_0_iff] and
    [ComputeError_error_le_rms] on two correspondences at distance 0 and 2. *)
Lemma ComputeError_error_nonneg_witness :
  (0 <= RegistrationError (object_of (ComputeError IdealExamples.apart)))%R.
Proof.
  apply (@ComputeError_error_nonneg IdealExamples.apart Identity);
    [reflexivity | simpl; lia | simpl; lia].
Defined.

Lemma ComputeError_error_0_iff_witness :
  RegistrationError (object_of (ComputeError IdealExamples.apart)) = 0%R
  <-> Forall2 (fun d r => r = transformed Identity d)
        (DefinedLandmarks IdealExamples.apart) (RecordedLandmarks IdealExamples.apart).
Proof.
  apply (@ComputeError_error_0_iff IdealExamples.apart Identity);
    [reflexivity | simpl; lia | reflexivity].
Defined.

Lemma ComputeError_error_le_rms_witness :
  (RegistrationError (object_of (ComputeError IdealExamples.apart))
   <= rms_distance Identity (DefinedLandmarks IdealExamples.apart)
        (RecordedLandmarks IdealExamples.apart))%R.
Proof.
  apply (@ComputeError_error_le_rms IdealExamples.apart Identity);
    [reflexivity | simpl; lia | reflexivity].
Defined.

(** ** What the member functions leave of the object *)

Section Kept.

Context {D : Type} {ops : DoubleOps D}.
Variable allocated : nat -> point D.
Variable unread : nat -> point D.

Lemma keeps_ret (X A : Type) (f : vtkPhantomRegistrationAlgo D -> X) (a : A) :
  keeps f (ret a).
Proof. intros this. reflexivity. Qed.

Lemma keeps_LOG (X : Type) (f : vtkPhantomRegistrationAlgo D -> X) level text :
  keeps f (LOG level text).
Proof. intros this. reflexivity. Qed.

Lemma keeps_undefined (X A : Type) (f : vtkPhantomRegistrationAlgo D -> X) (u : fault) :
  keeps f (undefined (A := A) u).
Proof. intros this. reflexivity. Qed.

Lemma keeps_read (X A : Type) (f : vtkPhantomRegistrationAlgo D -> X)
  (g : vtkPhantomRegistrationAlgo D -> A) :
  keeps f (read g).
Proof. intros this. reflexivity. Qed.

Lemma keeps_write (X : Type) (f : vtkPhantomRegistrationAlgo D -> X)
  (g : vtkPhantomRegistrationAlgo D -> vtkPhantomRegistrationAlgo D) :
  (forall this, f (g this) = f this) -> keeps f (write g).
Proof. intros H this. apply H. Qed.

Lemma keeps_bind (X A B : Type) (f : vtkPhantomRegistrationAlgo D -> X)
  (c : M A) (k : A -> M B) :
  keeps f c -> (forall a, keeps f (k a)) -> keeps f (bind c k).
Proof.
  intros Hc Hk this. unfold bind. specialize (Hc this). unfold object_of in *.
  destruct (c this) as [[[a | | u] t] l]; cbn [fst snd] in *; try exact Hc.
  specialize (Hk a t). unfold object_of in Hk.
  destruct (k a t) as [[r t'] l']. cbn [fst snd] in *. congruence.
Qed.

Lemma keeps_for_loop (X S : Type) (f : vtkPhantomRegistrationAlgo D -> X)
  (body : nat -> S -> M S) :
  (forall i s, keeps f (body i s)) ->
  forall count from s, keeps f (for_loop count from body s).
Proof.
  intros Hbody. induction count as [|c IH]; intros from s; cbn [for_loop].
  - apply keeps_ret.
  - apply keeps_bind; [apply Hbody | intros s'; apply IH].
Qed.

Ltac keeps_step :=
  first
    [ apply keeps_ret | apply keeps_LOG | apply keeps_undefined | apply keeps_read
    | apply keeps_write; intros; reflexivity
    | apply keeps_for_loop; intros
    | apply keeps_bind; [|intros]
    | match goal with
      | |- keeps _ (match ?x with _ => _ end) => destruct x
      | |- keeps _ (let '(_, _) := ?x in _) => destruct x
      end ].

(** [ReadConfiguration] changes neither the stored matrix nor the stored
    error, however it ends. *)
Theorem ReadConfiguration_keeps_registration_result
  (aConfig : option (vtkXMLDataElement D)) :
  keeps registration_result (ReadConfiguration allocated unread aConfig).
Proof.
  unfold ReadConfiguration, ReadConfiguration_body, SetDefinedLandmarks,
    SetRecordedLandmarks, SetDefinedLandmarkNames.
  repeat keeps_step.
Qed.

(** [ComputeError] changes nothing but the stored error, however it ends. *)
Theorem ComputeError_changes_error_only :
  keeps (fun this : vtkPhantomRegistrationAlgo D =>
           (PhantomToReferenceTransformMatrix this, DefinedLandmarks this,
            RecordedLandmarks this, DefinedLandmarkNames this,
            DefinedLandmarksPastEnd this, RecordedLandmarksPastEnd this))
        ComputeError.
Proof.
  unfold ComputeError, ComputeError_body, GetPointOf, SetRegistrationError.
  repeat keeps_step.
Qed.

End Kept.

(** ** More on [ReadConfiguration] *)

Section Configuration.

Context {D : Type} {ops : DoubleOps D}.
Variable allocated : nat -> point D.
Variable unread : nat -> point D.
Variable InitializeTransform :
  list (point D) -> list (point D) -> option (itkMatrix D * point D).

Ltac list_lia := unfold PointsArray, vtkPoints, point in *; lia.

#[local] Arguments InsertPoint : simpl never.

(** When the configuration is NULL or has no PhantomDefinition element,
    [ReadConfiguration] returns PLUS_FAIL with one error message and the
    object is as it was. *)
Theorem ReadConfiguration_fails_early (aConfig : option (vtkXMLDataElement D))
  (this : vtkPhantomRegistrationAlgo D) :
  match aConfig with
  | None => True
  | Some e => FindNestedElementWithName e "PhantomDefinition" = None
  end ->
  exists text,
    ReadConfiguration allocated unread aConfig this
    = (Returns PLUS_FAIL, this, [(LOG_LEVEL_ERROR, text)]).
Proof.
  intros H. unfold ReadConfiguration. destruct aConfig as [e|].
  - rewrite H. eexists. reflexivity.
  - eexists. reflexivity.
Qed.

(** When the PhantomDefinition element is there and its Geometry element,
    or the Landmarks element of that, is not, [ReadConfiguration] returns
    PLUS_FAIL with one error message, and the landmarks and names that the
    object held are gone. *)
Theorem ReadConfiguration_fails_after_reset (aConfig phantomDefinition : vtkXMLDataElement D)
  (this : vtkPhantomRegistrationAlgo D) :
  FindNestedElementWithName aConfig "PhantomDefinition" = Some phantomDefinition ->
  match FindNestedElementWithName phantomDefinition "Geometry" with
  | None => True
  | Some geometry => FindNestedElementWithName geometry "Landmarks" = None
  end ->
  exists text,
    ReadConfiguration allocated unread (Some aConfig) this
    = (Returns PLUS_FAIL, after_reset this, [(LOG_LEVEL_ERROR, text)]).
Proof.
  intros Hpd H. unfold ReadConfiguration. rewrite Hpd.
  destruct (FindNestedElementWithName phantomDefinition "Geometry") as [g|].
  - rewrite H. eexists. reflexivity.
  - eexists. reflexivity.
Qed.

(** [Register] right after [ReadConfiguration]: no landmark is recorded
    yet, the initializer is given two empty vectors, and if it returns, its
    matrix is stored with the quotient of 0.0 by the count 0 as the error. *)
Theorem Register_after_ReadConfiguration (aConfig landmarks : vtkXMLDataElement D)
  (this : vtkPhantomRegistrationAlgo D) :
  landmarks_element aConfig landmarks ->
  names_present (NestedElements landmarks) ->
  let this' := object_of (ReadConfiguration allocated unread (Some aConfig) this) in
  RecordedLandmarks this' = []
  /\ Register InitializeTransform this'
     = match InitializeTransform [] [] with
       | None => (Throws, this', [])
       | Some (transformMatrix, transformOffset) =>
           (Returns PLUS_SUCCESS,
            with_error (ddiv (of_Z 0) (of_Z 0))
              (with_matrix (assemble transformMatrix transformOffset) this'), [])
       end.
Proof.
  intros Hpath Hnames.
  rewrite (ReadConfiguration_run allocated unread this Hpath Hnames).
  unfold ReadConfiguration_outcome, object_of. cbn [fst snd].
  set (this' := with_collected _ _).
  assert (Hr : RecordedLandmarks this' = []) by reflexivity.
  split; [exact Hr|].
  rewrite Register_in_range by (rewrite Hr; simpl; lia).
  unfold Register_outcome, computed_error, sum_distances.
  cbn [RecordedLandmarks with_matrix]. rewrite Hr.
  cbn [length firstn combine fold_left].
  destruct (InitializeTransform [] []) as [[tm off]|]; reflexivity.
Qed.

(** *** How many points are stored *)

Lemma collect_app (l1 l2 : list (vtkXMLDataElement D)) :
  forall i (acc : PointsArray D * list string),
    collect allocated unread i (l1 ++ l2) acc
    = collect allocated unread (i + length l1) l2 (collect allocated unread i l1 acc).
Proof.
  induction l1 as [|e l1 IH]; intros i acc; simpl.
  - now rewrite Nat.add_0_r.
  - rewrite IH. f_equal. lia.
Qed.

Lemma collect_length_le (es : list (vtkXMLDataElement D)) :
  forall i (acc : PointsArray D * list string),
    (length (fst (fst acc)) <= i)%nat ->
    (length (fst (fst (collect allocated unread i es acc))) <= i + length es)%nat.
Proof.
  induction es as [|e es IH]; intros i acc H; simpl; [list_lia|].
  replace (i + S (length es))%nat with (S i + length es)%nat by lia.
  apply IH. destruct (valid_landmark e); simpl;
    [rewrite length_InsertPoint|]; list_lia.
Qed.

(** The point with the greatest id is the one of a valid entry. *)
Lemma collect_last_valid (es : list (vtkXMLDataElement D)) :
  forall i past names k,
    length (fst (fst (collect allocated unread i es (([], past), names)))) = S k ->
    (i <= k)%nat
    /\ exists e, nth_error es (k - i) = Some e /\ valid_landmark e = true.
Proof.
  induction es as [|x l IH] using rev_ind; intros i past names k H.
  - discriminate H.
  - rewrite collect_app in H. cbn [collect] in H.
    pose proof (@collect_length_le l i (([], past), names)) as Hle. cbn [fst length] in Hle.
    specialize (Hle (Nat.le_0_l i)).
    destruct (valid_landmark x) eqn:Ev.
    + cbn [fst] in H. rewrite length_InsertPoint in H.
      assert (k = i + length l)%nat by list_lia. subst k.
      split; [lia|]. exists x. split; [|exact Ev].
      replace (i + length l - i)%nat with (length l) by lia.
      rewrite nth_error_app2 by lia. now rewrite Nat.sub_diag.
    + destruct (IH i past names k H) as (Hik & e & He & Hv).
      split; [exact Hik|]. exists e. split; [|exact Hv].
      rewrite nth_error_app1; [exact He|]. apply nth_error_Some. congruence.
Qed.

(** The size of the array of points after the loop: at most the number of
    entries, above the index of every valid entry, and when it is k + 1 the
    entry k is valid. *)
Lemma collect_number_of_points (es : list (vtkXMLDataElement D)) (past : list (point D)) :
  let n := length (fst (fst (collect allocated unread 0 es
                               (([], past), repeat EmptyString (length es))))) in
  (n <= length es)%nat
  /\ (forall i e, nth_error es i = Some e -> valid_landmark e = true -> (i < n)%nat)
  /\ (forall k, n = S k ->
                exists e, nth_error es k = Some e /\ valid_landmark e = true).
Proof.
  cbv zeta. split; [|split].
  - apply (@collect_length_le es 0). simpl. lia.
  - intros i e Hi Hv.
    destruct (collect_stores allocated unread es 0
                (([], past), repeat EmptyString (length es)) i Hi Hv) as [Hp _].
    { simpl. now rewrite repeat_length. }
    apply nth_error_Some. simpl in Hp. unfold PointsArray, vtkPoints, point in *. congruence.
  - intros k Hk.
    destruct (@collect_last_valid es 0 _ _ k Hk) as (_ & e & He & Hv).
    rewrite Nat.sub_0_r in He. eauto.
Qed.

(** After [ReadConfiguration], [GetNumberOfPoints] of the defined landmarks
    is one more than the index of the last valid entry, not the number of
    valid entries: it is at most the number of entries, every valid entry
    has an index below it, and when it is k + 1 the entry k is valid. *)
Theorem ReadConfiguration_number_of_points (aConfig landmarks : vtkXMLDataElement D)
  (this : vtkPhantomRegistrationAlgo D) :
  landmarks_element aConfig landmarks ->
  names_present (NestedElements landmarks) ->
  let es := NestedElements landmarks in
  let n := GetNumberOfPoints
             (DefinedLandmarks
                (object_of (ReadConfiguration allocated unread (Some aConfig) this))) in
  (n <= length es)%nat
  /\ (forall i e, nth_error es i = Some e -> valid_landmark e = true -> (i < n)%nat)
  /\ (forall k, n = S k ->
                exists e, nth_error es k = Some e /\ valid_landmark e = true).
Proof.
  intros Hpath Hnames es.
  rewrite (ReadConfiguration_run allocated unread this Hpath Hnames).
  unfold ReadConfiguration_outcome, object_of, GetNumberOfPoints.
  cbn [fst snd with_collected DefinedLandmarks]. fold es.
  exact (collect_number_of_points es _).
Qed.

(** *** What the ids show that no entry wrote *)

Lemma nth_skipn (A : Type) (d : A) (l : list A) :
  forall k n, nth n (skipn k l) d = nth (k + n) l d.
Proof.
  induction l as [|h t IH]; intros [|k] n; simpl; auto.
  now destruct n.
Qed.

Lemma nth_error_map_seq (A : Type) (f : nat -> A) :
  forall n s j, (j < n)%nat -> nth_error (map f (seq s n)) j = Some (f (s + j)%nat).
Proof.
  induction n as [|n IH]; intros s [|j] H; simpl; try lia.
  - now rewrite Nat.add_0_r.
  - rewrite IH by lia. f_equal. f_equal. lia.
Qed.

(** The array past the points is the rest of what it was at the start. *)
Lemma InsertPoint_past (memory : list (point D)) (i : nat) (p : point D)
  (array : PointsArray D) :
  snd array = skipn (length (fst array)) memory ->
  snd (InsertPoint allocated i p array)
  = skipn (length (fst (InsertPoint allocated i p array))) memory.
Proof.
  destruct array as [pts past]. cbn [fst snd]. intros ->.
  unfold InsertPoint. destruct (Nat.ltb_spec i (length pts)); cbn [fst snd].
  - now rewrite length_replace_at.
  - rewrite skipn_skipn. f_equal.
    rewrite !length_app, length_map, length_seq. simpl. list_lia.
Qed.

Lemma collect_past (memory : list (point D)) (es : list (vtkXMLDataElement D)) :
  forall i (acc : PointsArray D * list string),
    snd (fst acc) = skipn (length (fst (fst acc))) memory ->
    snd (fst (collect allocated unread i es acc))
    = skipn (length (fst (fst (collect allocated unread i es acc)))) memory.
Proof.
  induction es as [|e es IH]; intros i acc H; cbn [collect]; [exact H|].
  apply IH. destruct (valid_landmark e); cbn [fst]; [now apply InsertPoint_past | exact H].
Qed.

(** An id that [InsertPoint] passes over shows what the array held there. *)
Lemma nth_error_InsertPoint_gap (memory : list (point D)) (i k : nat) (p : point D)
  (array : PointsArray D) :
  snd array = skipn (length (fst array)) memory ->
  (length (fst array) <= k)%nat -> (k < i)%nat ->
  nth_error (fst (InsertPoint allocated i p array)) k = Some (nth k memory (allocated k)).
Proof.
  destruct array as [pts past]. cbn [fst snd]. intros -> Hk Hi.
  unfold InsertPoint. destruct (Nat.ltb_spec i (length pts)); [list_lia|]. cbn [fst].
  rewrite nth_error_app2 by exact Hk.
  rewrite nth_error_app1 by (rewrite length_map, length_seq; list_lia).
  rewrite nth_error_map_seq by list_lia.
  rewrite nth_skipn. cbn [Nat.add].
  replace (length pts + (k - length pts))%nat with k by list_lia.
  reflexivity.
Qed.

(** The name at the index of a skipped entry is as it was. *)
Lemma collect_name_of_skipped (es : list (vtkXMLDataElement D)) :
  forall i (acc : PointsArray D * list string) j e,
    nth_error es j = Some e -> valid_landmark e = false ->
    nth_error (snd (collect allocated unread i es acc)) (i + j) = nth_error (snd acc) (i + j).
Proof.
  induction es as [|x es IH]; intros i acc [|j] e He Hv; simpl in *; try discriminate.
  - inversion He; subst x. rewrite Hv. rewrite collect_keeps_name by lia. reflexivity.
  - replace (i + S j)%nat with (S i + j)%nat by lia.
    rewrite (IH (S i) _ j e He Hv).
    destruct (valid_landmark x); cbn [snd]; [|reflexivity].
    apply nth_error_replace_at_other. lia.
Qed.

(** The point at the index of a skipped entry, when a later entry made the
    points reach past it, is what the array held there after the [Reset]. *)
Lemma collect_gap (memory : list (point D)) (es : list (vtkXMLDataElement D)) :
  forall i names j e,
    nth_error es j = Some e -> valid_landmark e = false ->
    (i + j < length (fst (fst (collect allocated unread i es (([], memory), names)))))%nat ->
    nth_error (fst (fst (collect allocated unread i es (([], memory), names)))) (i + j)
    = Some (nth (i + j) memory (allocated (i + j))).
Proof.
  induction es as [|x l IH] using rev_ind; intros i names j e He Hv Hlt.
  - destruct j; discriminate He.
  - rewrite collect_app in *. cbn [collect] in *.
    pose proof (@collect_length_le l i (([], memory), names)) as Hle.
    cbn [fst length] in Hle. specialize (Hle (Nat.le_0_l i)).
    pose proof (@collect_past memory l i (([], memory), names) eq_refl) as Hpast.
    destruct (Nat.lt_ge_cases j (length l)) as [Hj|Hj].
    + rewrite nth_error_app1 in He by exact Hj.
      destruct (valid_landmark x) eqn:Ex; cbn [fst snd] in *.
      * destruct (Nat.lt_ge_cases (i + j)
                    (length (fst (fst (collect allocated unread i l (([], memory), names))))))
          as [Hin|Hout].
        -- rewrite nth_error_InsertPoint_other by list_lia.
           now apply (IH i names j e He Hv).
        -- apply nth_error_InsertPoint_gap; [exact Hpast | list_lia | list_lia].
      * now apply (IH i names j e He Hv).
    + rewrite nth_error_app2 in He by exact Hj.
      destruct (j - length l)%nat as [|m] eqn:Em; [|destruct m; discriminate He].
      inversion He; subst x. rewrite Hv in Hlt. list_lia.
Qed.

(** After [ReadConfiguration], the defined landmark at the index of a
    skipped entry that precedes a valid one is a point that no entry wrote,
    with the empty name: it is what the array held at that id before the
    call, so a landmark that the object had there before is a landmark
    again. *)
Theorem ReadConfiguration_unwritten_point (aConfig landmarks : vtkXMLDataElement D)
  (this : vtkPhantomRegistrationAlgo D) (i j : nat) (skipped valid : vtkXMLDataElement D) :
  landmarks_element aConfig landmarks ->
  names_present (NestedElements landmarks) ->
  nth_error (NestedElements landmarks) i = Some skipped ->
  valid_landmark skipped = false ->
  nth_error (NestedElements landmarks) j = Some valid ->
  valid_landmark valid = true ->
  (i < j)%nat ->
  let this' := object_of (ReadConfiguration allocated unread (Some aConfig) this) in
  GetPoint (DefinedLandmarks this') i = Some (held allocated this i)
  /\ nth_error (DefinedLandmarkNames this') i = Some EmptyString
  /\ ((i < GetNumberOfPoints (DefinedLandmarks this))%nat ->
      GetPoint (DefinedLandmarks this') i = GetPoint (DefinedLandmarks this) i).
Proof.
  intros Hpath Hnames Hi Hs Hj Hv Hij.
  destruct (collect_number_of_points (NestedElements landmarks)
              (DefinedLandmarks this ++ DefinedLandmarksPastEnd this)) as (_ & Hbelow & _).
  specialize (Hbelow j valid Hj Hv).
  rewrite (ReadConfiguration_run allocated unread this Hpath Hnames).
  unfold ReadConfiguration_outcome, object_of, GetNumberOfPoints, GetPoint, held.
  cbn [fst snd with_collected DefinedLandmarks DefinedLandmarkNames Reset
       DefinedLandmarksArray].
  assert (Hpoint :
    nth_error
      (fst (fst (collect allocated unread 0 (NestedElements landmarks)
                   (([], DefinedLandmarks this ++ DefinedLandmarksPastEnd this),
                    repeat EmptyString (length (NestedElements landmarks)))))) i
    = Some (nth i (DefinedLandmarks this ++ DefinedLandmarksPastEnd this) (allocated i))).
  { apply (@collect_gap _ (NestedElements landmarks) 0 _ i skipped Hi Hs). simpl. lia. }
  split; [exact Hpoint | split].
  - rewrite (@collect_name_of_skipped (NestedElements landmarks) 0 _ i skipped Hi Hs).
    cbn [snd]. apply nth_error_repeat. apply nth_error_Some. simpl. congruence.
  - intros Hold. etransitivity; [exact Hpoint|]. rewrite app_nth1 by exact Hold.
    symmetry. now apply nth_error_nth'.
Qed.

(** *** Reading the same configuration again *)

Lemma replace_at_same (A : Type) (x : A) (l : list A) :
  forall i, nth_error l i = Some x -> replace_at i x l = l.
Proof.
  induction l as [|h t IH]; intros [|i] H; simpl in *; try discriminate.
  - now inversion H.
  - now rewrite IH.
Qed.

Lemma map_nth_seq (A : Type) (l : list A) :
  forall n (d : nat -> A),
    (n <= length l)%nat -> map (fun k => nth k l (d k)) (seq 0 n) = firstn n l.
Proof.
  induction l as [|h t IH]; intros [|n] d H; simpl in *; try lia; try reflexivity.
  f_equal. rewrite <- seq_shift, map_map. apply (IH n (fun k => d (S k))). lia.
Qed.

Lemma app_same_length (A : Type) (l1 l2 r1 r2 : list A) :
  length l1 = length l2 -> l1 ++ r1 = l2 ++ r2 -> l1 = l2 /\ r1 = r2.
Proof.
  revert l2. induction l1 as [|a l1 IH]; intros [|b l2] Hlen H; simpl in *;
    try discriminate; [now split|].
  inversion H; subst. destruct (IH l2) as [-> ->]; auto.
Qed.

(** [InsertPoint] of a point that the array holds at that id already
    leaves what the array holds as it is. *)
Lemma InsertPoint_replay (a : nat -> point D) (memory : list (point D)) (i : nat)
  (p : point D) (array : PointsArray D) :
  fst array ++ snd array = memory ->
  nth_error memory i = Some (stored p) ->
  fst (InsertPoint a i p array) ++ snd (InsertPoint a i p array) = memory.
Proof.
  destruct array as [pts past]. cbn [fst snd]. intros <- Hi.
  unfold InsertPoint. destruct (Nat.ltb_spec i (length pts)); cbn [fst snd].
  - rewrite nth_error_app1 in Hi by assumption. now rewrite (replace_at_same _ _ Hi).
  - rewrite nth_error_app2 in Hi by assumption.
    assert (Hlt : (i - length pts < length past)%nat) by (apply nth_error_Some; congruence).
    rewrite map_nth_seq by lia. rewrite <- !app_assoc. f_equal.
    rewrite <- (firstn_skipn (i - length pts) past) at 3. f_equal.
    symmetry. now apply skipn_nth_error.
Qed.

Lemma collect_replay (a u : nat -> point D) (memory : list (point D))
  (es : list (vtkXMLDataElement D)) :
  forall i (acc : PointsArray D * list string),
    fst (fst acc) ++ snd (fst acc) = memory ->
    (forall j e, nth_error es j = Some e -> valid_landmark e = true ->
                 nth_error memory (i + j) = Some (stored (position_of (u (i + j)%nat) e))) ->
    fst (fst (collect a u i es acc)) ++ snd (fst (collect a u i es acc)) = memory.
Proof.
  induction es as [|x es IH]; intros i acc Hm Hv; cbn [collect]; [exact Hm|].
  apply IH.
  - destruct (valid_landmark x) eqn:Ev; cbn [fst]; [|exact Hm].
    apply InsertPoint_replay; [exact Hm|].
    specialize (Hv 0%nat x eq_refl Ev). now rewrite Nat.add_0_r in Hv.
  - intros j e Hj He. specialize (Hv (S j) e Hj He).
    now replace (S i + j)%nat with (i + S j)%nat by lia.
Qed.

(** The number of points and the names after the loop depend on the
    entries only, not on what memory holds. *)
Lemma collect_length_same (a u : nat -> point D) (es : list (vtkXMLDataElement D)) :
  forall i (acc acc' : PointsArray D * list string),
    length (fst (fst acc)) = length (fst (fst acc')) ->
    length (fst (fst (collect a u i es acc)))
    = length (fst (fst (collect allocated unread i es acc'))).
Proof.
  induction es as [|x es IH]; intros i acc acc' H; cbn [collect]; [exact H|].
  apply IH. destruct (valid_landmark x); cbn [fst]; [|exact H].
  rewrite !length_InsertPoint. list_lia.
Qed.

Lemma collect_names_same (a u : nat -> point D) (es : list (vtkXMLDataElement D)) :
  forall i (acc acc' : PointsArray D * list string),
    snd acc = snd acc' ->
    snd (collect a u i es acc) = snd (collect allocated unread i es acc').
Proof.
  induction es as [|x es IH]; intros i acc acc' H; cbn [collect]; [exact H|].
  apply IH. destruct (valid_landmark x); cbn [snd]; [|exact H]. now rewrite H.
Qed.

(** With three numbers read, [landmarkPosition] holds nothing else. *)
Lemma position_of_complete (d d' : point D) (e : vtkXMLDataElement D) :
  (3 <= length (PositionValues e))%nat -> position_of d e = position_of d' e.
Proof.
  unfold position_of, GetVectorAttribute_Position.
  destruct (PositionValues e) as [|x [|y [|z l]]]; simpl; try lia. reflexivity.
Qed.

(** The loop run again, on the array that the first run left: the same
    points, the same array past them, the same names. *)
Lemma collect_again (a u : nat -> point D) (es : list (vtkXMLDataElement D))
  (memory : list (point D)) :
  complete_positions es ->
  let names := repeat EmptyString (length es) in
  let first := collect allocated unread 0 es (([], memory), names) in
  collect a u 0 es (([], fst (fst first) ++ snd (fst first)), names) = first.
Proof.
  intros Hfull names first.
  pose proof (@collect_length_same a u es 0
                (([], fst (fst first) ++ snd (fst first)), names)
                (([], memory), names) eq_refl) as Hlen.
  pose proof (@collect_names_same a u es 0
                (([], fst (fst first) ++ snd (fst first)), names)
                (([], memory), names) eq_refl) as Hnames.
  pose proof (@collect_replay a u (fst (fst first) ++ snd (fst first)) es 0
                (([], fst (fst first) ++ snd (fst first)), names) eq_refl) as Hmem.
  fold first in Hlen, Hnames.
  assert (Hstored : forall j e, nth_error es j = Some e -> valid_landmark e = true ->
            nth_error (fst (fst first) ++ snd (fst first)) (0 + j)
            = Some (stored (position_of (u (0 + j)%nat) e))).
  { intros j e Hj Hv.
    destruct (collect_stores allocated unread es 0 (([], memory), names) j Hj Hv) as [Hp _].
    { subst names. simpl. now rewrite repeat_length. }
    fold first in Hp. cbn [Nat.add] in *.
    rewrite nth_error_app1 by (apply nth_error_Some; unfold PointsArray, vtkPoints, point in *;
                               congruence).
    rewrite Hp. f_equal. f_equal. apply position_of_complete.
    apply Hfull; [now apply nth_error_In with j | exact Hv]. }
  specialize (Hmem Hstored).
  destruct (app_same_length _ _ _ _ Hlen Hmem) as [Hpts Hrest].
  destruct (collect a u 0 es _) as [[pts past] names'].
  destruct first as [[pts1 past1] names1].
  cbn [fst snd] in *. now subst.
Qed.

(** A second [ReadConfiguration] of the same configuration, on the object
    that the first one leaves, ends as the first one did, whatever memory
    holds in the second run: the ids that the loop passes over show what
    the first run left in the array. (No coordinate of a valid entry is
    left unread.) *)
Theorem ReadConfiguration_twice (aConfig landmarks : vtkXMLDataElement D)
  (this : vtkPhantomRegistrationAlgo D) (allocated' unread' : nat -> point D) :
  landmarks_element aConfig landmarks ->
  names_present (NestedElements landmarks) ->
  complete_positions (NestedElements landmarks) ->
  ReadConfiguration allocated' unread' (Some aConfig)
    (object_of (ReadConfiguration allocated unread (Some aConfig) this))
  = ReadConfiguration allocated unread (Some aConfig) this.
Proof.
  intros Hpath Hnames Hfull.
  rewrite (ReadConfiguration_run allocated unread this Hpath Hnames).
  rewrite (ReadConfiguration_run allocated' unread' _ Hpath Hnames).
  unfold ReadConfiguration_outcome, object_of. cbn [fst snd].
  set (es := NestedElements landmarks) in *.
  set (names := repeat EmptyString (length es)).
  set (first := collect allocated unread 0 es (Reset (DefinedLandmarksArray this), names)).
  assert (Hagain :
    collect allocated' unread' 0 es
      (Reset (DefinedLandmarksArray (with_collected first (after_reset this))), names)
    = first)
    by exact (@collect_again allocated' unread' es
                (DefinedLandmarks this ++ DefinedLandmarksPastEnd this) Hfull).
  rewrite Hagain. reflexivity.
Qed.

(** *** The warning after the loop *)

Lemma entry_warning_not_summary (es : list (vtkXMLDataElement D)) :
  ~ In (LOG_LEVEL_WARNING, "Some invalid landmarks were found!"%string)
       (flat_map entry_warning es).
Proof.
  intros H. apply in_flat_map in H. destruct H as (e & _ & H). unfold entry_warning in H.
  destruct (negb (is_landmark_element e)); [|destruct (negb (has_position e))];
    simpl in H; intuition discriminate.
Qed.

(** The warning "Some invalid landmarks were found!" is given exactly when
    the last entry is skipped: entries skipped before a valid last entry do
    not bring it. *)
Theorem ReadConfiguration_summary_warning (aConfig landmarks : vtkXMLDataElement D)
  (this : vtkPhantomRegistrationAlgo D) :
  landmarks_element aConfig landmarks ->
  names_present (NestedElements landmarks) ->
  let es := NestedElements landmarks in
  In (LOG_LEVEL_WARNING, "Some invalid landmarks were found!"%string)
     (log_of (ReadConfiguration allocated unread (Some aConfig) this))
  <-> exists e, nth_error es (length es - 1) = Some e
                /\ valid_landmark e = false.
Proof.
  intros Hpath Hnames es.
  destruct (collect_number_of_points es
              (DefinedLandmarks this ++ DefinedLandmarksPastEnd this))
    as (Hle & Hbelow & Hlast).
  revert Hle Hbelow Hlast.
  rewrite (ReadConfiguration_run allocated unread this Hpath Hnames).
  unfold ReadConfiguration_outcome, object_of, log_of, GetNumberOfPoints.
  cbn [fst snd with_collected DefinedLandmarks Reset DefinedLandmarksArray
       DefinedLandmarksPastEnd]. fold es.
  set (n := length (fst (fst (collect allocated unread 0 es _)))).
  intros Hle Hbelow Hlast.
  rewrite in_app_iff, in_app_iff.
  split.
  - intros [H|[H|H]].
    + now apply entry_warning_not_summary in H.
    + destruct (Nat.eqb_spec n (length es)) as [E|E]; [destruct H|].
      destruct (@nth_error_in_range _ es (length es - 1)) as [e He]; [lia|].
      exists e. split; [exact He|].
      destruct (valid_landmark e) eqn:Ev; [|reflexivity].
      specialize (Hbelow _ _ He Ev). lia.
    + destruct (n =? 0); simpl in H; intuition discriminate.
  - intros (e & He & Hv). right. left.
    destruct (Nat.eqb_spec n (length es)) as [E|E]; [|now left].
    assert (Hpos : (length es - 1 < length es)%nat) by (apply nth_error_Some; congruence).
    destruct (Hlast (length es - 1)%nat) as (e' & He' & Hv'); [lia|]. congruence.
Qed.

(** *** A Landmark element without a name *)

Lemma for_loop_app (S : Type) (body : nat -> S -> M S) :
  forall a from s (this this' : vtkPhantomRegistrationAlgo D) s' log b,
    for_loop a from body s this = (Returns s', this', log) ->
    for_loop (a + b) from body s this
    = let '(r, t, l) := for_loop b (from + a) body s' this' in (r, t, log ++ l).
Proof.
  induction a as [|a IH]; intros from s this this' s' log b H.
  - cbn [for_loop] in H. unfold ret in H. inversion H; subst.
    rewrite Nat.add_0_r. cbn [Nat.add app].
    now destruct (for_loop b from body s' this') as [[r t] l].
  - cbn [for_loop Nat.add] in *. unfold bind in *.
    destruct (body from s this) as [[[s1 | | u] t1] l1]; try discriminate H.
    destruct (for_loop a (Datatypes.S from) body s1 t1) as [[r2 t2] l2] eqn:E2.
    inversion H; subst.
    rewrite (IH (Datatypes.S from) s1 t1 this' s' l2 b E2).
    replace (from + Datatypes.S a)%nat with (Datatypes.S from + a)%nat by lia.
    destruct (for_loop b (Datatypes.S from + a) body s' this') as [[r t] l].
    now rewrite app_assoc.
Qed.

(** A Landmark element without a Name attribute, after entries that have
    theirs, ends [ReadConfiguration]: the [std::string] of its name is built
    from NULL. The entry is not skipped. *)
Theorem ReadConfiguration_null_name (aConfig landmarks e : vtkXMLDataElement D) (k : nat)
  (this : vtkPhantomRegistrationAlgo D) :
  landmarks_element aConfig landmarks ->
  nth_error (NestedElements landmarks) k = Some e ->
  is_landmark_element e = true ->
  GetAttribute_Name e = None ->
  names_present (firstn k (NestedElements landmarks)) ->
  status_of (ReadConfiguration allocated unread (Some aConfig) this) = Undefined NullCString.
Proof.
  intros (pd & g & Hpd & Hg & Hl) He Htag Hname Hnames.
  assert (Hk : (k < length (NestedElements landmarks))%nat)
    by (apply nth_error_Some; congruence).
  unfold ReadConfiguration. rewrite Hpd.
  unfold bind at 1, read at 1. unfold bind at 1, SetDefinedLandmarks at 1, write at 1.
  unfold bind at 1, read at 1. unfold bind at 1, SetRecordedLandmarks at 1, write at 1.
  unfold bind at 1, SetDefinedLandmarkNames at 1, write at 1.
  cbn [DefinedLandmarks RecordedLandmarks DefinedLandmarkNames RegistrationError
       PhantomToReferenceTransformMatrix DefinedLandmarksPastEnd RecordedLandmarksPastEnd
       DefinedLandmarksArray RecordedLandmarksArray Reset fst snd].
  rewrite Hg, Hl.
  unfold bind at 1, SetDefinedLandmarkNames at 1, write at 1.
  cbn [DefinedLandmarks RecordedLandmarks DefinedLandmarkNames RegistrationError
       PhantomToReferenceTransformMatrix DefinedLandmarksPastEnd RecordedLandmarksPastEnd].
  unfold bind at 1, GetNumberOfNestedElements.
  replace (length (NestedElements landmarks))
    with (k + Datatypes.S (length (NestedElements landmarks) - Datatypes.S k))%nat by lia.
  match goal with
  | |- context [for_loop _ 0 ?body tt ?t] =>
      pose proof (@ReadConfiguration_loop _ _ allocated unread landmarks k 0%nat t) as Hloop
  end.
  cbn [skipn Nat.add] in Hloop.
  specialize (Hloop (Nat.lt_le_incl _ _ Hk) Hnames).
  rewrite (@for_loop_app _ _ _ _ _ _ _ _ _
             (Datatypes.S (length (NestedElements landmarks) - Datatypes.S k)) Hloop).
  cbn [for_loop Nat.add]. unfold bind at 1.
  rewrite (@ReadConfiguration_body_null_name _ _ allocated unread landmarks e k _
             He Htag Hname).
  reflexivity.
Qed.

End Configuration.

(** ** The further results on concrete configurations *)

Lemma ReadConfiguration_fails_early_witness :
  exists text,
    ReadConfiguration ConfigurationExamples.heap ConfigurationExamples.stack
      (Some FailingConfigurations.no_phantom_definition) Examples.two_landmarks
    = (Returns PLUS_FAIL, Examples.two_landmarks, [(LOG_LEVEL_ERROR, text)]).
Proof.
  apply (@ReadConfiguration_fails_early _ _ ConfigurationExamples.heap
           ConfigurationExamples.stack
           (Some FailingConfigurations.no_phantom_definition) Examples.two_landmarks).
  reflexivity.
Defined.

Lemma ReadConfiguration_fails_after_reset_witness :
  exists text,
    ReadConfiguration ConfigurationExamples.heap ConfigurationExamples.stack
      (Some FailingConfigurations.no_geometry) Examples.two_landmarks
    = (Returns PLUS_FAIL, after_reset Examples.two_landmarks, [(LOG_LEVEL_ERROR, text)]).
Proof.
  apply (@ReadConfiguration_fails_after_reset _ _ ConfigurationExamples.heap
           ConfigurationExamples.stack
           FailingConfigurations.no_geometry FailingConfigurations.empty_phantom_definition
           Examples.two_landmarks).
  - reflexivity.
  - exact I.
Defined.

(** The entries of the configuration with one valid landmark leave no
    coordinate unread. *)
Lemma its_positions_complete :
  complete_positions (NestedElements ConfigurationExamples.its_landmarks).
Proof.
  intros e [<-|[<-|[<-|[]]]] Hv; [discriminate Hv | discriminate Hv | simpl; lia].
Qed.

(** [ReadConfiguration_twice] on an object with three landmarks of an
    earlier configuration; memory holds other values in the second run. *)
Lemma ReadConfiguration_twice_witness :
  ReadConfiguration ConfigurationExamples.heap' ConfigurationExamples.stack'
    (Some ConfigurationExamples.one_valid_landmark)
    (object_of (ReadConfiguration ConfigurationExamples.heap ConfigurationExamples.stack
                  (Some ConfigurationExamples.one_valid_landmark)
                  ConfigurationExamples.earlier))
  = ReadConfiguration ConfigurationExamples.heap ConfigurationExamples.stack
      (Some ConfigurationExamples.one_valid_landmark) ConfigurationExamples.earlier.
Proof.
  exact (ReadConfiguration_twice ConfigurationExamples.heap ConfigurationExamples.stack
           ConfigurationExamples.earlier ConfigurationExamples.heap'
           ConfigurationExamples.stack'
           its_landmarks_found its_names_present its_positions_complete).
Defined.

Lemma Register_after_ReadConfiguration_witness :
  RecordedLandmarks
    (object_of (ReadConfiguration ConfigurationExamples.heap ConfigurationExamples.stack
                  (Some ConfigurationExamples.one_valid_landmark) Examples.two_landmarks))
  = [].
Proof.
  exact (proj1 (Register_after_ReadConfiguration ConfigurationExamples.heap
                  ConfigurationExamples.stack
                  Examples.identity_transform Examples.two_landmarks
                  its_landmarks_found its_names_present)).
Defined.

Lemma ReadConfiguration_number_of_points_witness :
  (GetNumberOfPoints
     (DefinedLandmarks
        (object_of (ReadConfiguration ConfigurationExamples.heap ConfigurationExamples.stack
                      (Some ConfigurationExamples.one_valid_landmark) New)))
   <= length (NestedElements ConfigurationExamples.its_landmarks))%nat.
Proof.
  exact (proj1 (ReadConfiguration_number_of_points ConfigurationExamples.heap
                  ConfigurationExamples.stack New
                  its_landmarks_found its_names_present)).
Defined.

(** [ReadConfiguration_unwritten_point] on the object with three landmarks
    of an earlier configuration: the first of them is the landmark of id 0
    again, with the empty name. *)
Lemma ReadConfiguration_unwritten_point_witness :
  GetPoint
    (DefinedLandmarks
       (object_of (ReadConfiguration ConfigurationExamples.heap ConfigurationExamples.stack
                     (Some ConfigurationExamples.one_valid_landmark)
                     ConfigurationExamples.earlier))) 0
  = Some (float_of_Z 11, float_of_Z 12, float_of_Z 13).
Proof.
  refine (proj1 (@ReadConfiguration_unwritten_point _ _ ConfigurationExamples.heap
                   ConfigurationExamples.stack
                   ConfigurationExamples.one_valid_landmark
                   ConfigurationExamples.its_landmarks ConfigurationExamples.earlier
                   0%nat 2%nat _ _
                   its_landmarks_found its_names_present eq_refl _ eq_refl _ _)).
  - reflexivity.
  - reflexivity.
  - lia.
Defined.

Lemma ReadConfiguration_summary_warning_witness :
  In (LOG_LEVEL_WARNING, "Some invalid landmarks were found!"%string)
     (log_of (ReadConfiguration ConfigurationExamples.heap ConfigurationExamples.stack
                (Some ConfigurationExamples.one_valid_landmark) New))
  <-> exists e,
        nth_error (NestedElements ConfigurationExamples.its_landmarks)
                  (length (NestedElements ConfigurationExamples.its_landmarks) - 1)
        = Some e
        /\ valid_landmark e = false.
Proof.
  exact (ReadConfiguration_summary_warning ConfigurationExamples.heap
           ConfigurationExamples.stack New
           its_landmarks_found its_names_present).
Defined.

Lemma ReadConfiguration_null_name_witness :
  status_of (ReadConfiguration ConfigurationExamples.heap ConfigurationExamples.stack
               (Some FailingConfigurations.nameless) New)
  = Undefined NullCString.
Proof.
  refine (@ReadConfiguration_null_name _ _ ConfigurationExamples.heap
            ConfigurationExamples.stack
            FailingConfigurations.nameless FailingConfigurations.nameless_landmarks
            _ 1%nat New _ eq_refl eq_refl eq_refl _).
  - do 2 eexists. repeat split; reflexivity.
  - intros e [<-|[]] _. discriminate.
Defined.

(** * Results on the MicronTracker device *)

Import MicronTracker.

Section TrackerMatrix.

Context {D : Type} {ops : DoubleOps D}.

(** [GetTransformMatrix] reads the nine rotation entries column by column
    and puts the translation into the last column: the result is the
    matrix that [Register] would assemble from the rows
    (r0 r3 r6), (r1 r4 r7), (r2 r5 r8) and the offset. What the matrix held
    before, and entries of the vectors past the ninth and the third, have
    no part in it. *)
Theorem GetTransformMatrix_column_major
  (name : string) (r0 r1 r2 r3 r4 r5 r6 r7 r8 p0 p1 p2 : D) (more more' : list D)
  (transformMatrix : vtkMatrix4x4 D) :
  GetTransformMatrix
    {| TemplateName := name;
       Rotations := r0 :: r1 :: r2 :: r3 :: r4 :: r5 :: r6 :: r7 :: r8 :: more;
       Translations := p0 :: p1 :: p2 :: more' |}
    transformMatrix
  = inl (assemble ((r0, r3, r6), (r1, r4, r7), (r2, r5, r8)) (p0, p1, p2))
  /\ assemble ((r0, r3, r6), (r1, r4, r7), (r2, r5, r8)) (p0, p1, p2)
     = ((r0, r3, r6, p0), (r1, r4, r7, p1), (r2, r5, r8, p2),
        (of_Z 0, of_Z 0, of_Z 0, of_Z 1)).
Proof. split; reflexivity. Qed.

(** With fewer than nine rotation entries, or else fewer than three
    translation entries, [GetTransformMatrix] reads the vector past its
    end, at the index that equals its size. *)
Theorem GetTransformMatrix_short_vector (marker : Marker (D := D))
  (transformMatrix : vtkMatrix4x4 D) :
  ((length (Rotations marker) < 9)%nat ->
   GetTransformMatrix marker transformMatrix
   = inr (RotationReadPastEnd (length (Rotations marker))))
  /\ ((9 <= length (Rotations marker))%nat ->
      (length (Translations marker) < 3)%nat ->
      GetTransformMatrix marker transformMatrix
      = inr (TranslationReadPastEnd (length (Translations marker)))).
Proof.
  destruct marker as [name r t]. cbn [Rotations Translations]. split.
  - intros H.
    do 9 (destruct r as [|? r]; [reflexivity|]). simpl in H. lia.
  - intros Hr Ht.
    do 9 (destruct r as [|? r]; [simpl in Hr; lia|]).
    do 3 (destruct t as [|? t]; [reflexivity|]). simpl in Ht. lia.
Qed.

(** [GetTransformMatrix] returns exactly when the vectors hold the nine
    and the three entries that it reads. *)
Lemma GetTransformMatrix_returns_iff (marker : Marker (D := D))
  (transformMatrix : vtkMatrix4x4 D) :
  (exists m, GetTransformMatrix marker transformMatrix = inl m)
  <-> (9 <= length (Rotations marker))%nat /\ (3 <= length (Translations marker))%nat.
Proof.
  destruct marker as [name r t]. cbn [Rotations Translations]. split.
  - intros [m H].
    do 9 (destruct r as [|? r]; [cbv in H; discriminate H|]).
    do 3 (destruct t as [|? t]; [cbv in H; discriminate H|]). simpl. lia.
  - intros [Hr Ht].
    do 9 (destruct r as [|? r]; [simpl in Hr; lia|]).
    do 3 (destruct t as [|? t]; [simpl in Ht; lia|]). eexists. reflexivity.
Qed.

End TrackerMatrix.

Section TrackerConnection.

Context {D : Type} {ops : DoubleOps D}.
Variable MT : MicronTrackerInterface (D := D).
Variable GetDeviceSetConfigurationPath : string -> string.
Variable FileExists : string -> bool -> bool.

Lemma count_mtEnd_app (l1 l2 : list (Event (D := D))) :
  count_mtEnd (l1 ++ l2) = (count_mtEnd l1 + count_mtEnd l2)%nat.
Proof. unfold count_mtEnd. now rewrite filter_app, length_app. Qed.

Lemma count_mtInit_app (l1 l2 : list (Event (D := D))) :
  count_mtInit (l1 ++ l2) = (count_mtInit l1 + count_mtInit l2)%nat.
Proof. unfold count_mtInit. now rewrite filter_app, length_app. Qed.

(** The messages before the camera is asked, and those of
    [RefreshMarkerTemplates], hold no call of [mtInit] or [mtEnd]. *)
Lemma RefreshMarkerTemplates_calls (this : vtkPlusMicronTracker) :
  let run := RefreshMarkerTemplates MT GetDeviceSetConfigurationPath FileExists this in
  count_mtEnd (events_of run) = 0%nat
  /\ count_mtInit (events_of run) = 0%nat
  /\ object_after run = this
  /\ (status run = PLUS_SUCCESS <-> mtRefreshTemplates_returns MT = 0%Z).
Proof.
  unfold RefreshMarkerTemplates, status, object_after, events_of.
  destruct (FileExists _ false); destruct (Z.eqb_spec (mtRefreshTemplates_returns MT) 0);
    cbn [negb fst snd]; rewrite ?count_mtEnd_app, ?count_mtInit_app;
    repeat split; try reflexivity; try congruence; try discriminate;
    unfold count_mtEnd, count_mtInit;
    induction (mtRefreshTemplates_errors MT); simpl in *; auto.
Qed.

(** The device is initialized after [InternalConnect] exactly when it
    returned PLUS_SUCCESS. *)
Lemma InternalConnect_initialized_iff (this : vtkPlusMicronTracker) :
  let run := InternalConnect MT GetDeviceSetConfigurationPath FileExists this in
  IsMicronTrackingInitialized (object_after run) = true <-> status run = PLUS_SUCCESS.
Proof.
  pose proof (RefreshMarkerTemplates_calls this) as (_ & _ & Hobj & _).
  unfold InternalConnect, status, object_after in *.
  destruct (IsMicronTrackingInitialized this) eqn:Ei; cbn [fst snd];
    [rewrite Ei; split; reflexivity|].
  destruct (mtInit_returns MT =? 1)%Z;
    destruct (mtSetupCameras_returns MT =? 1)%Z;
    destruct (mtGetNumOfCameras_returns MT =? 0)%Z;
    cbn [negb fst snd]; rewrite ?Ei; try (split; discriminate);
    destruct (RefreshMarkerTemplates MT GetDeviceSetConfigurationPath FileExists this)
      as [[st this'] ev]; cbn [fst snd] in *; subst this';
    destruct st; cbn [fst snd IsMicronTrackingInitialized SetInitialized];
    rewrite ?Ei; split; auto; discriminate.
Qed.

(** [InternalConnect] returns PLUS_SUCCESS exactly when the device was
    initialized already or the camera answers as needed and the templates
    load; and the device is initialized afterwards exactly when it returned
    PLUS_SUCCESS. *)
Theorem InternalConnect_succeeds_iff (this : vtkPlusMicronTracker) :
  let run := InternalConnect MT GetDeviceSetConfigurationPath FileExists this in
  (status run = PLUS_SUCCESS
   <-> IsMicronTrackingInitialized this = true
       \/ (camera_ready MT = true /\ mtRefreshTemplates_returns MT = 0%Z))
  /\ (IsMicronTrackingInitialized (object_after run) = true <-> status run = PLUS_SUCCESS).
Proof.
  pose proof (RefreshMarkerTemplates_calls this) as (_ & _ & Hobj & Hst).
  unfold InternalConnect, camera_ready, status, object_after in *.
  destruct this as [init frame ini dir]. cbn [IsMicronTrackingInitialized] in *.
  destruct init; cbn [fst snd].
  - split; split; auto.
  - destruct (Z.eqb_spec (mtInit_returns MT) 1); cbn [negb andb fst snd];
      [|split; split; try discriminate; intros [H|[H _]]; discriminate].
    destruct (Z.eqb_spec (mtSetupCameras_returns MT) 1); cbn [negb andb fst snd];
      [|split; split; try discriminate; intros [H|[H _]]; discriminate].
    destruct (Z.eqb_spec (mtGetNumOfCameras_returns MT) 0); cbn [negb andb fst snd];
      [split; split; try discriminate; intros [H|[H _]]; discriminate|].
    destruct (RefreshMarkerTemplates MT GetDeviceSetConfigurationPath FileExists _)
      as [[st this'] ev]. cbn [fst snd] in *. subst this'.
    destruct st; cbn [fst snd IsMicronTrackingInitialized SetInitialized].
    + split; split; try discriminate.
      intros [H|[_ H]]; [discriminate|]. apply Hst in H. discriminate.
    + split; split; auto. intros _. right. split; [reflexivity|]. now apply Hst.
Qed.

(** A second [InternalConnect] after one that returned PLUS_SUCCESS asks
    nothing of the camera and gives no message; one that returned PLUS_FAIL
    leaves the object as it was, so that the second one starts anew. *)
Theorem InternalConnect_twice (this : vtkPlusMicronTracker) :
  let first := InternalConnect MT GetDeviceSetConfigurationPath FileExists this in
  (status first = PLUS_SUCCESS ->
   InternalConnect MT GetDeviceSetConfigurationPath FileExists (object_after first)
   = (PLUS_SUCCESS, object_after first, []))
  /\ (status first = PLUS_FAIL -> object_after first = this).
Proof.
  intros first. split.
  - intros Hs. apply (InternalConnect_initialized_iff this) in Hs. fold first in Hs.
    unfold InternalConnect at 1. now rewrite Hs.
  - pose proof (RefreshMarkerTemplates_calls this) as (_ & _ & Hobj & _).
    subst first. unfold InternalConnect, status, object_after in *.
    destruct (IsMicronTrackingInitialized this); [discriminate|].
    destruct (mtInit_returns MT =? 1)%Z;
      destruct (mtSetupCameras_returns MT =? 1)%Z;
      destruct (mtGetNumOfCameras_returns MT =? 0)%Z;
      cbn [negb fst snd]; try reflexivity;
      destruct (RefreshMarkerTemplates MT GetDeviceSetConfigurationPath FileExists this)
        as [[st this'] ev]; cbn [fst snd] in *; subst this';
      destruct st; cbn [fst snd]; intros H; try reflexivity; discriminate H.
Qed.

(** The calls of [InternalConnect] on a device that is not initialized. *)
Lemma InternalConnect_calls (this : vtkPlusMicronTracker) :
  IsMicronTrackingInitialized this = false ->
  let run := InternalConnect MT GetDeviceSetConfigurationPath FileExists this in
  count_mtInit (events_of run) = 1%nat
  /\ (count_mtEnd (events_of run)
      + (if IsMicronTrackingInitialized (object_after run) then 1 else 0)
      = if (mtInit_returns MT =? 1)%Z then 1 else 0)%nat.
Proof.
  intros Hinit.
  pose proof (RefreshMarkerTemplates_calls this) as (Hend & Hini & Hobj & _).
  unfold InternalConnect, object_after, events_of in *.
  rewrite Hinit.
  destruct (FileExists _ true); destruct (FileExists _ false);
    destruct (mtInit_returns MT =? 1)%Z;
    destruct (mtSetupCameras_returns MT =? 1)%Z;
    destruct (mtGetNumOfCameras_returns MT =? 0)%Z;
    cbn [negb fst snd app];
    rewrite ?Hinit; try (split; reflexivity);
    destruct (RefreshMarkerTemplates MT GetDeviceSetConfigurationPath FileExists this)
      as [[st this'] ev]; cbn [fst snd] in *; subst this';
    destruct st; cbn [fst snd IsMicronTrackingInitialized SetInitialized];
    rewrite ?Hinit;
    unfold count_mtEnd, count_mtInit in *;
    cbn [filter is_mtEnd is_mtInit length app LOG_ERROR LOG_WARNING];
    rewrite ?filter_app, ?length_app, ?Hend, ?Hini;
    cbn [filter is_mtEnd is_mtInit length LOG_ERROR]; split; lia.
Qed.

(** [InternalConnect] followed by [InternalDisconnect], from a device that
    is not initialized: [mtInit] is called once, and [mtEnd] is called once
    if [mtInit] returned 1 and not at all otherwise, whichever way
    [InternalConnect] ends; the device is not initialized afterwards. *)
Theorem connect_disconnect_releases_once (this : vtkPlusMicronTracker) :
  IsMicronTrackingInitialized this = false ->
  let connect := InternalConnect MT GetDeviceSetConfigurationPath FileExists this in
  let disconnect := InternalDisconnect (D := D) (object_after connect) in
  let events := events_of connect ++ events_of disconnect in
  count_mtInit events = 1%nat
  /\ count_mtEnd events = (if (mtInit_returns MT =? 1)%Z then 1 else 0)%nat
  /\ IsMicronTrackingInitialized (object_after disconnect) = false.
Proof.
  intros Hinit connect disconnect events.
  destruct (InternalConnect_calls this Hinit) as [Hi He]. fold connect in Hi, He.
  subst events disconnect. unfold InternalDisconnect.
  rewrite count_mtInit_app, count_mtEnd_app.
  destruct (IsMicronTrackingInitialized (object_after connect)) eqn:E;
    cbn [events_of object_after fst snd IsMicronTrackingInitialized SetInitialized];
    unfold count_mtInit at 2, count_mtEnd at 2; cbn [filter is_mtEnd is_mtInit length];
    repeat split; try lia; exact E.
Qed.

(** [Probe] releases the camera only when it succeeds: when [mtInit]
    returned 1 and the cameras are then not set up, or none is attached,
    it returns PLUS_FAIL without a call of [mtEnd], where [InternalConnect]
    calls it. In no case does [Probe] change whether the device is
    initialized. *)
Theorem Probe_releases_on_success_only (this : vtkPlusMicronTracker) :
  let run := Probe MT GetDeviceSetConfigurationPath this in
  count_mtEnd (events_of run) = match status run with PLUS_SUCCESS => 1 | PLUS_FAIL => 0 end%nat
  /\ IsMicronTrackingInitialized (object_after run) = IsMicronTrackingInitialized this
  /\ (status run = PLUS_SUCCESS
      <-> IsMicronTrackingInitialized this = false /\ camera_ready MT = true).
Proof.
  unfold Probe, camera_ready, status, object_after, events_of.
  destruct this as [init frame ini dir]. cbn [IsMicronTrackingInitialized IniFile].
  destruct init; cbn [fst snd].
  - repeat split; try discriminate. intros [H _]. discriminate.
  - destruct (Z.eqb_spec (mtInit_returns MT) 1); cbn [negb andb fst snd];
      [|repeat split; try discriminate; intros [_ H]; discriminate].
    destruct (Z.eqb_spec (mtSetupCameras_returns MT) 1); cbn [negb andb fst snd];
      [|repeat split; try discriminate; intros [_ H]; discriminate].
    destruct (Z.eqb_spec (mtGetNumOfCameras_returns MT) 0); cbn [negb andb fst snd];
      [repeat split; try discriminate; intros [_ H]; discriminate|].
    repeat split.
Qed.

(** [InternalStartRecording] right after [InternalConnect] returns what
    [InternalConnect] returned: recording starts on a connected device
    only. *)
Theorem InternalStartRecording_after_InternalConnect (this : vtkPlusMicronTracker) :
  let connect := InternalConnect MT GetDeviceSetConfigurationPath FileExists this in
  status (InternalStartRecording (D := D) (object_after connect)) = status connect.
Proof.
  intros connect.
  pose proof (InternalConnect_initialized_iff this) as H. fold connect in H.
  unfold InternalStartRecording.
  destruct (IsMicronTrackingInitialized (object_after connect)) eqn:E; cbn [negb].
  - symmetry. now apply H.
  - unfold status at 1. cbn [fst]. destruct (status connect) eqn:Es; [reflexivity|].
    destruct H as [_ H]. specialize (H Es). congruence.
Qed.

(** [InternalDisconnect] on a device that is not initialized does nothing,
    so a second one in a row makes no call. *)
Theorem InternalDisconnect_twice (this : vtkPlusMicronTracker) :
  let once := InternalDisconnect (D := D) this in
  InternalDisconnect (D := D) (object_after once) = (PLUS_SUCCESS, object_after once, []).
Proof.
  unfold InternalDisconnect, object_after.
  destruct (IsMicronTrackingInitialized this) eqn:E; cbn [fst snd].
  - reflexivity.
  - now rewrite E.
Qed.

End TrackerConnection.

Section TrackerUpdate.

Context {D : Type} {ops : DoubleOps D}.
Variable MT : MicronTrackerInterface (D := D).
Variable GetSystemTime : D.
Variable Tools : list (string * string).
Variable GetToolByPortName : string -> option string.
Variable FrameNumber_range : Z.

Lemma update_identified_fault (frameNumber : Z) (timestamp : D) (markers : list Marker)
  (f : VectorFault) :
  fold_left (update_identified GetToolByPortName frameNumber timestamp) markers (inr f)
  = inr f.
Proof. induction markers as [|mk rest IH]; simpl; auto. Qed.

(** The first loop of [InternalUpdate], when no vector is read past its
    end: the set holds the source ids of the tools of the identified
    markers, and the new events are their updates with TOOL_OK. *)
Lemma update_identified_fold (frameNumber : Z) (timestamp : D) :
  forall (markers : list Marker) events ids m events' ids' m',
    fold_left (update_identified GetToolByPortName frameNumber timestamp) markers
              (inl (events, ids, m))
    = inl (events', ids', m') ->
    (forall id, In id ids' <->
                In id ids \/ exists mk, In mk markers
                                        /\ GetToolByPortName (TemplateName mk) = Some id)
    /\ (forall e, In e events' <->
                  In e events
                  \/ exists mk id matrix,
                       In mk markers /\ GetToolByPortName (TemplateName mk) = Some id
                       /\ GetTransformMatrix mk (Identity (D := D)) = inl matrix
                       /\ e = ToolTimeStampedUpdate id matrix TOOL_OK frameNumber timestamp)
    /\ (forall mk id, In mk markers -> GetToolByPortName (TemplateName mk) = Some id ->
                      exists matrix, GetTransformMatrix mk (Identity (D := D)) = inl matrix).
Proof.
  induction markers as [|mk rest IH]; intros events ids m events' ids' m' H.
  - simpl in H. inversion H; subst. repeat split.
    + intros Hin. now left.
    + intros [Hin|(mk & [] & _)]. exact Hin.
    + intros Hin. now left.
    + intros [Hin|(mk & id & mat & [] & _)]. exact Hin.
    + intros mk id [].
  - cbn [fold_left] in H. unfold update_identified at 2 in H.
    destruct (GetToolByPortName (TemplateName mk)) as [id0|] eqn:El.
    + change (GetTransformMatrix mk m) with (GetTransformMatrix mk (Identity (D := D))) in H.
      destruct (GetTransformMatrix mk (Identity (D := D))) as [mat|f] eqn:Eg;
        [|rewrite update_identified_fault in H; discriminate H].
      destruct (IH _ _ _ _ _ _ H) as (Hids & Hev & Hok). repeat split.
      * intros Hin. apply Hids in Hin. destruct Hin as [[<-|Hin]|(mk' & Hmk & Hl)].
        -- right. exists mk. split; [now left | exact El].
        -- now left.
        -- right. exists mk'. split; [now right | exact Hl].
      * intros [Hin|(mk' & [<-|Hmk] & Hl)]; apply Hids.
        -- left. now right.
        -- left. left. congruence.
        -- right. exists mk'. split; assumption.
      * intros Hin. apply Hev in Hin. destruct Hin as [Hin|(mk' & id & mat' & Hmk & Hl & Hg & He)].
        -- apply in_app_or in Hin. destruct Hin as [Hin|[<-|[]]]; [now left|].
           right. exists mk, id0, mat. repeat split; auto. now left.
        -- right. exists mk', id, mat'. repeat split; auto. now right.
      * intros [Hin|(mk' & id & mat' & [<-|Hmk] & Hl & Hg & He)]; apply Hev.
        -- left. apply in_or_app. now left.
        -- left. apply in_or_app. right. left.
           rewrite El in Hl. inversion Hl; subst id. rewrite Eg in Hg. inversion Hg; subst mat'.
           now symmetry.
        -- right. exists mk', id, mat'. repeat split; auto.
      * intros mk' id [<-|Hmk] Hl; [eauto | eapply Hok; eauto].
    + destruct (IH _ _ _ _ _ _ H) as (Hids & Hev & Hok). repeat split.
      * intros Hin. apply Hids in Hin. destruct Hin as [Hin|(mk' & Hmk & Hl)]; [now left|].
        right. exists mk'. split; [now right | exact Hl].
      * intros [Hin|(mk' & [<-|Hmk] & Hl)]; apply Hids; [now left | congruence |].
        right. exists mk'. split; assumption.
      * intros Hin. apply Hev in Hin. destruct Hin as [Hin|(mk' & id & mat' & Hmk & Hrest)];
          [now left|]. right. exists mk', id, mat'. split; [now right | exact Hrest].
      * intros [Hin|(mk' & id & mat' & [<-|Hmk] & Hl & Hrest)]; apply Hev;
          [now left | congruence |]. right. exists mk', id, mat'. repeat split; tauto.
      * intros mk' id [<-|Hmk] Hl; [congruence | eapply Hok; eauto].
Qed.

Lemma update_not_found_events (frameNumber : Z) (timestamp : D) (ids : list string)
  (e : Event (D := D)) :
  In e (update_not_found Tools frameNumber timestamp ids)
  <-> exists tool, In tool Tools /\ ~ In (fst tool) ids
                   /\ e = ToolTimeStampedUpdate (fst tool) (Identity (D := D))
                            TOOL_OUT_OF_VIEW frameNumber timestamp.
Proof.
  unfold update_not_found. rewrite in_flat_map. split.
  - intros (tool & Hin & He). exists tool. split; [exact Hin|].
    destruct (existsb (String.eqb (fst tool)) ids) eqn:Ex; [destruct He|].
    destruct He as [<-|[]]. split; [|reflexivity].
    intros Hid. assert (existsb (String.eqb (fst tool)) ids = true); [|congruence].
    apply existsb_exists. exists (fst tool). split; [exact Hid | apply String.eqb_refl].
  - intros (tool & Hin & Hid & ->). exists tool. split; [exact Hin|].
    destruct (existsb (String.eqb (fst tool)) ids) eqn:Ex; [|now left].
    apply existsb_exists in Ex. destruct Ex as (x & Hx & Heq).
    apply String.eqb_eq in Heq. subst x. contradiction.
Qed.

(** What a successful [InternalUpdate] is made of. *)
Lemma InternalUpdate_success (this this' : vtkPlusMicronTracker) (events : list Event) :
  InternalUpdate MT GetSystemTime Tools GetToolByPortName FrameNumber_range this
  = inl (PLUS_SUCCESS, this', events) ->
  exists identifiedEvents ids m,
    fold_left (update_identified GetToolByPortName (FrameNumber this') GetSystemTime)
              (IdentifiedMarkers MT) (inl ([], [], Identity (D := D)))
    = inl (identifiedEvents, ids, m)
    /\ events
       = [Called mtGrabFrame; Called mtProcessFrame; Called mtFindIdentifiedMarkers]
         ++ identifiedEvents
         ++ update_not_found Tools (FrameNumber this') GetSystemTime ids.
Proof.
  unfold InternalUpdate.
  destruct (IsMicronTrackingInitialized this); cbn [negb]; [|discriminate].
  destruct (mtGrabFrame_returns MT =? -1)%Z; [discriminate|].
  destruct (mtProcessFrame_returns MT =? -1)%Z; [discriminate|].
  destruct (fold_left _ _ _) as [[[ev ids] m]|f] eqn:E; [|discriminate].
  intros H. inversion H; subst. cbn [FrameNumber SetFrameNumber].
  exists ev, ids, m. split; [exact E | reflexivity].
Qed.

(** The tool updates of a successful [InternalUpdate], all of them: they
    carry the new frame number and the time of the call; an update with
    TOOL_OK is that of an identified marker whose tool it names, with the
    matrix that [GetTransformMatrix] makes of the marker; an update with
    TOOL_OUT_OF_VIEW is that of a tool of the device that no identified
    marker belongs to, with the identity. Every tool of the device gets an
    update. *)
Theorem InternalUpdate_updates_every_tool (this this' : vtkPlusMicronTracker)
  (events : list Event) :
  InternalUpdate MT GetSystemTime Tools GetToolByPortName FrameNumber_range this
  = inl (PLUS_SUCCESS, this', events) ->
  (forall sourceId matrix toolStatus frameNumber timestamp,
     In (ToolTimeStampedUpdate sourceId matrix toolStatus frameNumber timestamp) events
     <-> frameNumber = FrameNumber this' /\ timestamp = GetSystemTime
         /\ match toolStatus with
            | TOOL_OK =>
                exists marker, In marker (IdentifiedMarkers MT)
                               /\ GetToolByPortName (TemplateName marker) = Some sourceId
                               /\ GetTransformMatrix marker (Identity (D := D)) = inl matrix
            | TOOL_OUT_OF_VIEW =>
                In sourceId (map fst Tools) /\ matrix = Identity (D := D)
                /\ ~ identified MT GetToolByPortName sourceId
            end)
  /\ (forall sourceId, In sourceId (map fst Tools) ->
        exists matrix toolStatus,
          In (ToolTimeStampedUpdate sourceId matrix toolStatus (FrameNumber this')
                GetSystemTime) events).
Proof.
  intros Hrun.
  destruct (InternalUpdate_success _ Hrun) as (ev & ids & m & Hfold & ->).
  destruct (update_identified_fold _ _ _ _ _ _ Hfold) as (Hids & Hev & Hok).
  assert (Hid : forall sourceId,
            In sourceId ids <-> identified MT GetToolByPortName sourceId).
  { intros sourceId. rewrite Hids. unfold identified.
    split; [intros [[]|H]; exact H | intros H; now right]. }
  split.
  - intros sourceId matrix toolStatus frameNumber timestamp. split.
    + intros Hin. apply in_app_or in Hin. destruct Hin as [Hin|Hin].
      { destruct Hin as [H|[H|[H|[]]]]; discriminate H. }
      apply in_app_or in Hin. destruct Hin as [Hin|Hin].
      * apply Hev in Hin. destruct Hin as [[]|(mk & id & mat & Hmk & Hl & Hg & He)].
        inversion He; subst. repeat split. exists mk. repeat split; assumption.
      * apply update_not_found_events in Hin. destruct Hin as (tool & Htool & Hnot & He).
        inversion He; subst. repeat split.
        -- now apply in_map.
        -- intros H. apply Hnot. now apply Hid.
    + intros (-> & -> & H). apply in_or_app. right. apply in_or_app.
      destruct toolStatus.
      * destruct H as (mk & Hmk & Hl & Hg). left. apply Hev. right.
        exists mk, sourceId, matrix. repeat split; assumption.
      * destruct H as (Htool & -> & Hnot). right. apply update_not_found_events.
        apply in_map_iff in Htool. destruct Htool as (tool & <- & Hin).
        exists tool. repeat split; [exact Hin|]. intros H. apply Hnot. now apply Hid.
  - intros sourceId Htool.
    destruct (in_dec string_dec sourceId ids) as [Hin|Hout].
    + apply Hid in Hin. destruct Hin as (mk & Hmk & Hl).
      destruct (Hok mk sourceId Hmk Hl) as (matrix & Hg).
      exists matrix, TOOL_OK. apply in_or_app. right. apply in_or_app. left.
      apply Hev. right. exists mk, sourceId, matrix. repeat split; assumption.
    + exists (Identity (D := D)), TOOL_OUT_OF_VIEW.
      apply in_or_app. right. apply in_or_app. right. apply update_not_found_events.
      apply in_map_iff in Htool. destruct Htool as (tool & <- & Hin).
      exists tool. repeat split; assumption.
Qed.

(** On an initialized device [InternalUpdate] advances [FrameNumber] by one
    (in the range of its type) whenever it returns, also when no frame could be
    grabbed or processed; on a device that is not initialized it returns
    PLUS_FAIL and leaves the object as it was. *)
Theorem InternalUpdate_frame_number (this this' : vtkPlusMicronTracker)
  (st : PlusStatus) (events : list Event) :
  InternalUpdate MT GetSystemTime Tools GetToolByPortName FrameNumber_range this
  = inl (st, this', events) ->
  if IsMicronTrackingInitialized this
  then FrameNumber this' = ((FrameNumber this + 1) mod FrameNumber_range)%Z
       /\ IsMicronTrackingInitialized this' = true
       /\ (st = PLUS_SUCCESS
           <-> mtGrabFrame_returns MT <> (-1)%Z /\ mtProcessFrame_returns MT <> (-1)%Z)
  else st = PLUS_FAIL /\ this' = this.
Proof.
  unfold InternalUpdate.
  destruct (IsMicronTrackingInitialized this) eqn:Ei; cbn [negb].
  - destruct (Z.eqb_spec (mtGrabFrame_returns MT) (-1)).
    { intros H. inversion H; subst. cbn [FrameNumber SetFrameNumber IsMicronTrackingInitialized].
      repeat split; auto; try discriminate. intros [Hg _]. contradiction. }
    destruct (Z.eqb_spec (mtProcessFrame_returns MT) (-1)).
    { intros H. inversion H; subst. cbn [FrameNumber SetFrameNumber IsMicronTrackingInitialized].
      repeat split; auto; try discriminate. intros [_ Hp]. contradiction. }
    destruct (fold_left _ _ _) as [[[ev ids] m]|f]; [|discriminate].
    intros H. inversion H; subst. cbn [FrameNumber SetFrameNumber IsMicronTrackingInitialized].
    repeat split; auto.
  - intros H. inversion H; subst. split; reflexivity.
Qed.

Lemma update_identified_faults (frameNumber : Z) (timestamp : D) :
  forall (markers : list Marker) events ids m f,
    fold_left (update_identified GetToolByPortName frameNumber timestamp) markers
              (inl (events, ids, m))
    = inr f ->
    exists mk, In mk markers /\ GetToolByPortName (TemplateName mk) <> None
               /\ ~ exists matrix, GetTransformMatrix mk (Identity (D := D)) = inl matrix.
Proof.
  induction markers as [|mk rest IH]; intros events ids m f H; [discriminate H|].
  cbn [fold_left] in H. unfold update_identified at 2 in H.
  destruct (GetToolByPortName (TemplateName mk)) as [id|] eqn:El.
  - change (GetTransformMatrix mk m) with (GetTransformMatrix mk (Identity (D := D))) in H.
    destruct (GetTransformMatrix mk (Identity (D := D))) as [mat|g] eqn:Eg.
    + destruct (IH _ _ _ _ H) as (mk' & Hin & Hrest). exists mk'. split; [now right | exact Hrest].
    + exists mk. split; [now left|]. split; [congruence|]. intros [mat Hm]. congruence.
  - destruct (IH _ _ _ _ H) as (mk' & Hin & Hrest). exists mk'. split; [now right | exact Hrest].
Qed.

(** [InternalUpdate] reads a vector past its end exactly when the device
    is initialized, a frame is grabbed and processed, and one of the
    identified markers that belong to a tool comes with fewer than nine
    rotation entries or fewer than three translation entries. The vectors
    of a marker that belongs to no tool are not read. *)
Theorem InternalUpdate_read_past_end_iff (this : vtkPlusMicronTracker) :
  (exists f, InternalUpdate MT GetSystemTime Tools GetToolByPortName FrameNumber_range this
             = inr f)
  <-> IsMicronTrackingInitialized this = true
      /\ mtGrabFrame_returns MT <> (-1)%Z
      /\ mtProcessFrame_returns MT <> (-1)%Z
      /\ exists marker, In marker (IdentifiedMarkers MT)
                        /\ GetToolByPortName (TemplateName marker) <> None
                        /\ ((length (Rotations marker) < 9)%nat
                            \/ (length (Translations marker) < 3)%nat).
Proof.
  unfold InternalUpdate.
  destruct (IsMicronTrackingInitialized this); cbn [negb];
    [|split; [intros [f H]; discriminate H | intros [H _]; discriminate H]].
  destruct (Z.eqb_spec (mtGrabFrame_returns MT) (-1));
    [split; [intros [f H]; discriminate H | intros (_ & H & _); contradiction]|].
  destruct (Z.eqb_spec (mtProcessFrame_returns MT) (-1));
    [split; [intros [f H]; discriminate H | intros (_ & _ & H & _); contradiction]|].
  destruct (fold_left _ _ _) as [[[ev ids] m]|f] eqn:E.
  - split; [intros [f H]; discriminate H|].
    intros (_ & _ & _ & mk & Hin & Hl & Hshort).
    destruct (update_identified_fold _ _ _ _ _ _ E) as (_ & _ & Hok).
    destruct (GetToolByPortName (TemplateName mk)) as [id|] eqn:El; [|now elim Hl].
    destruct (Hok mk id Hin El) as [mat Hm].
    assert (Hlen : (9 <= length (Rotations mk))%nat /\ (3 <= length (Translations mk))%nat)
      by (apply (GetTransformMatrix_returns_iff mk (Identity (D := D))); eauto).
    lia.
  - split; [|intros _; eauto].
    intros _. repeat split; auto.
    destruct (@update_identified_faults _ _ _ _ _ _ _ E) as (mk & Hin & Hl & Hno).
    exists mk. repeat split; auto.
    destruct (Nat.lt_ge_cases (length (Rotations mk)) 9) as [Hr|Hr]; [now left|].
    destruct (Nat.lt_ge_cases (length (Translations mk)) 3) as [Ht|Ht]; [now right|].
    elim Hno. apply GetTransformMatrix_returns_iff. now split.
Qed.

End TrackerUpdate.

(** ** The results on a concrete device *)

Lemma GetTransformMatrix_short_vector_witness :
  GetTransformMatrix TrackerExamples.short Identity = inr (RotationReadPastEnd 8).
Proof.
  apply (proj1 (GetTransformMatrix_short_vector TrackerExamples.short Identity)).
  simpl. lia.
Defined.

Lemma connect_disconnect_releases_once_witness :
  count_mtEnd
    (events_of (InternalConnect TrackerExamples.camera TrackerExamples.configuration_path
                  TrackerExamples.file_exists TrackerExamples.device)
     ++ events_of (InternalDisconnect
                     (object_after
                        (InternalConnect TrackerExamples.camera
                           TrackerExamples.configuration_path TrackerExamples.file_exists
                           TrackerExamples.device))))
  = 1%nat.
Proof.
  exact (proj1 (proj2 (connect_disconnect_releases_once TrackerExamples.camera
                         TrackerExamples.configuration_path TrackerExamples.file_exists
                         TrackerExamples.device eq_refl))).
Defined.

(** [InternalUpdate_updates_every_tool] on a connected device whose camera
    sees the stylus: the stylus is updated with the matrix of its marker,
    the quarter turn about z and the translation (10, 20, 30), and the
    probe, which no marker belongs to, with the identity. *)
Lemma InternalUpdate_updates_every_tool_witness :
  exists this' events,
    InternalUpdate TrackerExamples.camera TrackerExamples.now TrackerExamples.tools
      TrackerExamples.tool_by_port_name TrackerExamples.unsigned_range
      TrackerExamples.connected
    = inl (PLUS_SUCCESS, this', events)
    /\ In (ToolTimeStampedUpdate "StylusToTracker"
             ((float_of_Z 0, float_of_Z (-1), float_of_Z 0, float_of_Z 10),
              (float_of_Z 1, float_of_Z 0, float_of_Z 0, float_of_Z 20),
              (float_of_Z 0, float_of_Z 0, float_of_Z 1, float_of_Z 30),
              (float_of_Z 0, float_of_Z 0, float_of_Z 0, float_of_Z 1))
             TOOL_OK 1 TrackerExamples.now) events
    /\ In (ToolTimeStampedUpdate "ProbeToTracker" Identity TOOL_OUT_OF_VIEW
             1 TrackerExamples.now) events.
Proof.
  do 2 eexists.
  match goal with |- ?E /\ _ => assert (H : E) by reflexivity end.
  split; [exact H|].
  pose proof (proj1 (InternalUpdate_updates_every_tool _ _ _ _ _ _ H)) as Hall.
  split; apply Hall; (split; [reflexivity | split; [reflexivity|]]).
  - exists TrackerExamples.stylus. split; [right; left; reflexivity | split; reflexivity].
  - split; [right; left; reflexivity | split; [reflexivity|]].
    intros (mk & [<-|[<-|[]]] & Hl); cbv in Hl; discriminate Hl.
Defined.

Lemma InternalUpdate_frame_number_witness :
  exists this' events,
    InternalUpdate TrackerExamples.busy_camera TrackerExamples.now TrackerExamples.tools
      TrackerExamples.tool_by_port_name TrackerExamples.unsigned_range
      TrackerExamples.connected
    = inl (PLUS_FAIL, this', events)
    /\ FrameNumber this' = 1%Z.
Proof.
  do 2 eexists.
  match goal with |- ?E /\ _ => assert (H : E) by reflexivity end.
  split; [exact H|].
  exact (proj1 (InternalUpdate_frame_number _ _ _ _ _ _ H)).
Defined.
